(** * UniversalValidator: a shallow embedding of the validation pipeline

    The Python sources embedded here are

      - [modules/validation_engine copy.py]  (the Rule Evaluation Engine),
      - [modules/response_builder.py]        (the Response Assembler),
      - [modules/order_filter.py]            (the Order Classifier),
      - [modules/order_fetcher.py]           (the Order Retriever),
      - [modules/asset_fetcher.py]           (the Asset Assembler),
      - [modules/bulk_validator.py]          (the Bulk Executor).

    The code is dynamically typed and works on JSON-shaped data, so the
    embedding starts with a small model of Python values ([Py.pyval]) and of
    raised exceptions ([Py.result]); every source function is then written
    over these, one Rocq definition per Python method, keeping the order of
    the statements of the source (an exception raised by an earlier
    statement hides the later ones).  The embedding comes first, then the
    vocabulary of the properties, then the properties themselves. *)

From Stdlib Require Import String Ascii ZArith QArith Qround Field List Bool Lia.
From Stdlib Require Import DecimalString Permutation.
From stdpp Require Import base option list strings gmap.

Set Warnings "-register-all".
Local Open Scope string_scope.
Local Open Scope list_scope.

(* ===================================================================== *)
(** * Python values, truthiness, equality and exceptions                  *)
(* ===================================================================== *)

Module Py.

(** JSON-shaped Python values.  Numbers ([int] and [float]) are exact
    rationals: the code only tests them against [0] and counts with them.
    A [dict] is its list of items in insertion order. *)
Inductive pyval : Type :=
| VNone
| VBool (b : bool)
| VNum (q : Q)
| VStr (s : string)
| VList (l : list pyval)
| VDict (d : list (pyval * pyval)).

Coercion VStr : string >-> pyval.

(** The exception classes the modelled code can meet.  Messages are kept
    only where the code puts them into a result ([str(e)]). *)
Inductive exn : Type :=
| AttributeError          (* a method such as .get or .split on a value without it *)
| TypeError               (* iterating a non-iterable, an unhashable key, a non-str argument *)
| ValueError              (* raised by the code itself on a bad configuration *)
| ClientError (msg : string).  (* raised by the record source or the HTTP transport *)

Inductive result (A : Type) : Type :=
| Ok (a : A)
| Raise (e : exn).
Arguments Ok {A} a.
Arguments Raise {A} e.

#[export] Instance result_ret : MRet result := fun A a => Ok a.
#[export] Instance result_bind : MBind result := fun A B f m =>
  match m with
  | Ok a => f a
  | Raise e => Raise e
  end.

(** [bool(v)] *)
Definition truthy (v : pyval) : bool :=
  match v with
  | VNone => false
  | VBool b => b
  | VNum q => negb (Qeq_bool q 0)
  | VStr s => negb (String.eqb s "")
  | VList l => match l with [] => false | _ => true end
  | VDict d => match d with [] => false | _ => true end
  end.

(** [v is None] and [isinstance(v, dict)] *)
Definition is_none (v : pyval) : bool :=
  match v with VNone => true | _ => false end.

Definition is_dict (v : pyval) : bool :=
  match v with VDict _ => true | _ => false end.

(** [a == b]: numbers by value, [True == 1] and [False == 0], lists
    pointwise, dicts as sets of items. *)
Fixpoint py_eq (a b : pyval) {struct a} : bool :=
  match a, b with
  | VNone, VNone => true
  | VBool x, VBool y => Bool.eqb x y
  | VBool x, VNum q => Qeq_bool (if x then 1 else 0) q
  | VNum q, VBool x => Qeq_bool q (if x then 1 else 0)
  | VNum p, VNum q => Qeq_bool p q
  | VStr s, VStr t => String.eqb s t
  | VList l, VList m =>
      (fix pointwise (l m : list pyval) {struct l} : bool :=
         match l, m with
         | [], [] => true
         | x :: l', y :: m' => py_eq x y && pointwise l' m'
         | _, _ => false
         end) l m
  | VDict d, VDict e =>
      Nat.eqb (length d) (length e) &&
      (fix items (d : list (pyval * pyval)) {struct d} : bool :=
         match d with
         | [] => true
         | (k, v) :: d' =>
             (fix find (e : list (pyval * pyval)) {struct e} : bool :=
                match e with
                | [] => false
                | (k', w) :: e' => if py_eq k k' then py_eq v w else find e'
                end) e && items d'
         end) d
  | _, _ => false
  end.

(** Lists and dicts are unhashable: using one as a key raises [TypeError]. *)
Definition hashable (k : pyval) : bool :=
  match k with
  | VList _ | VDict _ => false
  | _ => true
  end.

(** The item stored under key [k], first match in insertion order (keys of a
    dict are pairwise different under [==]). *)
Fixpoint lookup_item {V : Type} (d : list (pyval * V)) (k : pyval) : option V :=
  match d with
  | [] => None
  | (k', v) :: d' => if py_eq k' k then Some v else lookup_item d' k
  end.

(** [d.get(k, default)] on a dict. *)
Definition dict_get (d : list (pyval * pyval)) (k : pyval) (default : pyval) : pyval :=
  match lookup_item d k with
  | Some v => v
  | None => default
  end.

(** [d[k] = v]: an existing key keeps its position.  The values may be of
    any type, the keys are Python values. *)
Fixpoint dict_set {V : Type} (d : list (pyval * V)) (k : pyval) (v : V)
  : list (pyval * V) :=
  match d with
  | [] => [(k, v)]
  | (k', w) :: d' => if py_eq k' k then (k', v) :: d' else (k', w) :: dict_set d' k v
  end.

(** [v.get(k, default)] with a string literal for [k]: only a dict has the
    method. *)
Definition get (v : pyval) (k : string) (default : pyval) : result pyval :=
  match v with
  | VDict d => Ok (dict_get d k default)
  | _ => Raise AttributeError
  end.

(** [v.get(k)] with a computed key. *)
Definition get_key (v : pyval) (k : pyval) : result pyval :=
  match v with
  | VDict d => if hashable k then Ok (dict_get d k VNone) else Raise TypeError
  | _ => Raise AttributeError
  end.

(** [d[k] = v] with a computed key. *)
Definition set_key {V : Type} (d : list (pyval * V)) (k : pyval) (v : V)
  : result (list (pyval * V)) :=
  if hashable k then Ok (dict_set d k v) else Raise TypeError.

(** A string holds the bytes of its UTF-8 encoding; the bytes [10xxxxxx]
    continue the character that the byte before them began. *)
Definition continuation (c : ascii) : bool :=
  let n := N_of_ascii c in ((128 <=? n) && (n <? 192))%N.

(** The characters of a string, each with the bytes that encode it. *)
Fixpoint code_points (s : string) : list string :=
  match s with
  | EmptyString => []
  | String c s' =>
      match s' with
      | EmptyString => [String c EmptyString]
      | String c' _ =>
          if continuation c' then
            match code_points s' with
            | w :: ws => String c w :: ws
            | [] => [String c EmptyString]
            end
          else String c EmptyString :: code_points s'
      end
  end.

(** The one-character strings of a string. *)
Definition chars (s : string) : list pyval := map VStr (code_points s).

(** [for x in v]: the elements of a list, the keys of a dict, the characters
    of a string; anything else is not iterable. *)
Definition iter (v : pyval) : result (list pyval) :=
  match v with
  | VList l => Ok l
  | VDict d => Ok (map fst d)
  | VStr s => Ok (chars s)
  | _ => Raise TypeError
  end.

(** [any(f(x) for x in l)], which stops at the first true element. *)
Fixpoint any {A : Type} (f : A -> result bool) (l : list A) : result bool :=
  match l with
  | [] => Ok false
  | x :: l' =>
      match f x with
      | Ok true => Ok true
      | Ok false => any f l'
      | Raise e => Raise e
      end
  end.

(** [s.split(sep)] for a one-character separator. *)
Fixpoint split_on (sep : ascii) (s : string) : list string :=
  match s with
  | EmptyString => [EmptyString]
  | String c s' =>
      if Ascii.eqb c sep then EmptyString :: split_on sep s'
      else match split_on sep s' with
           | [] => [String c EmptyString]
           | w :: ws => String c w :: ws
           end
  end.

(** [asset.get(outer, {}).get(inner) if isinstance(asset.get(outer), dict)
    else otherwise] *)
Definition inner_or (asset : pyval) (outer inner : string)
    (otherwise : result pyval) : result pyval :=
  o ← get asset outer VNone;
  if is_dict o then
    o ← get asset outer (VDict []);
    get o inner VNone
  else otherwise.

(** ** Numbers *)

(** The value of a number; a boolean counts as 0 or 1. *)
Definition number (v : pyval) : option Q :=
  match v with
  | VNum q => Some q
  | VBool b => Some (if b then 1 else 0)%Q
  | _ => None
  end.

(** [a + b]: the sum of two numbers, two texts or two lists one after the
    other; nothing else can be added. *)
Definition add (a b : pyval) : result pyval :=
  match number a, number b with
  | Some p, Some q => Ok (VNum (p + q)%Q)
  | _, _ =>
      match a, b with
      | VStr s, VStr t => Ok (VStr (s ++ t)%string)
      | VList l, VList m => Ok (VList (l ++ m))
      | _, _ => Raise TypeError
      end
  end.

(** [a > 0]: only a number is ordered against 0. *)
Definition gt_zero (a : pyval) : result bool :=
  match number a with
  | Some q => Ok (if Qlt_le_dec 0%Q q then true else false)
  | None => Raise TypeError
  end.

(** [len(v)] *)
Definition len (v : pyval) : result nat :=
  match v with
  | VList l => Ok (length l)
  | VDict d => Ok (length d)
  | VStr s => Ok (length (code_points s))
  | _ => Raise TypeError
  end.

(** The integer nearest to a rational, a tie going to the even one. *)
Definition round_half_even (q : Q) : Z :=
  let f := Qfloor q in
  match Qcompare (q - inject_Z f) (1 # 2) with
  | Lt => f
  | Gt => (f + 1)%Z
  | Eq => if Z.even f then f else (f + 1)%Z
  end.

(** [round(x, 2)] on the value of a float: the nearest multiple of 1/100,
    a tie going to the even one (the float that [round] returns is the one
    that prints as this number). *)
Definition round2 (x : Q) : Q := Qmake (round_half_even (x * 100)) 100.

(** ** Floats *)

(** [q * 2 ** e] *)
Definition scale2 (q : Q) (e : Z) : Q :=
  if (0 <=? e)%Z then q * inject_Z (2 ^ e) else q / inject_Z (2 ^ (- e)).

(** The exponent [e] of the float nearest to [n / d]: the one for which
    [n / d / 2 ** e] lies between [2 ** 52] and [2 ** 53]. *)
Definition binary_exponent (n d : positive) : Z :=
  let e := (Z.log2 (Zpos n) - Z.log2 (Zpos d) - 52)%Z in
  if Qlt_le_dec (scale2 (Zpos n # d) (- e)) (inject_Z (2 ^ 52))
  then (e - 1)%Z else e.

(** The float nearest to [n / d]: a mantissa of 53 bits, a tie going to
    the even mantissa.  The range of the exponent is not limited (the
    numbers of the program are counts and their ratios). *)
Definition nearest (n d : positive) : Q :=
  let e := binary_exponent n d in
  scale2 (inject_Z (round_half_even (scale2 (Zpos n # d) (- e)))) e.

(** The value of the float that an arithmetic operation returns for the
    exact result [q]. *)
Definition float (q : Q) : Q :=
  match Qred q with
  | Qmake (Zpos n) d => nearest n d
  | Qmake (Zneg n) d => - nearest n d
  | Qmake Z0 _ => 0
  end.

(** [round(p / t * 100, 2)]: the quotient and the product are floats. *)
Definition percent (p t : Q) : Q := round2 (float (float (p / t) * 100)).


End Py.

(* ===================================================================== *)
(** * Rule Evaluation Engine ([validation_engine copy.py])                *)
(* ===================================================================== *)

Module ValidationEngine.
Import Py.

(** ** [_get_nested_value] *)

(** The loop over the keys of the path. *)
Fixpoint walk (value : pyval) (keys : list string) : pyval :=
  match keys with
  | [] => value
  | key :: keys' =>
      match value with
      | VDict d => walk (dict_get d key VNone) keys'
      | _ => VNone
      end
  end.

(** [path.split('.')] raises on anything but a string; the [except] clause
    turns that into [None]. *)
Definition _get_nested_value (data path : pyval) : pyval :=
  match path with
  | VStr p => walk data (split_on "." p)
  | _ => VNone
  end.

(** ** The handlers of the dispatcher *)

Definition _check_presence (check assets : pyval) : result bool :=
  logic ← get check "logic" VNone;
  if py_eq logic "search_line_children_for_sim_card" then
    line_children ← get assets "line_children" (VList []);
    cs ← iter line_children;
    any (fun c => code ← get c "product_code" VNone;
                  mret (py_eq code "PR_B2C_SIM_Card")) cs
  else if py_eq logic "validate_device_exists" then
    device ← get assets "device" VNone;
    match device with
    | VDict d => mret (negb (is_none device) && truthy (dict_get d "id" VNone))
    | _ => mret false
    end
  else mret false.

Definition _check_status (check assets : pyval) : result bool :=
  field_path ← get check "field" "";
  expected_value ← get check "expected_value" VNone;
  let value := _get_nested_value assets field_path in
  mret (py_eq value expected_value).

Definition _check_custom (check assets : pyval) : result bool :=
  logic ← get check "logic" VNone;
  mret true.

(** Checks 1 to 4 on one [charges] value.  The four charge methods repeat
    this block word for word (only the log tags differ):
<<
      if charges is None: return False
      if not isinstance(charges, dict): return False
      one_time = charges.get('one_time'); recurring = charges.get('recurring')
      if one_time is None and recurring is None: return False
      if not allow_zero:
          if (one_time is None or one_time == 0) and
             (recurring is None or recurring == 0): return False
>>
    The result is [false] where the block returns [False] and [true] where
    control falls through it. *)
Definition charge_checks (charges allow_zero : pyval) : bool :=
  if is_none charges then false
  else match charges with
       | VDict c =>
           let one_time := dict_get c "one_time" VNone in
           let recurring := dict_get c "recurring" VNone in
           if is_none one_time && is_none recurring then false
           else if negb (truthy allow_zero) then
             if (is_none one_time || py_eq one_time (VNum 0))
                && (is_none recurring || py_eq recurring (VNum 0))
             then false else true
           else true
       | _ => false
       end.

Definition _validate_device_charges (assets allow_zero : pyval) : result bool :=
  device ← get assets "device" VNone;
  if negb (truthy device) then mret false
  else
    charges ← get device "charges" VNone;
    mret (charge_checks charges allow_zero).

(** The [for idx, child in enumerate(children)] loop of the two children
    methods: the first child that fails a check ends it with [False]. *)
Fixpoint children_loop (children : list pyval) (allow_zero : pyval) : result bool :=
  match children with
  | [] => Ok true
  | child :: rest =>
      charges ← get child "charges" VNone;
      if charge_checks charges allow_zero then children_loop rest allow_zero
      else mret false
  end.

Definition _validate_line_children_charges (assets allow_zero : pyval) : result bool :=
  line_children ← get assets "line_children" (VList []);
  if negb (truthy line_children) then mret true
  else
    cs ← iter line_children;
    children_loop cs allow_zero.

Definition _validate_device_children_charges (assets allow_zero : pyval) : result bool :=
  device_children ← get assets "device_children" (VList []);
  if negb (truthy device_children) then mret true
  else
    cs ← iter device_children;
    children_loop cs allow_zero.

(** [[c for c in line_children if c.get('product_code') == 'PR_B2C_SIM_Card']] *)
Fixpoint sim_cards_of (cs : list pyval) : result (list pyval) :=
  match cs with
  | [] => Ok []
  | c :: cs' =>
      code ← get c "product_code" VNone;
      rest ← sim_cards_of cs';
      mret (if py_eq code "PR_B2C_SIM_Card" then c :: rest else rest)
  end.

Definition _validate_sim_card_charges (assets allow_zero : pyval) : result bool :=
  line_children ← get assets "line_children" (VList []);
  cs ← iter line_children;
  sim_cards ← sim_cards_of cs;
  match sim_cards with
  | [] => mret false
  | sim :: _ =>
      charges ← get sim "charges" VNone;
      mret (charge_checks charges allow_zero)
  end.

Definition _check_charges (check assets : pyval) : result bool :=
  logic ← get check "logic" VNone;
  allow_zero ← get check "allow_zero" (VBool true);
  if py_eq logic "validate_all_line_children_charges" then
    _validate_line_children_charges assets allow_zero
  else if py_eq logic "validate_device_charges" then
    _validate_device_charges assets allow_zero
  else if py_eq logic "validate_all_device_children_charges" then
    _validate_device_children_charges assets allow_zero
  else if py_eq logic "validate_sim_card_charges" then
    _validate_sim_card_charges assets allow_zero
  else mret false.

(** ** [_execute_check] *)

(** The body of the [try] block. *)
Definition dispatch (check_type check assets : pyval) : result bool :=
  if py_eq check_type "presence" then _check_presence check assets
  else if py_eq check_type "charges" then _check_charges check assets
  else if py_eq check_type "status" then _check_status check assets
  else if py_eq check_type "custom" then _check_custom check assets
  else mret false.

(** The two [check.get] calls stand before the [try]; [except Exception]
    then turns whatever the handlers raise into [False]. *)
Definition _execute_check (check assets : pyval) : result bool :=
  check_type ← get check "validation_type" VNone;
  check_id ← get check "id" VNone;
  match dispatch check_type check assets with
  | Ok b => mret b
  | Raise _ => mret false
  end.

(** ** Check result sets *)

(** What [_run_basic_checks] and [_run_reason_checks] return: the five-key
    dict of a set that ran, or the two-key dict of a skipped reason. *)
Inductive check_result_set : Type :=
| Ran (status : string) (checks : list (pyval * pyval)) (passed failed total : nat)
| Skipped (reason : pyval).

(** The [for check in checks] loop filling [results]. *)
Fixpoint run_loop (checks : list pyval) (assets : pyval)
    (results : list (pyval * pyval)) : result (list (pyval * pyval)) :=
  match checks with
  | [] => Ok results
  | check :: rest =>
      check_id ← get check "id" VNone;
      r ← _execute_check check assets;
      results' ← set_key results check_id (VBool r);
      run_loop rest assets results'
  end.

(** [sum(1 for v in results.values() if v)] *)
Definition count_true (results : list (pyval * pyval)) : nat :=
  length (filter (fun kv => truthy (snd kv) = true) results).

(** The statistics computed after either loop. *)
Definition summarize (results : list (pyval * pyval)) : check_result_set :=
  let passed := count_true results in
  let failed := (length results - passed)%nat in
  let status := if Nat.eqb failed 0 then "PASSED" else "FAILED" in
  Ran status results passed failed (length results).

Definition _run_basic_checks (validations_config assets : pyval)
  : result check_result_set :=
  basic_config ← get validations_config "basic" (VDict []);
  checks ← get basic_config "checks" (VList []);
  cs ← iter checks;
  results ← run_loop cs assets [];
  mret (summarize results).

Definition _run_reason_checks (validations_config reason assets : pyval)
  : result check_result_set :=
  reason_based ← get validations_config "reason_based" (VDict []);
  reason_config ← get_key reason_based reason;
  if negb (truthy reason_config) then mret (Skipped reason)
  else
    checks ← get reason_config "checks" (VList []);
    cs ← iter checks;
    results ← run_loop cs assets [];
    mret (summarize results).

(** The loop over [order_reasons] of [validate_for_msisdn]. *)
Fixpoint reasons_loop (validations_config : pyval) (order_reasons : list pyval)
    (assets : pyval) (reason_results : list (pyval * check_result_set))
  : result (list (pyval * check_result_set)) :=
  match order_reasons with
  | [] => Ok reason_results
  | reason :: rest =>
      if truthy reason then
        r ← _run_reason_checks validations_config reason assets;
        reason_results' ← set_key reason_results reason r;
        reasons_loop validations_config rest assets reason_results'
      else reasons_loop validations_config rest assets reason_results
  end.

Record validation_output : Type := {
  basic : check_result_set;
  reason_based : list (pyval * check_result_set)
}.

Definition validate_for_msisdn (validations_config assets : pyval)
    (order_reasons : list pyval) : result validation_output :=
  basic_results ← _run_basic_checks validations_config assets;
  reason_results ← reasons_loop validations_config order_reasons assets [];
  mret {| basic := basic_results; reason_based := reason_results |}.

(** [validate_for_order_type]: without [order_reasons] the order type, when
    it is not empty, is the only reason; the rest is [validate_for_msisdn],
    which runs the basic checks before it starts to iterate over the
    reasons. *)
Definition validate_for_order_type (validations_config order_type assets : pyval)
    (order_reasons : pyval) : result validation_output :=
  let order_reasons :=
    if is_none order_reasons
    then VList (if truthy order_type then [order_type] else [])
    else order_reasons in
  basic_results ← _run_basic_checks validations_config assets;
  reasons ← iter order_reasons;
  reason_results ← reasons_loop validations_config reasons assets [];
  mret {| basic := basic_results; reason_based := reason_results |}.

End ValidationEngine.

(* ===================================================================== *)
(** * Response Assembler ([response_builder.py])                          *)
(* ===================================================================== *)

Module ResponseBuilder.
Import Py.

(** The loop of [_build_msisdn_response] over [reason_checks.items()]: the
    first item that is a dict whose [status] differs from ["SKIPPED"] sets
    [reason_status] and ends the loop; without one, [reason_status] keeps
    its initial value ["SKIPPED"]. *)
Fixpoint first_reason_status (items : list (pyval * pyval)) : pyval :=
  match items with
  | [] => VStr "SKIPPED"
  | (reason_key, reason_data) :: rest =>
      match reason_data with
      | VDict d =>
          if negb (py_eq (dict_get d "status" VNone) "SKIPPED")
          then dict_get d "status" "SKIPPED"
          else first_reason_status rest
      | _ => first_reason_status rest
      end
  end.

(** [reason_checks.items()]: only a dict has the method. *)
Definition items_of (v : pyval) : result (list (pyval * pyval)) :=
  match v with
  | VDict d => Ok d
  | _ => Raise AttributeError
  end.

(** The verdict of [_build_msisdn_response]: the statements of the method
    from [validations = validation_data.get("validations", {})] to the
    warnings override, which alone decide the [validation_status] entry of
    the response (the other statements render assets and order history). *)
Definition validation_status (validation_data : pyval) : result string :=
  validations ← get validation_data "validations" (VDict []);
  warnings ← get validation_data "warnings" (VList []);
  basic_checks ← get validations "basic" (VDict []);
  reason_checks ← get validations "reason_based" (VDict []);
  basic_status ← get basic_checks "status" "SKIPPED";
  items ← items_of reason_checks;
  let reason_status := first_reason_status items in
  let validation_status :=
    if py_eq basic_status "FAILED" then "FAILED"
    else if py_eq reason_status "FAILED" then "FAILED"
    else if py_eq basic_status "PASSED"
            && (py_eq reason_status "PASSED" || py_eq reason_status "SKIPPED")
         then "PASSED"
    else "PASSED_WITH_WARNINGS" in
  mret (if truthy warnings && String.eqb validation_status "PASSED"
        then "PASSED_WITH_WARNINGS" else validation_status).

(** [x in l] for a list [l]: some item of the list equals [x]. *)
Definition member (x : pyval) (l : list pyval) : bool :=
  existsb (fun item => py_eq item x) l.

(** The loop of [_extract_order_info]; [first] tells that the index is 0,
    where the status of the order is read. *)
Fixpoint order_info_loop (order_history : list pyval) (first : bool)
    (order_reasons : list pyval) (order_status : pyval)
  : result (list pyval * pyval) :=
  match order_history with
  | [] => Ok (order_reasons, order_status)
  | order_item :: rest =>
      order ← get order_item "Order" (VDict []);
      reason ← get order "vlocity_cmt__Reason__c" VNone;
      let order_reasons :=
        if truthy reason && negb (member reason order_reasons)
        then order_reasons ++ [reason] else order_reasons in
      if first then
        status ← get order "vlocity_cmt__OrderStatus__c" VNone;
        order_info_loop rest false order_reasons status
      else order_info_loop rest false order_reasons order_status
  end.

(** [_extract_order_info]: the first three distinct reasons and the status
    of the first order. *)
Definition _extract_order_info (order_history : pyval)
  : result (list pyval * pyval) :=
  items ← iter order_history;
  '(order_reasons, order_status) ← order_info_loop items true [] VNone;
  mret (firstn 3 order_reasons, order_status).

(** [x.get("Name") if isinstance(x, dict) else x] *)
Definition name_of (x : pyval) : pyval :=
  match x with
  | VDict d => dict_get d "Name" VNone
  | _ => x
  end.

(** [_clean_asset]; its second argument is not used. *)
Definition _clean_asset (asset : pyval) : result pyval :=
  if negb (truthy asset) then mret VNone
  else
    product ← get asset "Product2" (VDict []);
    modified_by ← get asset "LastModifiedBy" (VDict []);
    created_by ← get asset "CreatedBy" (VDict []);
    product_class ← get product "vlocity_cmt__ParentClassCode__c" VNone;
    let modified_by_name := name_of modified_by in
    let created_by_name := name_of created_by in
    id ← get asset "Id" VNone;
    product_name ← get product "Name" VNone;
    product_code ← get product "ProductCode" VNone;
    status ← get asset "vlocity_cmt__ProvisioningStatus__c" VNone;
    asset_reference ← get asset "vlocity_cmt__AssetReferenceId__c" VNone;
    original_oli_id ← get asset "PR_Original_OLI_ID__c" VNone;
    one_time ← get asset "vlocity_cmt__OneTimeCharge__c" VNone;
    recurring ← get asset "vlocity_cmt__RecurringCharge__c" VNone;
    disconnect_date ← get asset "vlocity_cmt__DisconnectDate__c" VNone;
    disconnect_reason ← get asset "Disconnection_Reason__c" VNone;
    created_date ← get asset "CreatedDate" VNone;
    modified_date ← get asset "LastModifiedDate" VNone;
    let cleaned :=
      [(VStr "id", id);
       (VStr "product_name", product_name);
       (VStr "product_code", product_code);
       (VStr "product_class", product_class);
       (VStr "status", status);
       (VStr "asset_reference", asset_reference);
       (VStr "original_oli_id", original_oli_id);
       (VStr "charges",
        VDict [(VStr "one_time", one_time); (VStr "recurring", recurring)]);
       (VStr "disconnect_info",
        VDict [(VStr "disconnect_date", disconnect_date);
               (VStr "disconnect_reason", disconnect_reason)]);
       (VStr "audit",
        VDict [(VStr "created_date", created_date);
               (VStr "created_by", created_by_name);
               (VStr "modified_date", modified_date);
               (VStr "modified_by", modified_by_name)])] in
    if member product_class
         [VStr "PR_B2C_Mobile_Device_Class"; VStr "PR_B2C_Mobile_BYOD_Device_Class"]
    then
      reporting_string ← get asset "PR_Generic_Reporting_String__c" VNone;
      contract_term ← get asset "Contract_Term__c" VNone;
      installment_id ← get asset "PRB2C_Installment_ID__c" VNone;
      mret (VDict (dict_set
                     (dict_set
                        (dict_set cleaned "reporting_string" reporting_string)
                        "contract_term" contract_term)
                     "installment_id" installment_id))
    else mret (VDict cleaned).

(** ** [_build_msisdn_response] *)

(** [_extract_line_details] *)
Definition _extract_line_details (line_asset : pyval) : result pyval :=
  if negb (truthy line_asset) then mret (VDict [])
  else
    msisdn ← get line_asset "PR_MSISDN__c" VNone;
    segment ←
      inner_or line_asset "vlocity_cmt__BillingAccountId__r" "Segment__c"
        (mret VNone);
    cb_subscription_id ← get line_asset "CB_Subscription_Id__c" VNone;
    billing_number ←
      inner_or line_asset "vlocity_cmt__BillingAccountId__r"
        "PR_Mobile_Billing_Number__c" (mret VNone);
    mret (VDict [(VStr "msisdn", msisdn);
                 (VStr "segment", segment);
                 (VStr "cb_subscription_id", cb_subscription_id);
                 (VStr "billing_number", billing_number)]).

(** One turn of the loop of [_format_order_history]: the entry appended
    to [orders]. *)
Definition history_entry (order_item : pyval) : result pyval :=
  order ← get order_item "Order" (VDict []);
  billing_account ← get order_item "vlocity_cmt__BillingAccountId__r" (VDict []);
  '(segment, payment_type) ←
    (if is_dict billing_account then
       segment ← get billing_account "Segment__c" VNone;
       payment_type ←
         get billing_account "vlocity_cmt__AccountPaymentType__c" VNone;
       mret (segment, payment_type)
     else
       segment ←
         get order_item "vlocity_cmt__BillingAccountId__r.Segment__c" VNone;
       payment_type ←
         get order_item
           "vlocity_cmt__BillingAccountId__r.vlocity_cmt__AccountPaymentType__c"
           VNone;
       mret (segment, payment_type));
  order_id ← get order "Id" VNone;
  order_item_id ← get order_item "Id" VNone;
  type ← get order "Type" VNone;
  reason ← get order "vlocity_cmt__Reason__c" VNone;
  status ← get order "vlocity_cmt__OrderStatus__c" VNone;
  notes ← get order "vlocity_cmt__Notes__c" VNone;
  created_date ← get order_item "CreatedDate" VNone;
  modified_date ← get order_item "LastModifiedDate" VNone;
  submitted_to_om_date ← get order "vlocity_cmt__SubmittedToOmDate__c" VNone;
  created_by ← inner_or order "CreatedBy" "Name" (get order "CreatedBy" VNone);
  orchestration_created_by ←
    (plan ← get order "vlocity_cmt__OrchestrationPlanId__r" VNone;
     if is_dict plan then
       plan ← get order "vlocity_cmt__OrchestrationPlanId__r" (VDict []);
       creator ← get plan "CreatedBy" (VDict []);
       get creator "Name" VNone
     else mret VNone);
  product_name ←
    inner_or order_item "vlocity_cmt__Product2Id__r" "Name"
      (get order_item "vlocity_cmt__Product2Id__r.Name" VNone);
  product_class ←
    inner_or order_item "vlocity_cmt__Product2Id__r"
      "vlocity_cmt__ParentClassCode__c"
      (get order_item
         "vlocity_cmt__Product2Id__r.vlocity_cmt__ParentClassCode__c" VNone);
  mret (VDict [(VStr "order_id", order_id);
               (VStr "order_item_id", order_item_id);
               (VStr "type", type);
               (VStr "reason", reason);
               (VStr "status", status);
               (VStr "notes", notes);
               (VStr "created_date", created_date);
               (VStr "modified_date", modified_date);
               (VStr "submitted_to_om_date", submitted_to_om_date);
               (VStr "created_by", created_by);
               (VStr "orchestration_created_by", orchestration_created_by);
               (VStr "product_name", product_name);
               (VStr "product_class", product_class);
               (VStr "segment", segment);
               (VStr "payment_type", payment_type)]).

Fixpoint history_entries (order_history : list pyval) : result (list pyval) :=
  match order_history with
  | [] => Ok []
  | order_item :: rest =>
      entry ← history_entry order_item;
      orders ← history_entries rest;
      mret (entry :: orders)
  end.

Definition _format_order_history (order_history : pyval) : result pyval :=
  if negb (truthy order_history) then
    mret (VDict [(VStr "count", VNum 0); (VStr "orders", VNone)])
  else
    items ← iter order_history;
    orders ← history_entries items;
    mret (VDict [(VStr "count", VNum (inject_Z (Z.of_nat (length orders))));
                 (VStr "orders", VList orders)]).

(** [[self._clean_asset(a) for a in children] if children else None] *)
Fixpoint clean_all (assets : list pyval) : result (list pyval) :=
  match assets with
  | [] => Ok []
  | a :: rest =>
      cleaned ← _clean_asset a;
      more ← clean_all rest;
      mret (cleaned :: more)
  end.

Definition cleaned_children (children : pyval) : result pyval :=
  if truthy children then
    items ← iter children;
    cleaned ← clean_all items;
    mret (VList cleaned)
  else mret VNone.

(** The loop over [reason_checks.items()] once more, for the whole of the
    reason set at which it ends: the first item that is a dict whose
    [status] differs from ["SKIPPED"]. *)
Fixpoint first_reason (items : list (pyval * pyval))
  : option (list (pyval * pyval)) :=
  match items with
  | [] => None
  | (reason_key, reason_data) :: rest =>
      match reason_data with
      | VDict d =>
          if negb (py_eq (dict_get d "status" VNone) "SKIPPED")
          then Some d
          else first_reason rest
      | _ => first_reason rest
      end
  end.

(** What the loop leaves in [reason_status], [reason_passed],
    [reason_failed] and [reason_total]: the entry of the reason set at
    which it ended, or the initial value. *)
Definition reason_entry (first : option (list (pyval * pyval)))
    (key : string) (initial : pyval) : pyval :=
  match first with
  | Some d => dict_get d key initial
  | None => initial
  end.

(** [round((passed_checks / total_checks * 100), 2) if total_checks > 0
    else 0] *)
Definition percentage (passed_checks total_checks : pyval) : result pyval :=
  above ← gt_zero total_checks;
  if above : bool then
    match number passed_checks, number total_checks with
    | Some p, Some t => Ok (VNum (percent p t))
    | _, _ => Raise TypeError
    end
  else Ok (VNum 0).

(** [[w.get("modified_by") for w in warnings]] *)
Fixpoint modified_by_all (warnings : list pyval) : result (list pyval) :=
  match warnings with
  | [] => Ok []
  | w :: rest =>
      user ← get w "modified_by" VNone;
      users ← modified_by_all rest;
      mret (user :: users)
  end.

(** The elements of [set(l)], every one of which must be hashable.  The
    order in which Python lists a set is not fixed; the model lists the
    elements by their first occurrence in [l]. *)
Fixpoint first_occurrences (l seen : list pyval) : list pyval :=
  match l with
  | [] => []
  | x :: rest =>
      if member x seen then first_occurrences rest seen
      else x :: first_occurrences rest (x :: seen)
  end.

Definition set_of (l : list pyval) : result (list pyval) :=
  if forallb hashable l then Ok (first_occurrences l []) else Raise TypeError.

(** The entry [warnings] of a response. *)
Record warnings_block : Type := {
  modified_by_users : list pyval;
  assets_manually_modified : pyval
}.

(** The entry [notes] of a response, one of three texts: that all checks
    passed; that all checks passed but [len(warnings)] assets were
    manually modified; that the validation failed with [failed_checks]
    failed checks. *)
Inductive note : Type :=
| AllChecksPassed
| ManuallyModified (assets : nat)
| ValidationFailed (failed_checks : pyval).

(** The dict that [_build_msisdn_response] returns; [response_warnings]
    is [None] when the dict has no [warnings] entry. *)
Record response : Type := {
  response_msisdn : string;
  response_line_details : pyval;
  response_validation_status : string;
  response_order_being_validated : string;
  response_order_reasons : list pyval;
  response_order_status : pyval;
  response_order_history : pyval;
  response_device_asset : pyval;
  response_line_asset : pyval;
  response_child_of_line : pyval;
  response_child_of_device : pyval;
  response_validations : pyval;
  response_summary_status : string;
  response_success_rate : pyval;
  response_warnings : option warnings_block;
  response_notes : note
}.

(** [_build_msisdn_response]; [order_data] is not used. *)
Definition _build_msisdn_response (msisdn : string)
    (order_data validation_data : pyval) : result response :=
  assets_raw ← get validation_data "assets" (VDict []);
  latest_line ← get assets_raw "latest_line" VNone;
  device ← get assets_raw "device" VNone;
  line_children ← get assets_raw "line_children" (VList []);
  device_children ← get assets_raw "device_children" (VList []);
  order_history ← get validation_data "order_history" (VList []);
  '(order_reasons, order_status) ← _extract_order_info order_history;
  validations ← get validation_data "validations" (VDict []);
  warnings ← get validation_data "warnings" (VList []);
  basic_checks ← get validations "basic" (VDict []);
  reason_checks ← get validations "reason_based" (VDict []);
  basic_status ← get basic_checks "status" "SKIPPED";
  basic_passed ← get basic_checks "passed" (VNum 0);
  basic_failed ← get basic_checks "failed" (VNum 0);
  basic_total ← get basic_checks "total" (VNum 0);
  items ← items_of reason_checks;
  let first := first_reason items in
  let reason_status := reason_entry first "status" "SKIPPED" in
  let reason_passed := reason_entry first "passed" (VNum 0) in
  let reason_failed := reason_entry first "failed" (VNum 0) in
  let reason_total := reason_entry first "total" (VNum 0) in
  let validation_status :=
    if py_eq basic_status "FAILED" then "FAILED"
    else if py_eq reason_status "FAILED" then "FAILED"
    else if py_eq basic_status "PASSED"
            && (py_eq reason_status "PASSED" || py_eq reason_status "SKIPPED")
         then "PASSED"
    else "PASSED_WITH_WARNINGS" in
  let validation_status :=
    if truthy warnings && String.eqb validation_status "PASSED"
    then "PASSED_WITH_WARNINGS" else validation_status in
  let validation_checks :=
    VDict [(VStr "basic", basic_checks);
           (VStr "reason_based",
            if truthy reason_checks then reason_checks else VNone)] in
  total_checks ← add basic_total reason_total;
  passed_checks ← add basic_passed reason_passed;
  failed_checks ← add basic_failed reason_failed;
  line_details ←
    (if truthy latest_line then _extract_line_details latest_line
     else mret (VDict []));
  history ← _format_order_history order_history;
  device_asset ← (if truthy device then _clean_asset device else mret VNone);
  line_asset ←
    (if truthy latest_line then _clean_asset latest_line else mret VNone);
  child_of_line ← cleaned_children line_children;
  child_of_device ← cleaned_children device_children;
  success_rate ← percentage passed_checks total_checks;
  about_warnings ←
    (if truthy warnings then
       ws ← iter warnings;
       users ← modified_by_all ws;
       manually_modified_users ← set_of users;
       mret (Some {| modified_by_users := manually_modified_users;
                     assets_manually_modified := warnings |})
     else mret None);
  notes ←
    (if String.eqb validation_status "PASSED" then mret AllChecksPassed
     else if String.eqb validation_status "PASSED_WITH_WARNINGS" then
       n ← len warnings;
       mret (ManuallyModified n)
     else mret (ValidationFailed failed_checks));
  mret {| response_msisdn := msisdn;
          response_line_details := line_details;
          response_validation_status := validation_status;
          response_order_being_validated := "Change Plan";
          response_order_reasons := order_reasons;
          response_order_status := order_status;
          response_order_history := history;
          response_device_asset := device_asset;
          response_line_asset := line_asset;
          response_child_of_line := child_of_line;
          response_child_of_device := child_of_device;
          response_validations := validation_checks;
          response_summary_status := validation_status;
          response_success_rate := success_rate;
          response_warnings := about_warnings;
          response_notes := notes |}.

End ResponseBuilder.

(* ===================================================================== *)
(** * Order Classifier ([order_filter.py])                                *)
(* ===================================================================== *)

Module OrderFilter.
Import Py.

(** The [CreatedDate] entry of a record: the key may be absent, hold null,
    or hold the text of a timestamp.  [group_by_msisdn] tells the three
    apart: it reads an absent key as the empty text and compares a null
    as it is. *)
Inductive date_field : Type :=
| Absent
| Null
| Date (d : string).

(** An OrderItem record as the SOQL queries of the repository select it.
    The other text fields are a string or null; there [None] stands for a
    null or absent field, which the code reads alike.  [Order] is the
    nested parent record ([None]: the key is absent, where the code falls
    back to the empty dict). *)
Record order_header : Type := {
  vlocity_cmt__Reason__c : option string;
  Type_ : option string;
  vlocity_cmt__OrderStatus__c : option string;
  vlocity_cmt__Status__c : option string
}.

(** [has_multiple_orders] and [order_count] are the two entries that
    [filter_and_group] adds to a grouped record. *)
Record order_item : Type := {
  Id : string;
  PR_MSISDN__c : option string;
  CreatedDate : date_field;
  Order : option order_header;
  has_multiple_orders : option bool;
  order_count : option nat
}.

(** [c.lower()] on one character of an ASCII string. *)
Definition lower_char (c : ascii) : ascii :=
  let n := N_of_ascii c in
  if ((65 <=? n) && (n <=? 90))%N then ascii_of_N (n + 32) else c.

(** [s.lower()] *)
Fixpoint lower (s : string) : string :=
  match s with
  | EmptyString => EmptyString
  | String c s' => String (lower_char c) (lower s')
  end.

(** [needle in hay] for two strings. *)
Fixpoint contains (needle hay : string) : bool :=
  String.prefix needle hay ||
  match hay with
  | EmptyString => false
  | String _ hay' => contains needle hay'
  end.

(** [order.get("Order", {}).get("vlocity_cmt__Reason__c", "")] followed by
    the [None] test and [str(reason).lower()]. *)
Definition reason_text (order : order_item) : string :=
  let reason :=
    match Order order with
    | Some order_obj => vlocity_cmt__Reason__c order_obj
    | None => Some ""
    end in
  match reason with
  | None => ""
  | Some r => lower r
  end.

Fixpoint filter_orders (orders : list order_item) : list order_item :=
  match orders with
  | [] => []
  | order :: rest =>
      if contains "disconnect" (reason_text order) then filter_orders rest
      else order :: filter_orders rest
  end.

(** [not msisdn]: null and the empty string are both falsy. *)
Definition msisdn_of (order : order_item) : option string :=
  match PR_MSISDN__c order with
  | Some m => if String.eqb m "" then None else Some m
  | None => None
  end.

(** [order.get("CreatedDate", "")]: a text, or [None] when the field is
    null. *)
Definition created (order : order_item) : option string :=
  match CreatedDate order with
  | Absent => Some ""
  | Null => None
  | Date d => Some d
  end.

(** [a > b] on strings: lexicographic on the characters. *)
Definition str_gt (a b : string) : bool :=
  match String.compare a b with
  | Gt => true
  | _ => false
  end.

(** [new_date > existing_date]: [None] is not ordered, neither against a
    text nor against [None]. *)
Definition gt (new_date existing_date : option string) : result bool :=
  match new_date, existing_date with
  | Some a, Some b => Ok (str_gt a b)
  | _, _ => Raise TypeError
  end.

(** One turn of the loop of [group_by_msisdn]. *)
Definition group_step (grouped : gmap string order_item) (order : order_item)
  : result (gmap string order_item) :=
  match msisdn_of order with
  | None => Ok grouped
  | Some msisdn =>
      match grouped !! msisdn with
      | None => Ok (<[msisdn := order]> grouped)
      | Some existing =>
          let existing_date := created existing in
          let new_date := created order in
          newer ← gt new_date existing_date;
          mret (if newer : bool then <[msisdn := order]> grouped else grouped)
      end
  end.

Fixpoint group_from (grouped : gmap string order_item) (orders : list order_item)
  : result (gmap string order_item) :=
  match orders with
  | [] => Ok grouped
  | order :: rest =>
      grouped' ← group_step grouped order;
      group_from grouped' rest
  end.

Definition group_by_msisdn (orders : list order_item)
  : result (gmap string order_item) :=
  group_from ∅ orders.

(** The [order_filter] section of the configuration; a missing list is the
    empty list. *)
Record filter_config : Type := {
  ignore_order_reasons : list string;
  ignore_order_types : list string
}.

(** [order.get("Order", {}).get("vlocity_cmt__Reason__c")] and the same for
    ["Type"]. *)
Definition order_reason (order : order_item) : option string :=
  match Order order with
  | Some order_obj => vlocity_cmt__Reason__c order_obj
  | None => None
  end.

Definition order_type (order : order_item) : option string :=
  match Order order with
  | Some order_obj => Type_ order_obj
  | None => None
  end.

(** [x in ignore_list] *)
Definition listed (x : string) (ignore_list : list string) : bool :=
  existsb (fun y => String.eqb y x) ignore_list.

(** The loop shared by [_filter_ignored_reasons] and
    [_filter_ignored_types], which differ in the field they read. *)
Fixpoint drop_listed (field : order_item -> option string)
    (orders : list order_item) (ignore_list : list string) : list order_item :=
  match orders with
  | [] => []
  | order :: rest =>
      match field order with
      | None => order :: drop_listed field rest ignore_list
      | Some x =>
          if listed x ignore_list then drop_listed field rest ignore_list
          else order :: drop_listed field rest ignore_list
      end
  end.

Definition _filter_ignored_reasons (orders : list order_item)
    (ignore_reasons : list string) : list order_item :=
  match ignore_reasons with
  | [] => orders
  | _ => drop_listed order_reason orders ignore_reasons
  end.

Definition _filter_ignored_types (orders : list order_item)
    (ignore_types : list string) : list order_item :=
  match ignore_types with
  | [] => orders
  | _ => drop_listed order_type orders ignore_types
  end.

(** [[o for o in filtered if o.get("PR_MSISDN__c") == msisdn]] *)
Definition orders_of (filtered : list order_item) (msisdn : string)
  : list order_item :=
  List.filter (fun o => match PR_MSISDN__c o with
                        | Some m => String.eqb m msisdn
                        | None => false
                        end) filtered.

(** The two assignments of Step 5 on the grouped record of [msisdn].  The
    record is the very dict that sits in [filtered]; the count reads only
    [PR_MSISDN__c], which the assignments leave alone. *)
Definition flag (filtered : list order_item) (msisdn : string)
    (order : order_item) : order_item :=
  let msisdn_orders := orders_of filtered msisdn in
  {| Id := Id order;
     PR_MSISDN__c := PR_MSISDN__c order;
     CreatedDate := CreatedDate order;
     Order := Order order;
     has_multiple_orders := Some (1 <? length msisdn_orders)%nat;
     order_count := Some (length msisdn_orders) |}.

(** The loop of Step 5 over the keys of [grouped]. *)
Definition flag_all (filtered : list order_item)
    (grouped : gmap string order_item) : gmap string order_item :=
  map_imap (fun msisdn order => Some (flag filtered msisdn order)) grouped.

Definition filter_and_group (orders : list order_item) (config : filter_config)
  : result (gmap string order_item) :=
  let filtered := _filter_ignored_reasons orders (ignore_order_reasons config) in
  let filtered := _filter_ignored_types filtered (ignore_order_types config) in
  let filtered := filter_orders filtered in
  grouped ← group_by_msisdn filtered;
  mret (flag_all filtered grouped).

End OrderFilter.

(* ===================================================================== *)
(** * Order Retriever ([order_fetcher.py])                                *)
(* ===================================================================== *)

Module OrderFetcher.
Import Py OrderFilter.

(** The [order_fetcher] section of the configuration.  [None] is an absent
    key, for which the code supplies its default (["latest"], [None] and
    the empty list). *)
Record fetcher_config : Type := {
  fetch_strategy : option string;
  order_reason_filter : option string;
  valid_order_reasons : option (list string)
}.

(** The record source: [sf.query_all(soql)] gives the list under
    ["records"] of its answer, or raises. *)
Definition client : Type := string -> result (list order_item).

(** What a call leaves behind: the queries sent to the record source, in
    order, and the value returned or the exception raised. *)
Definition outcome (A : Type) : Type := (list string * result A)%type.

(** The grouping loop of both modes: the first record of each MSISDN is
    kept, records without an MSISDN are passed over. *)
Definition first_step (grouped : gmap string order_item) (order : order_item)
  : gmap string order_item :=
  match msisdn_of order with
  | None => grouped
  | Some msisdn =>
      match grouped !! msisdn with
      | None => <[msisdn := order]> grouped
      | Some _ => grouped
      end
  end.

Definition group_first (records : list order_item) : gmap string order_item :=
  fold_left first_step records ∅.

(** The query texts, with the layout of the source reduced to single
    spaces. *)
Definition latest_soql : string :=
  "SELECT PR_MSISDN__c, Order.vlocity_cmt__Reason__c, Order.Id, CreatedDate, Order.vlocity_cmt__OrderStatus__c FROM OrderItem WHERE CreatedDate >= YESTERDAY AND CreatedDate < TODAY  AND Product2.vlocity_cmt__ParentClassCode__c = 'PR_B2C_Mobile_Line_Class' AND Product2.Name != 'SIM Card' AND PR_MSISDN__c !=Null and Order.vlocity_cmt__OrderStatus__c ='Activated' ORDER BY PR_MSISDN__c, CreatedDate DESC Limit 100".

Definition filtered_soql (reason_filter : string) : string :=
  ("SELECT PR_MSISDN__c, Order.vlocity_cmt__Reason__c, Order.Id, CreatedDate, Order.vlocity_cmt__OrderStatus__c FROM OrderItem WHERE CreatedDate >= YESTERDAY AND CreatedDate < TODAY AND Order.vlocity_cmt__Reason__c = '"
   ++ reason_filter ++ "' ORDER BY PR_MSISDN__c, CreatedDate DESC")%string.

(** The [try] block of both modes after the query text is built; its
    [except] clause logs and raises the exception again. *)
Definition fetch_and_group (sf : client) (soql : string)
  : outcome (gmap string order_item) :=
  ([soql],
   match sf soql with
   | Raise e => Raise e
   | Ok records =>
       match records with
       | [] => Ok ∅
       | _ => Ok (group_first records)
       end
   end).

Definition _get_latest_orders (sf : client) (config : fetcher_config)
  : outcome (gmap string order_item) :=
  fetch_and_group sf latest_soql.

(** [not reason_filter] *)
Definition no_filter (reason_filter : option string) : bool :=
  match reason_filter with
  | None => true
  | Some r => String.eqb r ""
  end.

(** [reason_filter not in valid_reasons] *)
Definition not_in (reason : string) (valid_reasons : list string) : bool :=
  negb (existsb (String.eqb reason) valid_reasons).

Definition _get_filtered_orders (sf : client) (config : fetcher_config)
  : outcome (gmap string order_item) :=
  let reason_filter := order_reason_filter config in
  if no_filter reason_filter then ([], Raise ValueError)
  else
    let reason := match reason_filter with Some r => r | None => "" end in
    let valid_reasons :=
      match valid_order_reasons config with Some l => l | None => [] end in
    if match valid_reasons with [] => false | _ => true end
       && not_in reason valid_reasons
    then ([], Raise ValueError)
    else fetch_and_group sf (filtered_soql reason).

Definition get_orders (sf : client) (config : fetcher_config)
  : outcome (gmap string order_item) :=
  let strategy :=
    match fetch_strategy config with Some s => s | None => "latest" end in
  if String.eqb strategy "latest" then _get_latest_orders sf config
  else if String.eqb strategy "filtered" then _get_filtered_orders sf config
  else ([], Raise ValueError).

(** [[msisdns[i:i+100] for i in range(0, len(msisdns), 100)]]: the range
    has one start index [100 * k] for every [k] below the number of
    hundreds, rounded up. *)
Definition chunks (msisdns : list string) : list (list string) :=
  map (fun k => firstn 100 (skipn (100 * k) msisdns))
      (seq 0 ((length msisdns + 99) / 100)).

(** The query of one chunk, with the layout of the source reduced to single
    spaces. *)
Definition batch_soql (chunk : list string) : string :=
  ("SELECT PR_MSISDN__c, Order.Id FROM OrderItem WHERE PR_MSISDN__c IN ("
   ++ String.concat "," (map (fun m => "'" ++ m ++ "'") chunk)
   ++ ") LIMIT 10000")%string.

(** The loop over the chunks of [get_orders_batch_by_msisdns]; nothing
    catches what a query raises. *)
Fixpoint batch_loop (sf : client) (chunk_list : list (list string))
    (all_records : list order_item) : outcome (list order_item) :=
  match chunk_list with
  | [] => ([], Ok all_records)
  | chunk :: rest =>
      let soql := batch_soql chunk in
      match sf soql with
      | Raise e => ([soql], Raise e)
      | Ok records =>
          let '(queries, r) := batch_loop sf rest (all_records ++ records) in
          (soql :: queries, r)
      end
  end.

Definition get_orders_batch_by_msisdns (sf : client) (msisdns : list string)
  : outcome (list order_item) :=
  match msisdns with
  | [] => ([], Ok [])
  | _ => batch_loop sf (chunks msisdns) []
  end.

End OrderFetcher.

(* ===================================================================== *)
(** * Asset Assembler ([asset_fetcher.py])                                *)
(* ===================================================================== *)

Module AssetFetcher.
Import Py.

(** One entry of [salesforce_queries]; [from_table] falls back to
    ["Asset"]. *)
Record query_config : Type := {
  fields : list string;
  from_table : option string;
  where_conditions : list string
}.

(** The empty dict the code uses for a query that is not configured. *)
Definition no_query : query_config :=
  {| fields := []; from_table := None; where_conditions := [] |}.

Definition query_named (config : gmap string query_config) (name : string)
  : query_config :=
  match config !! name with
  | Some q => q
  | None => no_query
  end.

(** The record source: the ["records"] list of the answer, or an
    exception. *)
Definition client : Type := string -> result (list pyval).

(** [s.replace(old, new)] for a non-empty [old] (the placeholders are
    literals of the source): occurrences are replaced from left to right
    without overlap.  [skip] counts the characters of the occurrence just
    replaced that are still to be dropped. *)
Fixpoint replace_from (old new : string) (skip : nat) (s : string) : string :=
  match s with
  | EmptyString => EmptyString
  | String c s' =>
      match skip with
      | S k => replace_from old new k s'
      | O =>
          if String.prefix old s
          then (new ++ replace_from old new (String.length old - 1) s')%string
          else String c (replace_from old new 0 s')
      end
  end.

Definition replace (old new s : string) : string := replace_from old new 0 s.

(** [[w.replace(old, new) for w in where_conditions]]: [str.replace] wants a
    string, and is only called when the list has an element. *)
Definition replace_all (old : string) (new : pyval) (where_conditions : list string)
  : result (list string) :=
  match where_conditions with
  | [] => Ok []
  | _ =>
      match new with
      | VStr n => Ok (map (replace old n) where_conditions)
      | _ => Raise TypeError
      end
  end.

(** [f"SELECT {', '.join(fields)} FROM {from_table}"] and the optional
    [WHERE] clause. *)
Definition select (q : query_config) (where_conditions : list string) : string :=
  let from := match from_table q with Some t => t | None => "Asset" end in
  let soql :=
    ("SELECT " ++ String.concat ", " (fields q) ++ " FROM " ++ from)%string in
  match where_conditions with
  | [] => soql
  | _ => (soql ++ " WHERE " ++ String.concat " AND " where_conditions)%string
  end.

(** [records[0] if records else None] *)
Definition first_or_none (records : list pyval) : pyval :=
  match records with
  | r :: _ => r
  | [] => VNone
  end.

Definition _get_latest_line (sf : client) (msisdn : string)
    (config : gmap string query_config) : result pyval :=
  let q := query_named config "latest_line_for_msisdn" in
  wc ← replace_all "{msisdn}" msisdn (where_conditions q);
  let soql := (select q wc ++ " ORDER BY CreatedDate DESC LIMIT 1")%string in
  records ← sf soql;
  mret (first_or_none records).

Definition _get_device_for_line (sf : client) (msisdn : string)
    (asset_reference_id : pyval) (config : gmap string query_config)
  : result pyval :=
  let q := query_named config "device_for_line" in
  wc ← replace_all "{msisdn}" msisdn (where_conditions q);
  wc ← replace_all "{asset_reference_id}" asset_reference_id wc;
  records ← sf (select q wc);
  mret (first_or_none records).

(** The summary loop of the two children queries reads
    [child.get("Product2", {})] and then [product.get("Name", "Unknown")]
    of every record, for the log. *)
Fixpoint log_children (records : list pyval) : result unit :=
  match records with
  | [] => Ok tt
  | child :: rest =>
      product ← get child "Product2" (VDict []);
      status ← get child "vlocity_cmt__ProvisioningStatus__c" VNone;
      product_name ← get product "Name" "Unknown";
      log_children rest
  end.

Definition _get_line_children (sf : client) (msisdn : string)
    (line_root_id : pyval) (config : gmap string query_config)
  : result (list pyval) :=
  let q := query_named config "children_for_root_item" in
  wc ← replace_all "{msisdn}" msisdn (where_conditions q);
  wc ← replace_all "{root_item_id}" line_root_id wc;
  records ← sf (select q wc);
  _ ← log_children records;
  mret records.

Definition _get_device_children (sf : client) (device_root_id : pyval)
    (config : gmap string query_config) : result (list pyval) :=
  let q := query_named config "device_children" in
  wc ← replace_all "{device_root_id}" device_root_id (where_conditions q);
  records ← sf (select q wc);
  _ ← log_children records;
  mret records.

(** The dict returned by [get_assets_for_msisdn_v2]. *)
Record assets : Type := {
  latest_line : pyval;
  device : pyval;
  line_children : list pyval;
  device_children : list pyval;
  error : option string
}.

(** [x.get('Product2', {}).get('Name')], evaluated for a log line. *)
Definition product_name (x : pyval) : result pyval :=
  product ← get x "Product2" (VDict []);
  get product "Name" VNone.

Definition get_assets_for_msisdn_v2 (sf : client) (msisdn : string)
    (config : gmap string query_config) : result assets :=
  line ← _get_latest_line sf msisdn config;
  if negb (truthy line) then
    mret {| latest_line := VNone; device := VNone; line_children := [];
            device_children := []; error := Some "No active line found" |}
  else
    _ ← product_name line;
    line_asset_ref ← get line "vlocity_cmt__AssetReferenceId__c" VNone;
    dev ← _get_device_for_line sf msisdn line_asset_ref config;
    if negb (truthy dev) then
      mret {| latest_line := line; device := VNone; line_children := [];
              device_children := [];
              error := Some "No device found (mandatory)" |}
    else
      _ ← product_name dev;
      device_root_id ← get dev "vlocity_cmt__RootItemId__c" VNone;
      line_root_id ← get line "vlocity_cmt__RootItemId__c" VNone;
      lc ← _get_line_children sf msisdn line_root_id config;
      dc ← _get_device_children sf device_root_id config;
      mret {| latest_line := line; device := dev; line_children := lc;
              device_children := dc; error := None |}.

(** The three lists returned by [_organize_children]. *)
Record organized : Type := {
  devices : list pyval;
  add_ons : list pyval;
  disconnected : list pyval
}.

(** The loop of [_organize_children]. *)
Fixpoint organize_loop (children : list pyval)
    (devices add_ons disconnected : list pyval) : result organized :=
  match children with
  | [] => Ok {| devices := devices; add_ons := add_ons;
                disconnected := disconnected |}
  | child :: rest =>
      product ← get child "Product2" (VDict []);
      product_class ← get product "vlocity_cmt__ParentClassCode__c" "";
      status ← get child "vlocity_cmt__ProvisioningStatus__c" VNone;
      if ResponseBuilder.member status [VStr "Deleted"; VStr "Disconnected"]
      then organize_loop rest devices add_ons (disconnected ++ [child])
      else if ResponseBuilder.member product_class
                [VStr "PR_B2C_Mobile_Device_Class";
                 VStr "PR_B2C_Mobile_BYOD_Device_Class"]
      then organize_loop rest (devices ++ [child]) add_ons disconnected
      else organize_loop rest devices (add_ons ++ [child]) disconnected
  end.

Definition _organize_children (children : pyval) : result organized :=
  cs ← iter children;
  organize_loop cs [] [] [].

(** The entry [order_history_for_msisdn] of [salesforce_queries], which has
    an [order_by] and a [limit] besides the three entries of every query;
    [from_table] falls back to ["OrderItem"], [order_by] to the empty
    string and [limit] to 3. *)
Record history_query : Type := {
  history_fields : list string;
  history_from_table : option string;
  history_where_conditions : list string;
  order_by : option string;
  limit : option Z
}.

Definition no_history_query : history_query :=
  {| history_fields := []; history_from_table := None;
     history_where_conditions := []; order_by := None; limit := None |}.

(** The query text of [get_order_history]. *)
Definition history_soql (msisdn : string) (q : history_query) : string :=
  let from := match history_from_table q with Some t => t | None => "OrderItem" end in
  let order_by := match order_by q with Some o => o | None => "" end in
  let limit := match limit q with Some n => n | None => 3%Z end in
  let where_conditions := map (replace "{msisdn}" msisdn) (history_where_conditions q) in
  let soql :=
    ("SELECT " ++ String.concat ", " (history_fields q) ++ " FROM " ++ from)%string in
  let soql :=
    match where_conditions with
    | [] => soql
    | _ => (soql ++ " WHERE " ++ String.concat " AND " where_conditions)%string
    end in
  let soql :=
    if String.eqb order_by "" then soql
    else (soql ++ " ORDER BY " ++ order_by)%string in
  if (limit =? 0)%Z then soql
  else (soql ++ " LIMIT " ++ NilZero.string_of_int (Z.to_int limit))%string.

(** The log loop of [get_order_history] over the records. *)
Fixpoint log_history (records : list pyval) : result unit :=
  match records with
  | [] => Ok tt
  | order :: rest =>
      order_obj ← get order "Order" (VDict []);
      reason ← get order_obj "vlocity_cmt__Reason__c" "N/A";
      status ← get order_obj "vlocity_cmt__OrderStatus__c" "N/A";
      created ← get order_obj "CreatedDate" "N/A";
      log_history rest
  end.

(** [get_order_history]: whatever is raised inside is logged and answered
    with the empty list. *)
Definition get_order_history (sf : client) (msisdn : string)
    (query : option history_query) : list pyval :=
  let q := match query with Some q => q | None => no_history_query end in
  match (records ← sf (history_soql msisdn q);
         _ ← log_history records;
         mret records) with
  | Ok records => records
  | Raise _ => []
  end.

End AssetFetcher.

(* ===================================================================== *)
(** * Bulk Executor ([bulk_validator.py])                                 *)
(* ===================================================================== *)

Module BulkValidator.
Import Py OrderFilter.

(** What [requests.post] and [response.json()] can raise: a
    [RequestException], caught by the first [except] clause, or any other
    [Exception], caught by the second. *)
Inductive http_exn : Type :=
| RequestException (msg : string)
| OtherException (msg : string).

(** The outcome of one [requests.post]: a response with its status code,
    its text and what [response.json()] gives, or an exception. *)
Inductive post_result : Type :=
| Responded (status_code : Z) (text : string) (json : http_exn + pyval)
| Failed (e : http_exn).

(** The validation transport, by MSISDN. *)
Definition transport : Type := string -> post_result.

(** [{"error": err, "message": msg}] *)
Definition envelope (err msg : string) : pyval :=
  VDict [(VStr "error", VStr err); (VStr "message", VStr msg)].

(** The two [except] clauses of [validate_single_msisdn]. *)
Definition caught (e : http_exn) : pyval :=
  match e with
  | RequestException msg => envelope "Request failed" msg
  | OtherException msg => envelope "Validation failed" msg
  end.

(** [f"HTTP {response.status_code}"] *)
Definition http_label (status_code : Z) : string :=
  ("HTTP " ++ NilZero.string_of_int (Z.to_int status_code))%string.

(** [validate_single_msisdn]; the pause before the request only takes
    time. *)
Definition validate_single_msisdn (post : transport) (msisdn : string)
  : string * pyval :=
  match post msisdn with
  | Responded status_code text json =>
      if (status_code =? 200)%Z then
        match json with
        | inr v => (msisdn, v)
        | inl e => (msisdn, caught e)
        end
      else (msisdn, envelope (http_label status_code) text)
  | Failed e => (msisdn, caught e)
  end.

(** [results[msisdn] = result] on a dict with string keys. *)
Fixpoint assign {V : Type} (d : list (string * V)) (k : string) (v : V)
  : list (string * V) :=
  match d with
  | [] => [(k, v)]
  | (k', w) :: d' =>
      if String.eqb k' k then (k', v) :: d' else (k', w) :: assign d' k v
  end.

(** The loop over [as_completed(future_to_msisdn)].  The futures complete
    in an order chosen by the scheduler: [completion] is that order, some
    permutation of the submitted MSISDNs. *)
Definition collect (post : transport) (completion : list string)
  : list (string * pyval) :=
  fold_left (fun results msisdn =>
               let '(m, r) := validate_single_msisdn post msisdn in
               assign results m r)
            completion [].

(** [_validate_msisdns_batch]: [ThreadPoolExecutor] refuses a pool of no
    workers. *)
Definition _validate_msisdns_batch (post : transport) (max_workers : Z)
    (completion : list string) : result (list (string * pyval)) :=
  if (max_workers <=? 0)%Z then Raise ValueError
  else Ok (collect post completion).

(** [sum(1 for r in validation_results.values() if r.get("status") != "error")] *)
Fixpoint count_successful (results : list (string * pyval)) : result nat :=
  match results with
  | [] => Ok O
  | (_, r) :: rest =>
      status ← get r "status" VNone;
      n ← count_successful rest;
      mret (if negb (py_eq status "error") then S n else n)
  end.

Record summary : Type := {
  total_msisdns : nat;
  successful_validations : nat;
  failed_validations : Z;
  success_rate : Q;
  output_format : string
}.

Record detail : Type := {
  order_data : order_item;
  validation_result : pyval;
  order_reason : option string;
  order_status : option string;
  multiple_orders : bool;
  orders_counted : nat
}.

(** [validation_results.get(msisdn, {})] *)
Fixpoint result_for (results : list (string * pyval)) (msisdn : string) : pyval :=
  match results with
  | [] => VDict []
  | (k, r) :: rest => if String.eqb k msisdn then r else result_for rest msisdn
  end.

(** One entry of [detailed_results]. *)
Definition detail_of (results : list (string * pyval)) (msisdn : string)
    (order : order_item) : detail :=
  {| order_data := order;
     validation_result := result_for results msisdn;
     order_reason :=
       match Order order with
       | Some o => vlocity_cmt__Reason__c o
       | None => None
       end;
     order_status :=
       match Order order with
       | Some o => vlocity_cmt__Status__c o
       | None => None
       end;
     multiple_orders :=
       match has_multiple_orders order with Some b => b | None => false end;
     orders_counted :=
       match order_count order with Some n => n | None => 1%nat end |}.

(** The [Success Rate] cell of a CSV row: the text ["N/A"], or the text
    [f"{v}%"] made of the [success_rate] entry [v] of a summary. *)
Inductive rate_cell : Type :=
| NotApplicable
| Percent (v : pyval).

(** One row of [csv_data]; the two texts are [str] of a boolean and of a
    count. *)
Record csv_row : Type := {
  row_msisdn : string;
  row_order_reason : option string;
  row_order_status : option string;
  row_validation_status : pyval;
  row_has_multiple_orders : string;
  row_order_count : string;
  row_success_rate : rate_cell;
  row_errors : pyval
}.

Definition csv_header : list string :=
  ["MSISDN"; "Order Reason"; "Order Status"; "Validation Status";
   "Has Multiple Orders"; "Order Count"; "Success Rate"; "Errors"].

(** The loop of [_convert_to_csv] over [detailed_results.items()]. *)
Fixpoint csv_rows (detailed_results : list (string * detail))
  : result (list csv_row) :=
  match detailed_results with
  | [] => Ok []
  | (msisdn, data) :: rest =>
      let validation_result := validation_result data in
      validation_status ← get validation_result "status" "unknown";
      success_rate ←
        (if py_eq validation_status "success" then
           summary_data ← get validation_result "summary" (VDict []);
           rate ← get summary_data "success_rate" (VNum 0);
           mret (Percent rate)
         else mret NotApplicable);
      errors ←
        (if py_eq validation_status "error"
         then get validation_result "message" "Validation failed"
         else mret (VStr ""));
      let row :=
        {| row_msisdn := msisdn;
           row_order_reason := order_reason data;
           row_order_status := order_status data;
           row_validation_status := validation_status;
           row_has_multiple_orders :=
             if multiple_orders data then "True" else "False";
           row_order_count :=
             NilZero.string_of_uint (Nat.to_uint (orders_counted data));
           row_success_rate := success_rate;
           row_errors := errors |} in
      rows ← csv_rows rest;
      mret (row :: rows)
  end.

(** What [_format_results] returns: the summary with the detailed results,
    or, from [_convert_to_csv], the summary with the rows of [csv_data]
    under [csv_header]; [csv_string], the text that [csv.writer] makes of
    the same rows, is not part of the model. *)
Inductive report : Type :=
| Structured (summary : summary) (results : list (string * detail))
| Tabular (summary : summary) (csv_data : list csv_row).

Definition report_summary (r : report) : summary :=
  match r with
  | Structured summary _ => summary
  | Tabular summary _ => summary
  end.

Definition _convert_to_csv (summary : summary)
    (detailed_results : list (string * detail)) : result report :=
  csv_data ← csv_rows detailed_results;
  mret (Tabular summary csv_data).

Definition _format_results (grouped_orders : list (string * order_item))
    (validation_results : list (string * pyval)) (output_format : string)
  : result report :=
  let total_msisdns := length grouped_orders in
  successful_validations ← count_successful validation_results;
  let failed_validations :=
    (Z.of_nat total_msisdns - Z.of_nat successful_validations)%Z in
  let summary :=
    {| total_msisdns := total_msisdns;
       successful_validations := successful_validations;
       failed_validations := failed_validations;
       success_rate :=
         if (0 <? total_msisdns)%nat
         then percent (inject_Z (Z.of_nat successful_validations))
                      (inject_Z (Z.of_nat total_msisdns))
         else 0;
       output_format := output_format |} in
  let detailed_results :=
    map (fun '(msisdn, order) => (msisdn, detail_of validation_results msisdn order))
        grouped_orders in
  if String.eqb (lower output_format) "csv"
  then _convert_to_csv summary detailed_results
  else mret (Structured summary detailed_results).

(** Steps 3 and 4 of [validate_yesterday_orders]: the grouped MSISDNs are
    validated and the results formatted. *)
Definition validate_and_format (post : transport) (max_workers : Z)
    (grouped_orders : list (string * order_item)) (completion : list string)
    (output_format : string) : result report :=
  validation_results ← _validate_msisdns_batch post max_workers completion;
  _format_results grouped_orders validation_results output_format.

End BulkValidator.

(* ===================================================================== *)
(** * Validator Service ([main.py])                                       *)
(* ===================================================================== *)

Module ValidatorService.
Import Py.

(** [a or b] *)
Definition or_ (a b : pyval) : pyval := if truthy a then a else b.

(** [_normalize_asset]: the entries of the returned dict are evaluated in
    the order in which they are written. *)
Definition _normalize_asset (asset : pyval) : result pyval :=
  if negb (truthy asset) then mret VNone
  else
    id ← get asset "Id" VNone;
    product_name ←
      inner_or asset "Product2" "Name" (get asset "Product2.Name" VNone);
    product_code ←
      inner_or asset "Product2" "ProductCode"
        (get asset "Product2.ProductCode" VNone);
    status ← get asset "vlocity_cmt__ProvisioningStatus__c" VNone;
    one_time ← get asset "vlocity_cmt__OneTimeCharge__c" VNone;
    recurring ← get asset "vlocity_cmt__RecurringCharge__c" VNone;
    disconnect_date ← get asset "vlocity_cmt__DisconnectDate__c" VNone;
    disconnect_reason ← get asset "Disconnection_Reason__c" VNone;
    asset_reference ← get asset "vlocity_cmt__AssetReferenceId__c" VNone;
    original_oli_id ← get asset "PR_Original_OLI_ID__c" VNone;
    billing_number ←
      inner_or asset "vlocity_cmt__BillingAccountId__r"
        "PR_Mobile_Billing_Number__c" (mret VNone);
    mret (VDict
            [(VStr "id", id);
             (VStr "product_name", product_name);
             (VStr "product_code", product_code);
             (VStr "status", status);
             (VStr "charges",
              VDict [(VStr "one_time", or_ one_time (VNum 0));
                     (VStr "recurring", or_ recurring (VNum 0))]);
             (VStr "disconnect_info",
              VDict [(VStr "disconnect_date", disconnect_date);
                     (VStr "disconnect_reason", disconnect_reason)]);
             (VStr "asset_reference", asset_reference);
             (VStr "original_oli_id", original_oli_id);
             (VStr "billing_number", billing_number)]).

(** [[self._normalize_asset(a) for a in assets if a]] *)
Fixpoint _normalize_assets_list (assets : list pyval) : result (list pyval) :=
  match assets with
  | [] => Ok []
  | a :: rest =>
      if truthy a then
        n ← _normalize_asset a;
        ns ← _normalize_assets_list rest;
        mret (n :: ns)
      else _normalize_assets_list rest
  end.

(** The bundle [assets_for_validation] that [validate_msisdn] builds from
    the answer of the Asset Assembler and hands to the engine. *)
Definition assets_for_validation (assets_data : AssetFetcher.assets)
  : result pyval :=
  line ← _normalize_asset (AssetFetcher.latest_line assets_data);
  device ← _normalize_asset (AssetFetcher.device assets_data);
  line_children ← _normalize_assets_list (AssetFetcher.line_children assets_data);
  device_children ←
    _normalize_assets_list (AssetFetcher.device_children assets_data);
  mret (VDict [(VStr "line", line);
               (VStr "device", device);
               (VStr "line_children", VList line_children);
               (VStr "device_children", VList device_children)]).

End ValidatorService.

(* ===================================================================== *)
(** * The vocabulary of the properties

    The predicates in which the properties below are stated, and the
    sample configurations, bundles and orders they are tried on. *)
(* ===================================================================== *)

Section EngineTerms.
Import Py ValidationEngine.

(** The device-charges descriptor of the configuration, with zero
    refused. *)
Definition device_charges_strict : pyval :=
  VDict [(VStr "id", VStr "device_has_charges");
         (VStr "validation_type", VStr "charges");
         (VStr "logic", VStr "validate_device_charges");
         (VStr "allow_zero", VBool false)].

(** A bundle whose device carries a credit of 5 as its one-time charge and
    a recurring charge of zero. *)
Definition bundle_with_credit : pyval :=
  VDict [(VStr "device",
          VDict [(VStr "id", VStr "D1");
                 (VStr "charges",
                  VDict [(VStr "one_time", VNum (-5)); (VStr "recurring", VNum 0)])]);
         (VStr "line_children", VList []);
         (VStr "device_children", VList [])].

(** The validation types the dispatcher knows, and the strategy names known
    under the two types that dispatch on [logic] (the names after which the
    code logs "Unknown presence logic" and "Unknown charge logic"). *)
Definition known_type (t : pyval) : bool :=
  py_eq t "presence" || py_eq t "charges" || py_eq t "status" || py_eq t "custom".

Definition known_presence_logic (logic : pyval) : bool :=
  py_eq logic "search_line_children_for_sim_card"
  || py_eq logic "validate_device_exists".

Definition known_charge_logic (logic : pyval) : bool :=
  py_eq logic "validate_all_line_children_charges"
  || py_eq logic "validate_device_charges"
  || py_eq logic "validate_all_device_children_charges"
  || py_eq logic "validate_sim_card_charges".

Definition unknown_strategy (check : list (pyval * pyval)) : Prop :=
  let t := dict_get check "validation_type" VNone in
  let logic := dict_get check "logic" VNone in
  (t = VStr "presence" /\ known_presence_logic logic = false) \/
  (t = VStr "charges" /\ known_charge_logic logic = false).

(** A descriptor as the loops need it: a dict whose [id] can be a key. *)
Definition descriptor (c : pyval) : Prop :=
  exists d, c = VDict d /\ hashable (dict_get d "id" VNone) = true.

(** [results] holds a boolean under the [id] of [c]. *)
Definition recorded (results : list (pyval * pyval)) (c : pyval) : Prop :=
  exists d b, c = VDict d /\ lookup_item results (dict_get d "id" VNone) = Some (VBool b).

(** The checks a configuration declares for the basic set and for one
    reason, read the way [_run_basic_checks] and [_run_reason_checks] read
    them. *)
Definition declared_checks (set_config : pyval) : result (list pyval) :=
  checks ← get set_config "checks" (VList []);
  iter checks.

Definition well_formed_config (validations_config : pyval) : Prop :=
  (exists basic_config cs,
      get validations_config "basic" (VDict []) = Ok basic_config /\
      declared_checks basic_config = Ok cs /\ Forall descriptor cs) /\
  (exists reason_based,
      get validations_config "reason_based" (VDict []) = Ok (VDict reason_based) /\
      forall reason, hashable reason = true ->
        let reason_config := dict_get reason_based reason VNone in
        truthy reason_config = false \/
        exists cs, declared_checks reason_config = Ok cs /\ Forall descriptor cs).

(** A presence check whose evaluation raises on [broken_bundle] (a [None]
    among the line children has no [get]), a check of an unknown type, and a
    device check that passes. *)
Definition sim_check : list (pyval * pyval) :=
  [(VStr "id", VStr "sim_present");
   (VStr "validation_type", VStr "presence");
   (VStr "logic", VStr "search_line_children_for_sim_card")].

Definition odd_check : list (pyval * pyval) :=
  [(VStr "id", VStr "odd"); (VStr "validation_type", VStr "lookup")].

Definition device_check : list (pyval * pyval) :=
  [(VStr "id", VStr "device_exists");
   (VStr "validation_type", VStr "presence");
   (VStr "logic", VStr "validate_device_exists")].

Definition broken_bundle : pyval :=
  VDict [(VStr "device", VDict [(VStr "id", VStr "D1")]);
         (VStr "line_children", VList [VNone]);
         (VStr "device_children", VList [])].

(** A check whose [id] is a list, and a configuration that declares it
    before the device check. *)
Definition listed_id_check : list (pyval * pyval) :=
  [(VStr "id", VList [VStr "legacy"; VStr "sim"]);
   (VStr "validation_type", VStr "lookup")].

Definition malformed_config : pyval :=
  VDict [(VStr "basic",
          VDict [(VStr "checks",
                  VList [VDict listed_id_check; VDict device_check])]);
         (VStr "reason_based", VDict [])].

(** The same configuration with the malformed check left out. *)
Definition repaired_config : pyval :=
  VDict [(VStr "basic",
          VDict [(VStr "checks", VList [VDict device_check])]);
         (VStr "reason_based", VDict [])].

Definition sample_config : pyval :=
  VDict [(VStr "basic",
          VDict [(VStr "checks",
                  VList [VDict sim_check; VDict odd_check; VDict device_check])]);
         (VStr "reason_based",
          VDict [(VStr "Change Plan",
                  VDict [(VStr "checks", VList [VDict device_check])])])].

End EngineTerms.

Section ResponseTerms.
Import Py ResponseBuilder.

(** The [status] entry of a check result set. *)
Definition status_of (set : pyval) : option pyval :=
  match set with
  | VDict d => lookup_item d "status"
  | _ => None
  end.





(** A result set with the given status, and a validation result built from
    a basic set, reason sets and warnings. *)
Definition set_with (status : string) : pyval :=
  VDict [(VStr "status", VStr status)].

Definition validation_data_of (basic_set : pyval)
    (reason_sets : list (pyval * pyval)) (warnings : pyval) : pyval :=
  VDict [(VStr "validations",
          VDict [(VStr "basic", basic_set);
                 (VStr "reason_based", VDict reason_sets)]);
         (VStr "warnings", warnings)].

(** A check result set as the engine fills it in. *)
Definition ran_set (status : string) (passed failed : Z) : pyval :=
  VDict [(VStr "status", VStr status);
         (VStr "checks", VDict []);
         (VStr "passed", VNum (inject_Z passed));
         (VStr "failed", VNum (inject_Z failed));
         (VStr "total", VNum (inject_Z (passed + failed)))].

Definition skipped_set : pyval :=
  VDict [(VStr "status", VStr "SKIPPED");
         (VStr "reason", VStr "No validation config for 'Port In'")].

(** A whole validation result: a line and a device, one order in the
    history, a passed basic set, a skipped reason followed by a passed
    one, and a warning about one asset. *)
Definition sample_reason_sets : list (pyval * pyval) :=
  [(VStr "Port In", skipped_set); (VStr "Change Plan", ran_set "PASSED" 2 0)].

Definition sample_warnings : pyval :=
  VList [VDict [(VStr "asset_id", VStr "02i1");
                (VStr "modified_by", VStr "agent")]].

Definition sample_validation_data : pyval :=
  VDict [(VStr "assets",
          VDict [(VStr "latest_line",
                  VDict [(VStr "Id", VStr "L1");
                         (VStr "PR_MSISDN__c", VStr "555");
                         (VStr "Product2",
                          VDict [(VStr "Name", VStr "Liberty Plan")])]);
                 (VStr "device",
                  VDict [(VStr "Id", VStr "D1");
                         (VStr "Product2",
                          VDict [(VStr "Name", VStr "iPhone 15");
                                 (VStr "vlocity_cmt__ParentClassCode__c",
                                  VStr "PR_B2C_Mobile_Device_Class")])]);
                 (VStr "line_children", VList []);
                 (VStr "device_children", VList [])]);
         (VStr "order_history",
          VList [VDict [(VStr "Id", VStr "OI1");
                        (VStr "Order",
                         VDict [(VStr "vlocity_cmt__Reason__c", VStr "Change Plan");
                                (VStr "vlocity_cmt__OrderStatus__c",
                                 VStr "Activated")])]]);
         (VStr "validations",
          VDict [(VStr "basic", ran_set "PASSED" 5 0);
                 (VStr "reason_based", VDict sample_reason_sets)]);
         (VStr "warnings", sample_warnings)].

End ResponseTerms.

Section DisconnectTerms.
Import OrderFilter.

(** The reason of an order, null when the order has none. *)
Definition reason_of (order : order_item) : option string :=
  match Order order with
  | Some order_obj => vlocity_cmt__Reason__c order_obj
  | None => None
  end.

(** The reason contains "disconnect" in some mix of upper and lower case:
    it has a substring that reads "disconnect" once put in lower case.  A
    null reason contains nothing. *)
Definition mentions_disconnect (order : order_item) : Prop :=
  match reason_of order with
  | None => False
  | Some r =>
      exists pre mid post,
        r = (pre ++ mid ++ post)%string /\ lower mid = "disconnect"
  end.

Definition order_with_reason (id : string) (msisdn : string) (reason : option string)
  : order_item :=
  {| Id := id; PR_MSISDN__c := Some msisdn; CreatedDate := Absent;
     Order := Some {| vlocity_cmt__Reason__c := reason; Type_ := None;
                      vlocity_cmt__OrderStatus__c := None;
                      vlocity_cmt__Status__c := None |};
     has_multiple_orders := None; order_count := None |}.

End DisconnectTerms.

Section GroupingTerms.
Import OrderFilter.

(** The creation timestamp of an order, the empty string when it has
    none. *)
Definition created_date (order : order_item) : string :=
  match CreatedDate order with
  | Date d => d
  | _ => ""
  end.

(** The timestamp of the order is not null: it is a text, or the record
    has no [CreatedDate] at all. *)
Definition dated (order : order_item) : Prop := CreatedDate order <> Null.

(** What one turn of the grouping loop does with an order among dated
    orders: the order takes the place of an older record of its
    identifier, and the first place of an identifier not met yet. *)
Definition keep_later (grouped : gmap string order_item) (order : order_item)
  : gmap string order_item :=
  match msisdn_of order with
  | None => grouped
  | Some msisdn =>
      match grouped !! msisdn with
      | None => <[msisdn := order]> grouped
      | Some existing =>
          if str_gt (created_date order) (created_date existing)
          then <[msisdn := order]> grouped
          else grouped
      end
  end.

(** [o] is, among the orders of [orders] that carry the identifier [m],
    the first one with the greatest creation timestamp: every such order
    before it is strictly older, every such order after it is not newer. *)
Definition latest_first (m : string) (orders : list order_item) (o : order_item)
  : Prop :=
  exists before after,
    orders = before ++ o :: after /\
    PR_MSISDN__c o = Some m /\
    (forall o', In o' before -> PR_MSISDN__c o' = Some m ->
                String.ltb (created_date o') (created_date o) = true) /\
    (forall o', In o' after -> PR_MSISDN__c o' = Some m ->
                String.leb (created_date o') (created_date o) = true).

(** What the loop has established once it has gone through [seen]. *)
Definition grouped_so_far (seen : list order_item) (grouped : gmap string order_item)
  : Prop :=
  forall m, m <> "" ->
    match grouped !! m with
    | Some o => latest_first m seen o
    | None => forall o, In o seen -> PR_MSISDN__c o <> Some m
    end.

Definition order_at (id msisdn date : string) : order_item :=
  {| Id := id; PR_MSISDN__c := Some msisdn; CreatedDate := Date date;
     Order := None; has_multiple_orders := None; order_count := None |}.

(** An order whose timestamp is null. *)
Definition undated_order (id msisdn : string) : order_item :=
  {| Id := id; PR_MSISDN__c := Some msisdn; CreatedDate := Null;
     Order := None; has_multiple_orders := None; order_count := None |}.

(** Three orders of "555", the last two with the same latest timestamp, and
    one order of another identifier in between. *)
Definition sample_orders : list order_item :=
  [order_at "a" "555" "2025-11-09T08:00:00.000+0000";
   order_at "b" "555" "2025-11-09T17:30:00.000+0000";
   order_at "c" "777" "2025-11-09T23:00:00.000+0000";
   order_at "d" "555" "2025-11-09T17:30:00.000+0000"].

End GroupingTerms.

Section RetrieverTerms.
Import Py OrderFilter OrderFetcher.

(** The strategy a configuration selects; without a [fetch_strategy] entry
    it is the unconditional-latest one. *)
Definition selected_strategy (config : fetcher_config) : string :=
  match fetch_strategy config with
  | Some s => s
  | None => "latest"
  end.

(** The three configuration errors.  The reason filter and the allow-list
    are settings of the reason-filtered strategy. *)
Definition no_reason_configured (config : fetcher_config) : Prop :=
  selected_strategy config = "filtered" /\
  (order_reason_filter config = None \/ order_reason_filter config = Some "").

Definition reason_not_allowed (config : fetcher_config) : Prop :=
  selected_strategy config = "filtered" /\
  exists reason allowed,
    order_reason_filter config = Some reason /\ reason <> "" /\
    valid_order_reasons config = Some allowed /\ allowed <> [] /\
    ~ In reason allowed.

Definition unknown_fetch_strategy (config : fetcher_config) : Prop :=
  selected_strategy config <> "latest" /\ selected_strategy config <> "filtered".

Definition misconfigured (config : fetcher_config) : Prop :=
  no_reason_configured config \/ reason_not_allowed config \/
  unknown_fetch_strategy config.

End RetrieverTerms.

Section AssemblerTerms.
Import Py AssetFetcher.

(** The log line written once a line or a device is found reads the name
    of its product: that needs the [Product2] entry, when present, to be a
    dict. *)
Definition product_readable (record : list (pyval * pyval)) : Prop :=
  is_dict (dict_get record "Product2" (VDict [])) = true.

(** A configuration with the line and device queries, a line record of
    "555", and a record source that knows this line and no device. *)
Definition sample_queries : gmap string query_config :=
  <["latest_line_for_msisdn" :=
      {| fields := ["Id"; "vlocity_cmt__AssetReferenceId__c"];
         from_table := None;
         where_conditions := ["PR_MSISDN__c = '{msisdn}'"] |}]>
  (<["device_for_line" :=
      {| fields := ["Id"]; from_table := None;
         where_conditions :=
           ["vlocity_cmt__AssetReferenceId__c = '{asset_reference_id}'"] |}]> ∅).

Definition sample_line : list (pyval * pyval) :=
  [(VStr "Id", VStr "L1");
   (VStr "vlocity_cmt__AssetReferenceId__c", VStr "REF-1");
   (VStr "Product2", VDict [(VStr "Name", VStr "Liberty Plan")])].

Definition line_only_source : client := fun soql =>
  if String.eqb soql
       "SELECT Id, vlocity_cmt__AssetReferenceId__c FROM Asset WHERE PR_MSISDN__c = '555' ORDER BY CreatedDate DESC LIMIT 1"
  then Ok [VDict sample_line]
  else Ok [].

End AssemblerTerms.

Section BulkTerms.
Import Py OrderFilter BulkValidator.

(** The top-level [status] of a result is the text "error". *)
Definition reports_error (r : pyval) : bool :=
  match status_of r with
  | Some (VStr s) => String.eqb s "error"
  | _ => false
  end.

(** A result counted as a successful validation: a dict whose [status]
    differs from "error" (a dict without [status] included). *)
Definition success (r : pyval) : Prop :=
  is_dict r = true /\ reports_error r = false.

(** A result that the CSV rendering can read: when its [status] is
    "success", its [summary] entry, if present, is a dict. *)
Definition summary_readable (r : pyval) : Prop :=
  forall d, r = VDict d ->
    py_eq (dict_get d "status" "unknown") "success" = true ->
    is_dict (dict_get d "summary" (VDict [])) = true.

Definition passed_verdict : pyval :=
  VDict [(VStr "status", VStr "success");
         (VStr "summary", VDict [(VStr "passed", VNum 1)])].

Definition two_grouped : list (string * order_item) :=
  [("555", order_at "a" "555" "2025-11-09T08:00:00.000+0000");
   ("777", order_at "c" "777" "2025-11-09T23:00:00.000+0000")].



(** A transport that is down for one identifier and answers 503 for every
    other. *)
Definition failing_transport : transport := fun msisdn =>
  if String.eqb msisdn "555"
  then Failed (RequestException "connection refused")
  else Responded 503 "Service Unavailable" (inl (OtherException "no body")).

End BulkTerms.

Section EngineRuleTerms.
Import Py ValidationEngine.

(** One child passes the charge block: it is a dict and its [charges]
    entry satisfies Checks 1 to 4. *)
Definition child_charged (allow_zero child : pyval) : Prop :=
  exists d, child = VDict d /\
            charge_checks (dict_get d "charges" VNone) allow_zero = true.

(** An amount that Check 4 accepts: neither [None] nor equal to zero. *)
Definition counts_as_charge (amount : pyval) : Prop :=
  is_none amount = false /\ py_eq amount (VNum 0) = false.

(** The descriptor of the SIM presence check. *)
Definition sim_presence_check : pyval :=
  VDict [(VStr "id", VStr "sim_card_present");
         (VStr "validation_type", VStr "presence");
         (VStr "logic", VStr "search_line_children_for_sim_card")].

(** A bundle with a SIM card and a network add-on among the line children
    and a protection plan under the device. *)
Definition full_bundle : pyval :=
  VDict [(VStr "device",
          VDict [(VStr "id", VStr "D1");
                 (VStr "charges",
                  VDict [(VStr "one_time", VNum 599); (VStr "recurring", VNum 0)])]);
         (VStr "line_children",
          VList [VDict [(VStr "product_code", VStr "PR_B2C_SIM_Card");
                        (VStr "charges",
                         VDict [(VStr "one_time", VNum 5); (VStr "recurring", VNum 0)])];
                 VDict [(VStr "product_code", VStr "PR_B2C_Network");
                        (VStr "charges",
                         VDict [(VStr "one_time", VNone); (VStr "recurring", VNum 10)])]]);
         (VStr "device_children",
          VList [VDict [(VStr "product_code", VStr "PR_B2C_Protection");
                        (VStr "charges",
                         VDict [(VStr "one_time", VNum 0); (VStr "recurring", VNum 15)])]])].

(** The figures of a set that ran. *)
Definition consistent (set : check_result_set) (declared : nat) : Prop :=
  match set with
  | Ran status checks passed failed total =>
      (passed + failed = total)%nat /\ total = length checks /\
      (total <= declared)%nat /\
      (status = "PASSED" <-> failed = 0%nat) /\
      (status = "FAILED" <-> failed <> 0%nat) /\
      (failed = 0%nat <-> Forall (fun kv => truthy (snd kv) = true) checks)
  | Skipped _ => True
  end.

End EngineRuleTerms.

Section ResponseRenderingTerms.
Import Py ResponseBuilder.

(** The three verdicts. *)
Definition is_verdict (v : string) : Prop :=
  v = "FAILED" \/ v = "PASSED" \/ v = "PASSED_WITH_WARNINGS".

(** The items of a list differ from one another: no item equals, under
    [==], an item that stands before it. *)
Fixpoint distinct (l : list pyval) : Prop :=
  match l with
  | [] => True
  | x :: l' => (forall y, In y l' -> py_eq x y = false) /\ distinct l'
  end.

(** The product class of a raw asset record. *)
Definition product_class_of (asset : list (pyval * pyval)) : pyval :=
  match dict_get asset "Product2" (VDict []) with
  | VDict product => dict_get product "vlocity_cmt__ParentClassCode__c" VNone
  | _ => VNone
  end.

Definition device_class (product_class : pyval) : Prop :=
  product_class = VStr "PR_B2C_Mobile_Device_Class" \/
  product_class = VStr "PR_B2C_Mobile_BYOD_Device_Class".

(** An order item of the history with the given reason and status. *)
Definition history_item (reason status : pyval) : pyval :=
  VDict [(VStr "Id", VStr "OI");
         (VStr "Order",
          VDict [(VStr "vlocity_cmt__Reason__c", reason);
                 (VStr "vlocity_cmt__OrderStatus__c", status)])].

(** A raw device record with a one-time charge and no recurring charge. *)
Definition raw_device : list (pyval * pyval) :=
  [(VStr "Id", VStr "02i1");
   (VStr "Product2",
    VDict [(VStr "Name", VStr "iPhone 15");
           (VStr "ProductCode", VStr "DEV-IP15");
           (VStr "vlocity_cmt__ParentClassCode__c",
            VStr "PR_B2C_Mobile_Device_Class")]);
   (VStr "vlocity_cmt__ProvisioningStatus__c", VStr "Active");
   (VStr "vlocity_cmt__OneTimeCharge__c", VNum 599);
   (VStr "vlocity_cmt__RecurringCharge__c", VNone)].

End ResponseRenderingTerms.

Section ClassifierTerms.
Import OrderFilter.

(** The type of an order, null when the order has none. *)
Definition type_of (order : order_item) : option string :=
  match Order order with
  | Some order_obj => Type_ order_obj
  | None => None
  end.

(** The reason of the order is on the ignore list (a null reason is on no
    list); likewise for its type. *)
Definition reason_ignored (ignore_list : list string) (order : order_item) : Prop :=
  exists r, reason_of order = Some r /\ In r ignore_list.

Definition type_ignored (ignore_list : list string) (order : order_item) : Prop :=
  exists t, type_of order = Some t /\ In t ignore_list.

(** The test of the loop that goes through an ignore list. *)
Definition kept (field : order_item -> option string) (ignore_list : list string)
    (order : order_item) : bool :=
  match field order with
  | None => true
  | Some x => negb (listed x ignore_list)
  end.

(** The orders that survive the three exclusion steps. *)
Definition surviving (orders : list order_item) (config : filter_config)
  : list order_item :=
  filter_orders
    (_filter_ignored_types
       (_filter_ignored_reasons orders (ignore_order_reasons config))
       (ignore_order_types config)).

(** How many orders of a list carry the identifier [m]. *)
Fixpoint carrying (m : string) (orders : list order_item) : nat :=
  match orders with
  | [] => 0
  | o :: rest =>
      match PR_MSISDN__c o with
      | Some x => if String.eqb x m then S (carrying m rest) else carrying m rest
      | None => carrying m rest
      end
  end.

Definition order_of_type (id msisdn date : string) (reason type : option string)
  : order_item :=
  {| Id := id; PR_MSISDN__c := Some msisdn; CreatedDate := Date date;
     Order := Some {| vlocity_cmt__Reason__c := reason; Type_ := type;
                      vlocity_cmt__OrderStatus__c := None;
                      vlocity_cmt__Status__c := None |};
     has_multiple_orders := None; order_count := None |}.

(** Five orders: two plan changes and a disconnect of "555", an ignored
    reason and a plain order of "777". *)
Definition mixed_orders : list order_item :=
  [order_of_type "a" "555" "2025-11-09T08:00:00" (Some "Change Plan") (Some "Modify");
   order_of_type "b" "555" "2025-11-09T09:00:00" (Some "Disconnect Request") None;
   order_of_type "c" "777" "2025-11-09T10:00:00" (Some "Test Order") (Some "New");
   order_of_type "d" "555" "2025-11-09T11:00:00" (Some "Change Plan") (Some "Modify");
   order_of_type "e" "777" "2025-11-09T12:00:00" None (Some "New")].

Definition sample_filter : filter_config :=
  {| ignore_order_reasons := ["Test Order"]; ignore_order_types := ["Cancel"] |}.

End ClassifierTerms.

Section RetrieverFeedTerms.
Import OrderFilter OrderFetcher.

(** The order carries the identifier [m]. *)
Definition carries (m : string) (order : order_item) : bool :=
  match PR_MSISDN__c order with
  | Some x => String.eqb x m
  | None => false
  end.

(** The feed is ordered as the queries ask for: among the records of one
    identifier no record is newer than a record that stands before it. *)
Fixpoint descending (records : list order_item) : Prop :=
  match records with
  | [] => True
  | x :: rest =>
      (forall y, In y rest -> PR_MSISDN__c y = PR_MSISDN__c x ->
                 String.leb (created_date y) (created_date x) = true) /\
      descending rest
  end.

(** A feed in descending order, and the same records with the older record
    of "555" first. *)
Definition descending_feed : list order_item :=
  [order_at "b" "555" "2025-11-09T17:30:00.000+0000";
   order_at "a" "555" "2025-11-09T08:00:00.000+0000";
   order_at "c" "777" "2025-11-09T23:00:00.000+0000"].

Definition unordered_feed : list order_item :=
  [order_at "a" "555" "2025-11-09T08:00:00.000+0000";
   order_at "b" "555" "2025-11-09T17:30:00.000+0000";
   order_at "c" "777" "2025-11-09T23:00:00.000+0000"].

End RetrieverFeedTerms.

Section AssemblerMoreTerms.
Import Py AssetFetcher.

(** The provisioning status of a child says that it is gone. *)
Definition gone (child : pyval) : bool :=
  match child with
  | VDict d =>
      ResponseBuilder.member (dict_get d "vlocity_cmt__ProvisioningStatus__c" VNone)
        [VStr "Deleted"; VStr "Disconnected"]
  | _ => false
  end.

(** The product of a child is of one of the two device classes. *)
Definition device_coded (child : pyval) : bool :=
  match child with
  | VDict d =>
      match dict_get d "Product2" (VDict []) with
      | VDict product =>
          ResponseBuilder.member
            (dict_get product "vlocity_cmt__ParentClassCode__c" "")
            [VStr "PR_B2C_Mobile_Device_Class";
             VStr "PR_B2C_Mobile_BYOD_Device_Class"]
      | _ => false
      end
  | _ => false
  end.

(** A record of the order history as the log loop can read it: a dict
    whose [Order] entry, when present, is a dict. *)
Definition history_record (order : pyval) : Prop :=
  exists d, order = VDict d /\ is_dict (dict_get d "Order" (VDict [])) = true.

(** A child as the loop of [_organize_children] can read it: a dict whose
    [Product2] entry, when present, is a dict. *)
Definition readable_child (child : pyval) : Prop :=
  exists d, child = VDict d /\ product_readable d.

(** A line record without an asset reference, and a record source that
    answers every query with it. *)
Definition bare_line : list (pyval * pyval) :=
  [(VStr "Id", VStr "L1");
   (VStr "Product2", VDict [(VStr "Name", VStr "Liberty Plan")])].

Definition bare_line_source : client := fun _ => Ok [VDict bare_line].

(** A record source that knows this line as the line of "555" and no other
    record: every other query is answered without records. *)
Definition unlinked_line_source : client := fun soql =>
  if String.eqb soql
       "SELECT Id, vlocity_cmt__AssetReferenceId__c FROM Asset WHERE PR_MSISDN__c = '555' ORDER BY CreatedDate DESC LIMIT 1"
  then Ok [VDict bare_line]
  else Ok [].

Definition child_of (name class status : string) : pyval :=
  VDict [(VStr "Id", VStr name);
         (VStr "Product2",
          VDict [(VStr "Name", VStr name);
                 (VStr "vlocity_cmt__ParentClassCode__c", VStr class)]);
         (VStr "vlocity_cmt__ProvisioningStatus__c", VStr status)].

(** A phone, an add-on, and a phone that was disconnected. *)
Definition sample_children : list pyval :=
  [child_of "phone" "PR_B2C_Mobile_Device_Class" "Active";
   child_of "roaming" "PR_B2C_Mobile_Add_On" "Active";
   child_of "old phone" "PR_B2C_Mobile_Device_Class" "Disconnected"].

End AssemblerMoreTerms.

Section BulkMoreTerms.
Import Py OrderFilter BulkValidator.

(** The number of identifiers of a list whose validation reports an
    error. *)
Definition error_count (post : transport) (msisdns : list string) : nat :=
  length (List.filter
            (fun m => reports_error (snd (validate_single_msisdn post m)))
            msisdns).

(** The identifiers that a report lists, in its order, under either
    rendering, and the detailed results of a structured report. *)
Definition reported (rep : report) : list string :=
  match rep with
  | Structured _ results => map fst results
  | Tabular _ csv_data => map row_msisdn csv_data
  end.

Definition detailed (rep : report) : list (string * detail) :=
  match rep with
  | Structured _ results => results
  | Tabular _ _ => []
  end.

Definition error_verdict : pyval :=
  VDict [(VStr "status", VStr "error");
         (VStr "message", VStr "No active line found")].

(** A transport that answers 200 for every identifier: a passed verdict
    for "555" and an error verdict for every other. *)
Definition mixed_transport : transport := fun msisdn =>
  if String.eqb msisdn "555"
  then Responded 200 "" (inr passed_verdict)
  else Responded 200 "" (inr error_verdict).

(** A transport whose 200 answers carry a JSON list. *)
Definition listing_transport : transport := fun _ =>
  Responded 200 "[]" (inr (VList [])).

End BulkMoreTerms.

Section ServiceTerms.
Import Py ValidatorService.

(** One of the two raw amounts of a record is neither missing, null nor
    zero. *)
Definition carries_charge (asset : pyval) : bool :=
  match asset with
  | VDict d =>
      truthy (dict_get d "vlocity_cmt__OneTimeCharge__c" VNone)
      || truthy (dict_get d "vlocity_cmt__RecurringCharge__c" VNone)
  | _ => false
  end.

(** What the record source hands over for an asset: a record, or nothing
    (a falsy value). *)
Definition record_or_nothing (asset : pyval) : Prop :=
  truthy asset = false \/ is_dict asset = true.

(** The keys of a normalised asset. *)
Definition normalised_keys : list pyval :=
  [VStr "id"; VStr "product_name"; VStr "product_code"; VStr "status";
   VStr "charges"; VStr "disconnect_info"; VStr "asset_reference";
   VStr "original_oli_id"; VStr "billing_number"].

(** A device whose two amounts are null, with a child without amounts. *)
Definition unpriced_assets : AssetFetcher.assets :=
  {| AssetFetcher.latest_line := VDict sample_line;
     AssetFetcher.device :=
       VDict [(VStr "Id", VStr "D1");
              (VStr "vlocity_cmt__OneTimeCharge__c", VNone);
              (VStr "vlocity_cmt__RecurringCharge__c", VNone)];
     AssetFetcher.line_children := [];
     AssetFetcher.device_children := [VDict [(VStr "Id", VStr "C1")]; VNone];
     AssetFetcher.error := None |}.

End ServiceTerms.

(* ===================================================================== *)
(** * Properties of the Rule Evaluation Engine                            *)
(* ===================================================================== *)

Section EngineProperties.
Import Py ValidationEngine.

(** A descriptor is a dict, so both [check.get] calls before the [try]
    succeed. *)
Lemma execute_check_unfold (check : list (pyval * pyval)) (assets : pyval) :
  _execute_check (VDict check) assets =
  Ok match dispatch (dict_get check "validation_type" VNone) (VDict check) assets with
     | Ok b => b
     | Raise _ => false
     end.
Proof.
  unfold _execute_check. cbn.
  destruct (dispatch _ _ _); reflexivity.
Qed.

(** The charge block read as a condition: the value is a dict, one of the
    two amounts is not [None], and under a falsy [allow_zero] one of them
    is neither [None] nor equal to zero. *)
Lemma charge_checks_true (charges allow_zero : pyval) :
  charge_checks charges allow_zero = true <->
  exists c, charges = VDict c /\
    let one_time := dict_get c "one_time" VNone in
    let recurring := dict_get c "recurring" VNone in
    (is_none one_time = false \/ is_none recurring = false) /\
    (truthy allow_zero = false ->
       (is_none one_time = false /\ py_eq one_time (VNum 0) = false) \/
       (is_none recurring = false /\ py_eq recurring (VNum 0) = false)).
Proof.
  unfold charge_checks. split.
  - destruct charges as [ | | | | |c]; cbn; try discriminate.
    intros H. exists c. split; [reflexivity|]. cbn zeta.
    destruct (is_none (dict_get c "one_time" VNone)) eqn:E1,
             (is_none (dict_get c "recurring" VNone)) eqn:E2,
             (truthy allow_zero) eqn:Ea,
             (py_eq (dict_get c "one_time" VNone) (VNum 0)) eqn:Z1,
             (py_eq (dict_get c "recurring" VNone) (VNum 0)) eqn:Z2;
      cbn in H; try discriminate; split; auto; intros; try discriminate; auto.
  - intros (c & -> & Hsome & Hpos). cbn in *.
    destruct (is_none (dict_get c "one_time" VNone)) eqn:E1,
             (is_none (dict_get c "recurring" VNone)) eqn:E2,
             (truthy allow_zero) eqn:Ea,
             (py_eq (dict_get c "one_time" VNone) (VNum 0)) eqn:Z1,
             (py_eq (dict_get c "recurring" VNone) (VNum 0)) eqn:Z2;
      cbn; try reflexivity;
      try (destruct Hsome; discriminate);
      try (destruct (Hpos eq_refl) as [[? ?]|[? ?]]; discriminate).
Qed.

(** {0.0, 0.0} passes when zero is allowed and fails when it is not;
    {0.0, 5.0} passes either way; {null, null} always fails. *)
Example charges_zero_zero_allowed :
  charge_checks (VDict [(VStr "one_time", VNum 0); (VStr "recurring", VNum 0)])
                (VBool true) = true.
Proof. reflexivity. Qed.

Example charges_zero_zero_refused :
  charge_checks (VDict [(VStr "one_time", VNum 0); (VStr "recurring", VNum 0)])
                (VBool false) = false.
Proof. reflexivity. Qed.

Example charges_zero_five :
  charge_checks (VDict [(VStr "one_time", VNum 0); (VStr "recurring", VNum 5)])
                (VBool false) = true.
Proof. reflexivity. Qed.

Lemma charges_null_null (allow_zero : pyval) :
  charge_checks (VDict [(VStr "one_time", VNone); (VStr "recurring", VNone)])
                allow_zero = false.
Proof. reflexivity. Qed.

(** C2.  With [allow_zero] false the device-charges check is documented to
    want an amount greater than zero ("at least one must be > 0"), but
    Check 4 only refuses amounts equal to zero: a device whose amounts are
    the negative -5 and zero passes, both in the method and through the
    dispatcher. *)
Theorem device_charges_accepts_negative_amount :
  _validate_device_charges bundle_with_credit (VBool false) = Ok true /\
  _execute_check device_charges_strict bundle_with_credit = Ok true.
Proof. split; reflexivity. Qed.

(** C3.  A bundle whose [device_children] list is empty passes the
    device-children charges check, and one whose [line_children] list is
    empty passes the line-children charges check, whatever [allow_zero]
    says. *)
Theorem empty_children_pass (bundle : list (pyval * pyval)) (allow_zero : pyval) :
  (lookup_item bundle "device_children" = Some (VList []) ->
   _validate_device_children_charges (VDict bundle) allow_zero = Ok true) /\
  (lookup_item bundle "line_children" = Some (VList []) ->
   _validate_line_children_charges (VDict bundle) allow_zero = Ok true).
Proof.
  split; intros H.
  - unfold _validate_device_children_charges, get, dict_get. rewrite H. reflexivity.
  - unfold _validate_line_children_charges, get, dict_get. rewrite H. reflexivity.
Qed.

(** Witness of [empty_children_pass]: a bundle without device and without
    children, under a descriptor that refuses zero. *)
Lemma empty_children_pass_witness :
  _validate_device_children_charges
    (VDict [(VStr "device", VNone); (VStr "line_children", VList []);
            (VStr "device_children", VList [])]) (VBool false) = Ok true /\
  _validate_line_children_charges
    (VDict [(VStr "device", VNone); (VStr "line_children", VList []);
            (VStr "device_children", VList [])]) (VBool false) = Ok true.
Proof.
  split.
  - apply (proj1 (empty_children_pass
       [(VStr "device", VNone); (VStr "line_children", VList []);
        (VStr "device_children", VList [])] (VBool false))).
    reflexivity.
  - apply (proj2 (empty_children_pass
       [(VStr "device", VNone); (VStr "line_children", VList []);
        (VStr "device_children", VList [])] (VBool false))).
    reflexivity.
Defined.

(** ** The dispatcher contains the failures of one check *)


Lemma py_eq_refl (k : pyval) : hashable k = true -> py_eq k k = true.
Proof.
  destruct k; cbn; try discriminate; intros _.
  - reflexivity.
  - destruct b; reflexivity.
  - apply Qeq_bool_iff. reflexivity.
  - apply String.eqb_refl.
Qed.

Lemma unknown_type_fails (check : list (pyval * pyval)) (assets : pyval) :
  known_type (dict_get check "validation_type" VNone) = false ->
  _execute_check (VDict check) assets = Ok false.
Proof.
  intros H. rewrite execute_check_unfold. unfold known_type in H.
  repeat (apply orb_false_iff in H; destruct H as [H ?]).
  unfold dispatch. rewrite H, H0, H1, H2. reflexivity.
Qed.

Lemma unknown_strategy_fails (check : list (pyval * pyval)) (assets : pyval) :
  unknown_strategy check -> _execute_check (VDict check) assets = Ok false.
Proof.
  intros [[Ht Hl]|[Ht Hl]]; rewrite execute_check_unfold, Ht; cbn - [dict_get].
  - unfold known_presence_logic in Hl.
    apply orb_false_iff in Hl as [H1 H2].
    unfold _check_presence. cbn - [dict_get py_eq]. rewrite H1, H2. reflexivity.
  - unfold known_charge_logic in Hl.
    repeat (apply orb_false_iff in Hl; destruct Hl as [Hl ?]).
    unfold _check_charges. cbn - [dict_get py_eq]. rewrite Hl, H, H0, H1. reflexivity.
Qed.

(** ** Every check of a set, and every reason set, is evaluated *)

Lemma lookup_dict_set_same {V : Type} (d : list (pyval * V)) (k : pyval) (v : V) :
  hashable k = true -> lookup_item (dict_set d k v) k = Some v.
Proof.
  intros Hk. induction d as [|[k1 w] d IH]; cbn.
  - rewrite (py_eq_refl k Hk). reflexivity.
  - destruct (py_eq k1 k) eqn:E; cbn; rewrite E; auto.
Qed.

Lemma lookup_dict_set_bool (d : list (pyval * pyval)) (k k' : pyval) (r : bool) :
  (exists b, lookup_item d k' = Some (VBool b)) ->
  exists b, lookup_item (dict_set d k (VBool r)) k' = Some (VBool b).
Proof.
  induction d as [|[k1 w] d IH]; cbn; intros [b Hb]; [discriminate|].
  destruct (py_eq k1 k) eqn:E; cbn; destruct (py_eq k1 k') eqn:E'; eauto.
Qed.

Lemma lookup_dict_set_some {V : Type} (d : list (pyval * V)) (k k' : pyval) (v : V) :
  is_Some (lookup_item d k') -> is_Some (lookup_item (dict_set d k v) k').
Proof.
  induction d as [|[k1 w] d IH]; cbn; intros [x Hx]; [discriminate|].
  destruct (py_eq k1 k) eqn:E; cbn; destruct (py_eq k1 k') eqn:E'; eauto.
Qed.

Lemma run_loop_total (cs : list pyval) (assets : pyval) :
  Forall descriptor cs ->
  forall results, exists results',
    run_loop cs assets results = Ok results' /\
    (forall c, recorded results c -> recorded results' c) /\
    (forall c, In c cs -> recorded results' c).
Proof.
  induction 1 as [|c cs (d & -> & Hid) _ IH]; intros results.
  - exists results. cbn. repeat split; auto. intros ? [].
  - cbn - [_execute_check]. rewrite execute_check_unfold.
    cbn - [dict_get dispatch]. unfold set_key. rewrite Hid.
    cbn - [dict_get dispatch].
    set (r := match dispatch _ _ _ with Ok b => b | Raise _ => false end).
    destruct (IH (dict_set results (dict_get d "id" VNone) (VBool r)))
      as (results' & Hrun & Hkeep & Hall).
    exists results'. split; [exact Hrun|]. split.
    + intros c (d' & b & -> & Hb). apply Hkeep.
      destruct (lookup_dict_set_bool results (dict_get d "id" VNone)
                  (dict_get d' "id" VNone) r (ex_intro _ b Hb)) as [b' Hb'].
      exists d', b'. auto.
    + intros c [<-|Hin]; [|auto].
      apply Hkeep. exists d, r. split; [reflexivity|].
      apply lookup_dict_set_same, Hid.
Qed.

Lemma bind_ok {A B : Type} (m : result A) (f : A -> result B) (a : A) :
  m = Ok a -> (m ≫= f) = f a.
Proof. intros ->. reflexivity. Qed.

Lemma run_reason_checks_total (validations_config reason assets : pyval) :
  well_formed_config validations_config -> hashable reason = true ->
  exists r, _run_reason_checks validations_config reason assets = Ok r.
Proof.
  intros [_ (rb & Hrb & Hwf)] Hh.
  unfold _run_reason_checks. rewrite (bind_ok _ _ _ Hrb).
  unfold get_key. rewrite Hh. cbn - [dict_get truthy get iter run_loop].
  destruct (Hwf reason Hh) as [Hf|(cs & Hcs & Hd)].
  - rewrite Hf. cbn. eauto.
  - destruct (truthy (dict_get rb reason VNone)); cbn - [get iter run_loop]; eauto.
    unfold declared_checks in Hcs.
    destruct (get (dict_get rb reason VNone) "checks" (VList [])) as [checks|]; [|discriminate].
    cbn - [iter run_loop] in *. rewrite Hcs. cbn - [run_loop].
    destruct (run_loop_total cs assets Hd []) as (results & Hrun & _).
    rewrite Hrun. cbn. eauto.
Qed.

Lemma reasons_loop_total (validations_config assets : pyval) (reasons : list pyval) :
  well_formed_config validations_config ->
  Forall (fun reason => hashable reason = true) reasons ->
  forall acc, exists out,
    reasons_loop validations_config reasons assets acc = Ok out /\
    (forall k, is_Some (lookup_item acc k) -> is_Some (lookup_item out k)) /\
    (forall reason, In reason reasons -> truthy reason = true ->
       is_Some (lookup_item out reason)).
Proof.
  intros Hwf. induction 1 as [|reason reasons Hh _ IH]; intros acc.
  - exists acc. cbn. repeat split; auto. intros ? [].
  - cbn - [_run_reason_checks]. destruct (truthy reason) eqn:Ht.
    + destruct (run_reason_checks_total _ reason assets Hwf Hh) as [r Hr].
      rewrite Hr. cbn. unfold set_key. rewrite Hh. cbn.
      destruct (IH (dict_set acc reason r)) as (out & Hrun & Hkeep & Hall).
      exists out. split; [exact Hrun|]. split.
      * intros k Hk. apply Hkeep, lookup_dict_set_some, Hk.
      * intros x [<-|Hin] Hx; [|auto].
        apply Hkeep. rewrite lookup_dict_set_same; eauto.
    + destruct (IH acc) as (out & Hrun & Hkeep & Hall).
      exists out. split; [exact Hrun|]. split; [exact Hkeep|].
      intros x [<-|Hin] Hx; [congruence|auto].
Qed.

(** The part of the containment that the code keeps.  Running one
    check descriptor that is a dict never raises: the dispatcher returns
    a boolean, which is [False] when the evaluation of the check raised,
    when the [validation_type] is not one of the four known types, and
    when the strategy named under [presence] or [charges] is unknown.  The
    failure stays with that check: with a well-formed configuration the
    basic set records an outcome for every one of its checks, and every
    non-empty reason asked for gets its result set. *)
Theorem check_failures_are_contained
    (check : list (pyval * pyval)) (assets : pyval) :
  (exists b, _execute_check (VDict check) assets = Ok b) /\
  (forall e,
     dispatch (dict_get check "validation_type" VNone) (VDict check) assets = Raise e ->
     _execute_check (VDict check) assets = Ok false) /\
  (known_type (dict_get check "validation_type" VNone) = false ->
     _execute_check (VDict check) assets = Ok false) /\
  (unknown_strategy check -> _execute_check (VDict check) assets = Ok false) /\
  (forall validations_config reasons,
     well_formed_config validations_config ->
     Forall (fun reason => hashable reason = true) reasons ->
     exists st checks passed failed total reason_results,
       validate_for_msisdn validations_config assets reasons =
         Ok {| basic := Ran st checks passed failed total;
               reason_based := reason_results |} /\
       (forall basic_config cs,
          get validations_config "basic" (VDict []) = Ok basic_config ->
          declared_checks basic_config = Ok cs ->
          forall c, In c cs -> recorded checks c) /\
       (forall reason, In reason reasons -> truthy reason = true ->
          is_Some (lookup_item reason_results reason))).
Proof.
  split; [|split; [|split; [|split]]].
  - rewrite execute_check_unfold. eauto.
  - intros e He. rewrite execute_check_unfold, He. reflexivity.
  - apply unknown_type_fails.
  - apply unknown_strategy_fails.
  - intros vc reasons Hwf Hh.
    pose proof Hwf as [(bc & cs & Hbc & Hcs & Hd) _].
    destruct (run_loop_total cs assets Hd []) as (results & Hrun & _ & Hall).
    destruct (reasons_loop_total vc assets reasons Hwf Hh []) as (out & Hout & _ & Hre).
    exists (if Nat.eqb (length results - count_true results) 0 then "PASSED" else "FAILED"),
      results, (count_true results), (length results - count_true results)%nat,
      (length results), out.
    split; [|split].
    + unfold validate_for_msisdn, _run_basic_checks.
      rewrite (bind_ok _ _ _ Hbc).
      unfold declared_checks in Hcs.
      destruct (get bc "checks" (VList [])) as [checks0|]; [|discriminate].
      cbn - [iter run_loop reasons_loop] in *. rewrite Hcs.
      cbn - [run_loop reasons_loop]. rewrite Hrun.
      cbn - [reasons_loop]. rewrite Hout. reflexivity.
    + intros bc' cs' Hbc' Hcs' c Hin.
      rewrite Hbc in Hbc'. injection Hbc' as <-.
      rewrite Hcs in Hcs'. injection Hcs' as <-. auto.
    + exact Hre.
Qed.

Lemma sample_config_well_formed : well_formed_config sample_config.
Proof.
  split.
  - eexists _, _. split; [reflexivity|]. split; [reflexivity|].
    repeat constructor; eexists; split; reflexivity.
  - eexists. split; [reflexivity|]. intros reason _.
    unfold dict_get. cbn [lookup_item].
    destruct (py_eq (VStr "Change Plan") reason).
    + right. eexists. split; [reflexivity|].
      repeat constructor; eexists; split; reflexivity.
    + left. reflexivity.
Defined.

(** Witness of [check_failures_are_contained]: the raising check yields
    [False], and the run over [sample_config] still records the device
    check that follows it and answers the reason asked for. *)
Lemma check_failures_are_contained_witness :
  dispatch (VStr "presence") (VDict sim_check) broken_bundle = Raise AttributeError /\
  _execute_check (VDict sim_check) broken_bundle = Ok false /\
  exists st checks passed failed total reason_results,
    validate_for_msisdn sample_config broken_bundle [VStr "Change Plan"; VStr ""] =
      Ok {| basic := Ran st checks passed failed total;
            reason_based := reason_results |} /\
    recorded checks (VDict device_check) /\
    is_Some (lookup_item reason_results (VStr "Change Plan")).
Proof.
  destruct (check_failures_are_contained sim_check broken_bundle)
    as (_ & Hraise & _ & _ & Hrun).
  split; [reflexivity|]. split.
  - apply (Hraise AttributeError). reflexivity.
  - destruct (Hrun sample_config [VStr "Change Plan"; VStr ""]
                sample_config_well_formed)
      as (st & checks & passed & failed & total & rr & Hout & Hbasic & Hreason).
    { repeat constructor. }
    exists st, checks, passed, failed, total, rr.
    split; [exact Hout|]. split.
    + apply (Hbasic _ _ eq_refl eq_refl). cbn. auto.
    + apply Hreason; [cbn; auto | reflexivity].
Defined.

(** C4.  A failure does not always stay with its check.  The check
    [listed_id_check] has an unknown [validation_type]: the dispatcher
    answers [False] for it, as the claim says.  But its [id] is a list,
    which cannot be a key of [results], and the assignment
    [results[check_id] = result] stands in the loop, outside the [try] of
    the dispatcher: the basic set ends in a [TypeError], the device check
    that follows is never evaluated, and the whole validation raises.
    Without the malformed check the device check is evaluated and passes.
    A descriptor that is not a dict ends the loop the same way, with an
    [AttributeError] from [check.get('id')]. *)
Theorem malformed_descriptor_aborts_the_set :
  _execute_check (VDict listed_id_check) broken_bundle = Ok false /\
  _run_basic_checks malformed_config broken_bundle = Raise TypeError /\
  validate_for_msisdn malformed_config broken_bundle [VStr "Change Plan"]
    = Raise TypeError /\
  _run_basic_checks repaired_config broken_bundle =
    Ok (Ran "PASSED" [(VStr "device_exists", VBool true)] 1 0 1) /\
  _run_basic_checks
    (VDict [(VStr "basic",
             VDict [(VStr "checks", VList [VStr "device_exists";
                                           VDict device_check])])])
    broken_bundle = Raise AttributeError.
Proof. repeat split; vm_compute; reflexivity. Qed.

End EngineProperties.

(* ===================================================================== *)
(** * Properties of the Response Assembler                                *)
(* ===================================================================== *)

Section ResponseProperties.
Import Py ResponseBuilder.






Example basic_failed_reason_passed :
  validation_status
    (validation_data_of (set_with "FAILED")
       [(VStr "Change Plan", set_with "PASSED")] (VList [])) = Ok "FAILED".
Proof. reflexivity. Qed.

Example basic_passed_reason_skipped :
  validation_status
    (validation_data_of (set_with "PASSED")
       [(VStr "Change Plan", set_with "SKIPPED")] (VList [])) = Ok "PASSED".
Proof. reflexivity. Qed.

Example basic_passed_with_warning :
  validation_status
    (validation_data_of (set_with "PASSED")
       [(VStr "Change Plan", set_with "PASSED")]
       (VList [VDict [(VStr "modified_by", VStr "agent")]]))
  = Ok "PASSED_WITH_WARNINGS".
Proof. reflexivity. Qed.

Example only_first_run_reason_counts :
  validation_status
    (validation_data_of (set_with "PASSED")
       [(VStr "Port In", set_with "SKIPPED");
        (VStr "Change Plan", set_with "PASSED");
        (VStr "SIM Swap", set_with "FAILED")] (VList [])) = Ok "PASSED".
Proof. reflexivity. Qed.

(** ** The whole response *)





(** The response to [sample_validation_data]. *)
Example sample_response :
  (fun r => (response_validation_status r, response_success_rate r,
             response_order_reasons r, response_notes r))
  <$> match _build_msisdn_response "555" (VDict []) sample_validation_data with
      | Ok r => Some r
      | Raise _ => None
      end
  = Some ("PASSED_WITH_WARNINGS", VNum (Qmake 10000 100),
          [VStr "Change Plan"], ManuallyModified 1).
Proof. vm_compute. reflexivity. Qed.


(** A result without assets, or with texts for warnings, gets no response:
    the method raises before, or after, it has computed the verdict. *)
Example unreadable_results_raise :
  _build_msisdn_response "555" (VDict [])
    (VDict [(VStr "assets", VNone);
            (VStr "validations",
             VDict [(VStr "basic", set_with "PASSED");
                    (VStr "reason_based", VDict [])]);
            (VStr "warnings", VList [VStr "manually modified"])])
    = Raise AttributeError /\
  _build_msisdn_response "555" (VDict [])
    (validation_data_of (set_with "PASSED") []
       (VList [VStr "manually modified"]))
    = Raise AttributeError.
Proof. split; vm_compute; reflexivity. Qed.

End ResponseProperties.

(* ===================================================================== *)
(** * Properties of the Order Classifier                                  *)
(* ===================================================================== *)

Section DisconnectExclusion.
Import OrderFilter.
#[local] Arguments String.append : simpl nomatch.

Lemma prefix_app (n h : string) :
  String.prefix n h = true <-> exists post, h = (n ++ post)%string.
Proof.
  revert h. induction n as [|c n IH]; intros h; cbn.
  - split; [intros _; exists h; reflexivity | intros _; destruct h; reflexivity].
  - destruct h as [|c' h]; cbn.
    + split; [discriminate | intros [post H]; discriminate H].
    + destruct (ascii_dec c c') as [->|Hne].
      * rewrite IH. split; intros [post H]; exists post; cbn in *; congruence.
      * split; [discriminate | intros [post H]; cbn in H; congruence].
Qed.

Lemma contains_app (n h : string) :
  contains n h = true <-> exists pre post, h = (pre ++ n ++ post)%string.
Proof.
  induction h as [|c h IH]; cbn [contains].
  - rewrite orb_false_r, prefix_app. split.
    + intros [post H]. exists "", post. exact H.
    + intros (pre & post & H). destruct pre; [eauto|discriminate H].
  - rewrite orb_true_iff, prefix_app, IH. split.
    + intros [[post H]|(pre & post & H)].
      * exists "", post. exact H.
      * exists (String c pre), post. cbn. congruence.
    + intros (pre & post & H). destruct pre as [|c' pre]; cbn in H.
      * left. eauto.
      * right. exists pre, post. congruence.
Qed.

Lemma lower_app (a b : string) : lower (a ++ b) = (lower a ++ lower b)%string.
Proof. induction a as [|c a IH]; cbn; congruence. Qed.

Lemma lower_split (r a b : string) :
  lower r = (a ++ b)%string ->
  exists x y, r = (x ++ y)%string /\ lower x = a /\ lower y = b.
Proof.
  revert r. induction a as [|c a IH]; intros r H; cbn in H.
  - exists "", r. auto.
  - destruct r as [|c' r]; cbn in H; [discriminate|].
    injection H as Hc H. destruct (IH r H) as (x & y & -> & <- & <-).
    exists (String c' x), y. cbn. rewrite Hc. auto.
Qed.

(** The test of the loop decides [mentions_disconnect]. *)
Lemma disconnect_test (order : order_item) :
  contains "disconnect" (reason_text order) = true <-> mentions_disconnect order.
Proof.
  unfold reason_text, mentions_disconnect, reason_of.
  destruct (Order order) as [o|]; [|split; [discriminate|tauto]].
  destruct (vlocity_cmt__Reason__c o) as [r|]; [|split; [discriminate|tauto]].
  rewrite contains_app. split.
  - intros (pre & post & H).
    apply lower_split in H as (x & y & -> & _ & H).
    apply lower_split in H as (mid & z & -> & Hmid & _).
    exists x, mid, z. auto.
  - intros (pre & mid & post & -> & Hmid).
    exists (lower pre), (lower post). rewrite !lower_app, Hmid. reflexivity.
Qed.

(** C5.  Disconnect exclusion removes exactly the orders whose reason
    contains "disconnect" in any case: the result is the input filtered,
    in order, by the negation of [mentions_disconnect].  An order with a
    null reason is never removed, and of two orders of one identifier with
    reasons "Disconnect Request" and "Upgrade" only the second survives. *)
Theorem disconnect_exclusion (orders : list order_item) :
  (exists keep : order_item -> bool,
      (forall o, keep o = true <-> ~ mentions_disconnect o) /\
      filter_orders orders = List.filter keep orders) /\
  (forall o, In o (filter_orders orders) <->
             In o orders /\ ~ mentions_disconnect o) /\
  (forall o, In o orders -> reason_of o = None -> In o (filter_orders orders)) /\
  filter_orders [order_with_reason "1" "555" (Some "Disconnect Request");
                 order_with_reason "2" "555" (Some "Upgrade")]
  = [order_with_reason "2" "555" (Some "Upgrade")].
Proof.
  set (keep := fun o => negb (contains "disconnect" (reason_text o))).
  assert (Hkeep : forall o, keep o = true <-> ~ mentions_disconnect o).
  { intros o. unfold keep. rewrite <- disconnect_test.
    destruct (contains "disconnect" (reason_text o)); cbn; split; auto;
      try discriminate; try (intros H; exfalso; auto). }
  assert (Heq : forall l, filter_orders l = List.filter keep l).
  { induction l as [|o l IH]; cbn; [reflexivity|]. unfold keep at 1.
    destruct (contains "disconnect" (reason_text o)); cbn; congruence. }
  assert (Hin : forall o, In o (filter_orders orders) <->
                          In o orders /\ ~ mentions_disconnect o).
  { intros o. rewrite Heq, List.filter_In, Hkeep. reflexivity. }
  split; [exists keep; auto|]. split; [exact Hin|]. split; [|reflexivity].
  intros o Ho Hnull. apply Hin. split; [exact Ho|].
  unfold mentions_disconnect. rewrite Hnull. tauto.
Qed.

End DisconnectExclusion.

Section Grouping.
Import Py OrderFilter.

(** ** The order of strings *)

Lemma ascii_compare_refl (a : ascii) : Ascii.compare a a = Eq.
Proof. apply N.compare_refl. Qed.

Lemma ascii_compare_lt_trans (a b c : ascii) :
  Ascii.compare a b = Lt -> Ascii.compare b c = Lt -> Ascii.compare a c = Lt.
Proof.
  unfold Ascii.compare. rewrite !N.compare_lt_iff. apply N.lt_trans.
Qed.

Lemma compare_refl (s : string) : String.compare s s = Eq.
Proof.
  induction s as [|a s IH]; cbn; [reflexivity|].
  rewrite ascii_compare_refl. exact IH.
Qed.

Lemma compare_lt_trans (s t u : string) :
  String.compare s t = Lt -> String.compare t u = Lt -> String.compare s u = Lt.
Proof.
  revert t u. induction s as [|a s IH]; intros [|b t] [|c u]; cbn;
    try discriminate; try reflexivity.
  destruct (Ascii.compare a b) eqn:Eab; try discriminate;
  destruct (Ascii.compare b c) eqn:Ebc; try discriminate; intros H1 H2.
  - apply Ascii.compare_eq_iff in Eab, Ebc. subst.
    rewrite ascii_compare_refl. eauto.
  - apply Ascii.compare_eq_iff in Eab. subst. rewrite Ebc. reflexivity.
  - apply Ascii.compare_eq_iff in Ebc. subst. rewrite Eab. reflexivity.
  - rewrite (ascii_compare_lt_trans a b c Eab Ebc). reflexivity.
Qed.

Lemma leb_ltb_trans (s t u : string) :
  String.leb s t = true -> String.ltb t u = true -> String.ltb s u = true.
Proof.
  unfold String.leb, String.ltb.
  destruct (String.compare s t) eqn:Est; try discriminate; intros _;
  destruct (String.compare t u) eqn:Etu; try discriminate; intros _.
  - apply String.compare_eq_iff in Est. subst. rewrite Etu. reflexivity.
  - rewrite (compare_lt_trans s t u Est Etu). reflexivity.
Qed.

Lemma ltb_leb (s t : string) : String.ltb s t = true -> String.leb s t = true.
Proof.
  unfold String.leb, String.ltb. destruct (String.compare s t); auto.
Qed.

Lemma str_gt_ltb (a b : string) : str_gt a b = true -> String.ltb b a = true.
Proof.
  unfold str_gt, String.ltb. rewrite (String.compare_antisym b a).
  destruct (String.compare a b); cbn; intros H; try discriminate H; reflexivity.
Qed.

Lemma str_not_gt_leb (a b : string) : str_gt a b = false -> String.leb a b = true.
Proof.
  unfold str_gt, String.leb. destruct (String.compare a b); auto.
Qed.

(** ** The grouping loop *)

Lemma msisdn_of_some (o : order_item) (m : string) :
  msisdn_of o = Some m <-> PR_MSISDN__c o = Some m /\ m <> "".
Proof.
  unfold msisdn_of. destruct (PR_MSISDN__c o) as [x|].
  - destruct (String.eqb x "") eqn:E.
    + apply String.eqb_eq in E. subst. split; [discriminate|].
      intros [[= <-] H]. congruence.
    + apply String.eqb_neq in E. split.
      * intros [= <-]. auto.
      * intros [[= <-] _]. reflexivity.
  - split; [discriminate|]. intros [H _]. discriminate H.
Qed.

Lemma keep_later_invariant (seen : list order_item) (grouped : gmap string order_item)
    (order : order_item) :
  grouped_so_far seen grouped ->
  grouped_so_far (seen ++ [order]) (keep_later grouped order).
Proof.
  intros Hinv m Hm. specialize (Hinv m Hm). unfold keep_later.
  assert (Hkeep : match grouped !! m with
                  | Some o => latest_first m seen o
                  | None => forall o, In o seen -> PR_MSISDN__c o <> Some m
                  end ->
                  (PR_MSISDN__c order = Some m ->
                   exists e, grouped !! m = Some e /\
                             str_gt (created_date order) (created_date e) = false) ->
                  match grouped !! m with
                  | Some o => latest_first m (seen ++ [order]) o
                  | None => forall o, In o (seen ++ [order]) -> PR_MSISDN__c o <> Some m
                  end).
  { intros H Hnew. destruct (grouped !! m) as [e|].
    - destruct H as (before & after & -> & He & Hb & Ha).
      exists before, (after ++ [order]). rewrite <- List.app_assoc. cbn.
      repeat split; auto.
      intros o' Hin Ho'. apply List.in_app_or in Hin as [Hin|[<-|[]]]; [auto|].
      destruct (Hnew Ho') as (e' & [= <-] & Hle).
      apply str_not_gt_leb. exact Hle.
    - intros o Hin Ho. apply List.in_app_or in Hin as [Hin|[<-|[]]].
      + exact (H o Hin Ho).
      + destruct (Hnew Ho) as (? & ? & _). discriminate. }
  destruct (msisdn_of order) as [mx|] eqn:Emx.
  - apply msisdn_of_some in Emx as [Emx Hmx].
    destruct (decide (mx = m)) as [->|Hne].
    + destruct (grouped !! m) as [e|] eqn:Ee.
      * destruct (str_gt (created_date order) (created_date e)) eqn:Egt.
        -- rewrite lookup_insert_eq.
           destruct Hinv as (before & after & -> & He & Hb & Ha).
           exists (before ++ e :: after), [].
           split; [reflexivity|]. split; [exact Emx|]. split; [|intros ? []].
           intros o' Hin Ho'. apply str_gt_ltb in Egt.
           apply leb_ltb_trans with (created_date e); [|exact Egt].
           apply List.in_app_or in Hin as [Hin|[<-|Hin]].
           ++ apply ltb_leb. exact (Hb o' Hin Ho').
           ++ unfold String.leb. rewrite compare_refl. reflexivity.
           ++ exact (Ha o' Hin Ho').
        -- rewrite Ee. apply Hkeep; [exact Hinv|]. eauto.
      * rewrite lookup_insert_eq. exists seen, [].
        split; [reflexivity|]. split; [exact Emx|]. split; [|intros ? []].
        intros o' Hin Ho'. exfalso. exact (Hinv o' Hin Ho').
    + assert (Hother : PR_MSISDN__c order = Some m ->
                       exists e, grouped !! m = Some e /\
                                 str_gt (created_date order) (created_date e) = false)
        by (intros H; congruence).
      destruct (grouped !! mx) as [e|];
        [destruct (str_gt (created_date order) (created_date e))|];
        rewrite ?lookup_insert_ne by exact Hne; apply Hkeep; auto.
  - apply Hkeep; [exact Hinv|]. intros H.
    assert (msisdn_of order = Some m) by (apply msisdn_of_some; auto).
    congruence.
Qed.

Lemma keep_later_fold_invariant (rest seen : list order_item)
    (grouped : gmap string order_item) :
  grouped_so_far seen grouped ->
  grouped_so_far (seen ++ rest) (fold_left keep_later rest grouped).
Proof.
  revert seen grouped. induction rest as [|o rest IH]; intros seen grouped H; cbn.
  - rewrite List.app_nil_r. exact H.
  - replace (seen ++ o :: rest) with ((seen ++ [o]) ++ rest)
      by (rewrite <- List.app_assoc; reflexivity).
    apply IH, keep_later_invariant, H.
Qed.

(** ** Dated orders *)

Lemma created_dated (order : order_item) :
  dated order -> created order = Some (created_date order).
Proof.
  unfold dated, created, created_date.
  destruct (CreatedDate order); [reflexivity|congruence|reflexivity].
Qed.

Lemma group_step_dated (grouped : gmap string order_item) (order : order_item) :
  dated order -> map_Forall (fun _ o => dated o) grouped ->
  group_step grouped order = Ok (keep_later grouped order) /\
  map_Forall (fun _ o => dated o) (keep_later grouped order).
Proof.
  intros Ho Hg. unfold group_step, keep_later.
  destruct (msisdn_of order) as [m|]; [|auto].
  destruct (grouped !! m) as [e|] eqn:Ee.
  - rewrite (created_dated order Ho), (created_dated e (Hg m e Ee)).
    cbn [gt mbind result_bind mret result_ret].
    split; [reflexivity|].
    destruct (str_gt (created_date order) (created_date e)); [|exact Hg].
    apply map_Forall_insert_2; assumption.
  - split; [reflexivity|]. apply map_Forall_insert_2; assumption.
Qed.

Lemma group_from_dated (orders : list order_item) :
  Forall dated orders ->
  forall grouped, map_Forall (fun _ o => dated o) grouped ->
    group_from grouped orders = Ok (fold_left keep_later orders grouped).
Proof.
  induction 1 as [|order rest Ho _ IH]; intros grouped Hg; [reflexivity|].
  cbn [group_from fold_left].
  destruct (group_step_dated grouped order Ho Hg) as [-> Hg'].
  cbn [mbind result_bind]. apply IH, Hg'.
Qed.

Lemma group_by_msisdn_dated (orders : list order_item) :
  Forall dated orders ->
  group_by_msisdn orders = Ok (fold_left keep_later orders ∅).
Proof.
  intros H. apply (group_from_dated orders H). apply map_Forall_empty.
Qed.

(** C6.  For every list of orders whose timestamps are texts (or absent,
    which the loop reads as the empty text) and every identifier [m],
    grouping returns a map that sends [m] to the order with the greatest
    [CreatedDate] (as strings) among the orders of [m], the earliest of
    them in the list when several share that timestamp; an identifier
    without orders is not mapped. *)
Theorem grouping_keeps_latest (orders : list order_item) (m : string) :
  Forall dated orders ->
  m <> "" ->
  exists grouped,
    group_by_msisdn orders = Ok grouped /\
    match grouped !! m with
    | Some o => latest_first m orders o
    | None => forall o, In o orders -> PR_MSISDN__c o <> Some m
    end.
Proof.
  intros Hd Hm. exists (fold_left keep_later orders ∅).
  split; [exact (group_by_msisdn_dated orders Hd)|].
  assert (H : grouped_so_far ([] ++ orders) (fold_left keep_later orders ∅)).
  { apply keep_later_fold_invariant. intros m' _. rewrite lookup_empty. intros ? []. }
  exact (H m Hm).
Qed.

Example grouping_sample :
  (fun grouped => grouped !! "555") <$>
    match group_by_msisdn sample_orders with
    | Ok grouped => Some grouped
    | Raise _ => None
    end
  = Some (Some (order_at "b" "555" "2025-11-09T17:30:00.000+0000")).
Proof. vm_compute. reflexivity. Qed.

(** Witness of [grouping_keeps_latest] on [sample_orders] and "555". *)
Lemma grouping_keeps_latest_witness :
  exists grouped,
    group_by_msisdn sample_orders = Ok grouped /\
    match grouped !! "555" with
    | Some o => latest_first "555" sample_orders o
    | None => forall o, In o sample_orders -> PR_MSISDN__c o <> Some "555"
    end.
Proof.
  apply (grouping_keeps_latest sample_orders "555").
  - repeat constructor; discriminate.
  - intros H. discriminate H.
Defined.

(** A null timestamp cannot be compared: as soon as the identifier of such
    an order has a second order, the grouping raises, whichever of the two
    comes first; an order that is alone under its identifier is never
    compared. *)
Example null_date_is_not_ordered :
  group_by_msisdn [order_at "a" "555" "2025-11-09T08:00:00.000+0000";
                   undated_order "b" "555"] = Raise TypeError /\
  group_by_msisdn [undated_order "b" "555";
                   order_at "a" "555" "2025-11-09T08:00:00.000+0000"]
    = Raise TypeError /\
  group_by_msisdn [undated_order "b" "555"]
    = Ok (<["555" := undated_order "b" "555"]> ∅).
Proof. repeat split; reflexivity. Qed.

End Grouping.

(* ===================================================================== *)
(** * Properties of the Order Retriever                                   *)
(* ===================================================================== *)

Section RetrieverProperties.
Import Py OrderFilter OrderFetcher.

Lemma not_in_spec (reason : string) (allowed : list string) :
  not_in reason allowed = true <-> ~ In reason allowed.
Proof.
  unfold not_in. rewrite negb_true_iff, <- not_true_iff_false, List.existsb_exists.
  split; intros H.
  - intros Hin. apply H. exists reason. split; [exact Hin|apply String.eqb_refl].
  - intros (x & Hin & Hx). apply String.eqb_eq in Hx. subst. auto.
Qed.

Lemma fetch_and_group_sends_one (sf : client) (soql : string) :
  fst (fetch_and_group sf soql) = [soql] /\
  forall e, snd (fetch_and_group sf soql) = Raise e -> sf soql = Raise e.
Proof.
  unfold fetch_and_group. cbn. split; [reflexivity|].
  intros e. destruct (sf soql) as [[|r rs]|e']; congruence.
Qed.

(** C7.  [get_orders] raises [ValueError] without sending any query when
    the reason-filtered strategy is selected and no reason filter is
    configured, when under that strategy a non-empty allow-list does not
    contain the configured reason, and when the strategy is neither of the
    two known ones.  In every other case it sends exactly one query, and
    an exception, if any, is the one the record source raised. *)
Theorem configuration_errors (sf : client) (config : fetcher_config) :
  (misconfigured config -> get_orders sf config = ([], Raise ValueError)) /\
  (~ misconfigured config ->
   exists soql,
     fst (get_orders sf config) = [soql] /\
     forall e, snd (get_orders sf config) = Raise e -> sf soql = Raise e).
Proof.
  unfold misconfigured, no_reason_configured, reason_not_allowed,
    unknown_fetch_strategy, get_orders, selected_strategy.
  destruct (String.eqb_spec
              (match fetch_strategy config with Some s => s | None => "latest" end)
              "latest") as [El|Nl].
  { split.
    - intros [[H _]|[[H _]|[H _]]]; rewrite El in H; try discriminate H.
      congruence.
    - intros _. exists latest_soql. apply fetch_and_group_sends_one. }
  destruct (String.eqb_spec
              (match fetch_strategy config with Some s => s | None => "latest" end)
              "filtered") as [Ef|Nf].
  2: { split; [reflexivity|]. intros H. exfalso. apply H. right. right. auto. }
  unfold _get_filtered_orders, no_filter.
  destruct (order_reason_filter config) as [reason|] eqn:Er.
  2: { split; [reflexivity|]. intros H. exfalso. apply H. left. auto. }
  destruct (String.eqb_spec reason "") as [->|Hr].
  { split; [reflexivity|]. intros H. exfalso. apply H. left. auto. }
  destruct (valid_order_reasons config) as [[|a allowed]|] eqn:Ev; cbn [andb].
  - split.
    + intros [[_ [H|H]]|[(_ & r & al & _ & _ & H & Hal & _)|[_ H]]]; congruence.
    + intros _. eexists. apply fetch_and_group_sends_one.
  - destruct (not_in reason (a :: allowed)) eqn:En.
    + split; [reflexivity|]. intros H. exfalso. apply H. right. left.
      split; [exact Ef|]. exists reason, (a :: allowed).
      split; [reflexivity|]. split; [exact Hr|]. split; [reflexivity|].
      split; [discriminate|]. apply not_in_spec. exact En.
    + split.
      * intros [[_ [H|H]]|[(_ & r & al & Hr' & _ & Hal & _ & Hnin)|[_ H]]];
          try congruence.
        injection Hr' as <-. injection Hal as <-.
        apply not_in_spec in Hnin. congruence.
      * intros _. eexists. apply fetch_and_group_sends_one.
  - split.
    + intros [[_ [H|H]]|[(_ & r & al & _ & _ & H & _)|[_ H]]]; congruence.
    + intros _. eexists. apply fetch_and_group_sends_one.
Qed.

(** Witness of [configuration_errors]: the reason-filtered strategy without
    a reason, and the same strategy with an allowed reason. *)
Lemma configuration_errors_witness :
  get_orders (fun _ => Ok [])
    {| fetch_strategy := Some "filtered"; order_reason_filter := None;
       valid_order_reasons := Some ["Change Plan"] |}
  = ([], Raise ValueError) /\
  exists soql,
    fst (get_orders (fun _ => Ok [])
           {| fetch_strategy := Some "filtered";
              order_reason_filter := Some "Change Plan";
              valid_order_reasons := Some ["Change Plan"] |}) = [soql].
Proof.
  split.
  - apply (proj1 (configuration_errors (fun _ => Ok [])
       {| fetch_strategy := Some "filtered"; order_reason_filter := None;
          valid_order_reasons := Some ["Change Plan"] |})).
    left. split; [reflexivity|]. left. reflexivity.
  - destruct (proj2 (configuration_errors (fun _ => Ok [])
       {| fetch_strategy := Some "filtered";
          order_reason_filter := Some "Change Plan";
          valid_order_reasons := Some ["Change Plan"] |})) as (soql & H & _).
    + intros [[_ [H|H]]|[(_ & r & al & Hr & _ & Hal & _ & Hnin)|[_ H]]];
        try discriminate H.
      * injection Hr as <-. injection Hal as <-. apply Hnin. left. reflexivity.
      * apply H. reflexivity.
    + exists soql. exact H.
Defined.

End RetrieverProperties.

(* ===================================================================== *)
(** * Properties of the Asset Assembler                                   *)
(* ===================================================================== *)

Section AssemblerProperties.
Import Py AssetFetcher.

Lemma product_name_ok (record : list (pyval * pyval)) :
  product_readable record -> exists n, product_name (VDict record) = Ok n.
Proof.
  unfold product_readable, product_name. cbn [get mbind result_bind].
  destruct (dict_get record "Product2" (VDict [])); try discriminate.
  intros _. cbn. eauto.
Qed.

(** The two structured results.  When the line lookup finds no record the
    result carries no line, no device, no children and the error
    "No active line found".  When it finds a line (with a readable product)
    and the device lookup for the asset reference of that line finds
    nothing, the result carries that line, no device, no children and the
    error "No device found (mandatory)".  Both are returned, not raised. *)
Theorem lookup_failures_are_results
    (sf : client) (msisdn : string) (config : gmap string query_config) :
  (forall line,
     _get_latest_line sf msisdn config = Ok line -> truthy line = false ->
     get_assets_for_msisdn_v2 sf msisdn config =
       Ok {| latest_line := VNone; device := VNone; line_children := [];
             device_children := []; error := Some "No active line found" |}) /\
  (forall line dev,
     _get_latest_line sf msisdn config = Ok (VDict line) ->
     truthy (VDict line) = true -> product_readable line ->
     _get_device_for_line sf msisdn
       (dict_get line "vlocity_cmt__AssetReferenceId__c" VNone) config = Ok dev ->
     truthy dev = false ->
     get_assets_for_msisdn_v2 sf msisdn config =
       Ok {| latest_line := VDict line; device := VNone; line_children := [];
             device_children := [];
             error := Some "No device found (mandatory)" |}).
Proof.
  split.
  - intros line Hline Hfalsy. unfold get_assets_for_msisdn_v2.
    rewrite Hline. cbn [mbind result_bind]. rewrite Hfalsy. reflexivity.
  - intros line dev Hline Htruthy Hprod Hdev Hfalsy.
    unfold get_assets_for_msisdn_v2.
    rewrite Hline. cbn [mbind result_bind]. rewrite Htruthy. cbn [negb].
    destruct (product_name_ok line Hprod) as [n Hn]. rewrite Hn.
    cbn [mbind result_bind get]. rewrite Hdev.
    cbn [mbind result_bind]. rewrite Hfalsy. reflexivity.
Qed.

Example line_only_run :
  get_assets_for_msisdn_v2 line_only_source "555" sample_queries =
  Ok {| latest_line := VDict sample_line; device := VNone; line_children := [];
        device_children := []; error := Some "No device found (mandatory)" |}.
Proof. vm_compute. reflexivity. Qed.

(** The error state is not the lower-case text "no device found
    (mandatory)": for an identifier with a line and no device the result
    differs from the one carrying that text. *)
Lemma error_text_is_capitalised :
  get_assets_for_msisdn_v2 line_only_source "555" sample_queries <>
  Ok {| latest_line := VDict sample_line; device := VNone; line_children := [];
        device_children := []; error := Some "no device found (mandatory)" |}.
Proof. rewrite line_only_run. intros H. discriminate H. Qed.

(** Witness of [lookup_failures_are_results]: a source without any record,
    and [line_only_source]. *)
Lemma lookup_failures_are_results_witness :
  get_assets_for_msisdn_v2 (fun _ => Ok []) "555" sample_queries =
    Ok {| latest_line := VNone; device := VNone; line_children := [];
          device_children := []; error := Some "No active line found" |} /\
  get_assets_for_msisdn_v2 line_only_source "555" sample_queries =
    Ok {| latest_line := VDict sample_line; device := VNone; line_children := [];
          device_children := []; error := Some "No device found (mandatory)" |}.
Proof.
  split.
  - apply (proj1 (lookup_failures_are_results (fun _ => Ok []) "555" sample_queries)
             VNone); vm_compute; reflexivity.
  - apply (proj2 (lookup_failures_are_results line_only_source "555" sample_queries)
             sample_line VNone); vm_compute; reflexivity.
Defined.

(** The device lookup for a line whose asset reference is a text: both
    placeholders are filled in and one query is sent. *)
Lemma device_lookup_with_reference (sf : client) (msisdn ref : string)
    (config : gmap string query_config) :
  let q := query_named config "device_for_line" in
  _get_device_for_line sf msisdn (VStr ref) config =
    (records ← sf (select q (map (replace "{asset_reference_id}" ref)
                               (map (replace "{msisdn}" msisdn)
                                    (where_conditions q))));
     mret (first_or_none records)).
Proof.
  intros q. unfold _get_device_for_line. fold q.
  destruct (where_conditions q) as [|w ws]; reflexivity.
Qed.

(** A line with a textual asset reference for which the record source
    holds no device gives the structured result: nothing is assumed of the
    device lookup but the answer of the source to its query. *)
Lemma missing_device_is_a_result (sf : client) (msisdn ref : string)
    (config : gmap string query_config) (line : list (pyval * pyval)) :
  let q := query_named config "device_for_line" in
  _get_latest_line sf msisdn config = Ok (VDict line) ->
  line <> [] -> product_readable line ->
  dict_get line "vlocity_cmt__AssetReferenceId__c" VNone = VStr ref ->
  sf (select q (map (replace "{asset_reference_id}" ref)
                  (map (replace "{msisdn}" msisdn) (where_conditions q))))
    = Ok [] ->
  get_assets_for_msisdn_v2 sf msisdn config =
    Ok {| latest_line := VDict line; device := VNone; line_children := [];
          device_children := [];
          error := Some "No device found (mandatory)" |}.
Proof.
  intros q Hline Hne Hprod Href Hsf.
  apply (proj2 (lookup_failures_are_results sf msisdn config) line VNone);
    auto.
  - destruct line; [congruence|reflexivity].
  - rewrite Href, device_lookup_with_reference. fold q. rewrite Hsf. reflexivity.
Qed.

(** C8.  A line is found for "555", the record source holds no device for
    it, and yet no structured result is returned: the line has no asset
    reference, [str.replace] refuses [None] for the placeholder of the
    device query, and the [TypeError] leaves [get_assets_for_msisdn_v2]
    through its [except] clause, which raises again.  The same line with a
    reference gives the structured result "No device found (mandatory)". *)
Theorem line_without_reference_is_a_fault :
  _get_latest_line unlinked_line_source "555" sample_queries
    = Ok (VDict bare_line) /\
  (forall soql records,
     unlinked_line_source soql = Ok records ->
     records = [] \/ records = [VDict bare_line]) /\
  get_assets_for_msisdn_v2 unlinked_line_source "555" sample_queries
    = Raise TypeError /\
  get_assets_for_msisdn_v2 line_only_source "555" sample_queries =
    Ok {| latest_line := VDict sample_line; device := VNone;
          line_children := []; device_children := [];
          error := Some "No device found (mandatory)" |}.
Proof.
  split; [vm_compute; reflexivity|]. split; [|split].
  - intros soql records. unfold unlinked_line_source.
    destruct (String.eqb soql _); intros [= <-]; auto.
  - vm_compute. reflexivity.
  - exact line_only_run.
Qed.

(** A line whose [Product2] is null makes the log line raise: the device
    lookup is never reached. *)
Example null_product_raises :
  get_assets_for_msisdn_v2
    (fun soql => Ok [VDict [(VStr "Id", VStr "L1"); (VStr "Product2", VNone)]])
    "555" sample_queries
  = Raise AttributeError.
Proof. vm_compute. reflexivity. Qed.

End AssemblerProperties.

(* ===================================================================== *)
(** * Properties of the Bulk Executor                                     *)
(* ===================================================================== *)

Section BulkProperties.
Import Py OrderFilter BulkValidator.

(** ** Counting *)

Lemma status_test (d : list (pyval * pyval)) :
  py_eq (dict_get d "status" VNone) "error" = reports_error (VDict d).
Proof.
  unfold reports_error, status_of, dict_get.
  destruct (lookup_item d "status") as [[]|]; reflexivity.
Qed.

Lemma count_successful_spec (results : list (string * pyval)) :
  Forall (fun kr => is_dict (snd kr) = true) results ->
  count_successful results =
  Ok (length (List.filter (fun kr => negb (reports_error (snd kr))) results)).
Proof.
  induction 1 as [|[k r] rest Hr _ IH]; [reflexivity|].
  cbn [snd] in Hr. destruct r; try discriminate Hr.
  cbn [count_successful get mbind result_bind mret result_ret List.filter snd].
  rewrite IH, status_test. cbn [mbind result_bind].
  destruct (reports_error (VDict d)); reflexivity.
Qed.

Lemma count_all_successful (results : list (string * pyval)) :
  (forall k r, In (k, r) results -> success r) ->
  count_successful results = Ok (length results).
Proof.
  intros Hall. rewrite count_successful_spec.
  - f_equal. f_equal. apply List.forallb_filter_id, List.forallb_forall.
    intros [k r] Hin. cbn [snd]. destruct (Hall k r Hin) as [_ ->]. reflexivity.
  - apply List.Forall_forall. intros [k r] Hin. exact (proj1 (Hall k r Hin)).
Qed.

(** ** The success rate *)

Lemma round_half_even_integer (q : Q) (z : Z) :
  (q == inject_Z z)%Q -> round_half_even q = z.
Proof.
  intros H. unfold round_half_even.
  assert (Hf : Qfloor q = z) by (rewrite H; apply Qfloor_Z).
  rewrite Hf.
  assert (Hlt : Qcompare (q - inject_Z z) (1 # 2) = Lt).
  { apply -> Qlt_alt. rewrite H. unfold Qminus. rewrite Qplus_opp_r. reflexivity. }
  rewrite Hlt. reflexivity.
Qed.

Lemma float_ext (x y : Q) : (x == y)%Q -> float x = float y.
Proof. intros H. unfold float. rewrite (Qred_complete x y H). reflexivity. Qed.

Lemma full_rate (n : nat) :
  (0 < n)%nat ->
  (percent (inject_Z (Z.of_nat n)) (inject_Z (Z.of_nat n)) == 100)%Q.
Proof.
  intros Hn. unfold percent.
  rewrite (float_ext (inject_Z (Z.of_nat n) / inject_Z (Z.of_nat n)) 1).
  - vm_compute. reflexivity.
  - assert (Hnz : ~ (inject_Z (Z.of_nat n) == 0)%Q).
    { unfold Qeq. cbn. lia. }
    field. exact Hnz.
Qed.

(** ** The tabular rendering *)

Lemma result_for_cases (results : list (string * pyval)) (msisdn : string) :
  result_for results msisdn = VDict [] \/
  exists k, In (k, result_for results msisdn) results.
Proof.
  induction results as [|[k r] rest IH]; [left; reflexivity|].
  cbn [result_for]. destruct (String.eqb k msisdn).
  - right. exists k. left. reflexivity.
  - destruct IH as [IH|[k' IH]]; [left; exact IH|].
    right. exists k'. right. exact IH.
Qed.

Lemma csv_rows_total (detailed_results : list (string * detail)) :
  (forall m d, In (m, d) detailed_results ->
     is_dict (validation_result d) = true /\
     summary_readable (validation_result d)) ->
  exists rows,
    csv_rows detailed_results = Ok rows /\
    map row_msisdn rows = map fst detailed_results.
Proof.
  induction detailed_results as [|[m d] rest IH]; intros H.
  - exists []. split; reflexivity.
  - destruct IH as (rows & Hrows & Hkeys).
    { intros m' d' Hin. apply (H m' d'). right. exact Hin. }
    destruct (H m d (or_introl eq_refl)) as [Hd Hr].
    cbn [csv_rows]. destruct (validation_result d) as [ | | | | |vd];
      try discriminate Hd.
    cbn [get mbind result_bind]. specialize (Hr vd eq_refl).
    destruct (py_eq (dict_get vd "status" "unknown") "success").
    + specialize (Hr eq_refl).
      destruct (dict_get vd "summary" (VDict [])); try discriminate Hr.
      cbn [get mbind result_bind mret result_ret]. rewrite Hrows.
      destruct (py_eq (dict_get vd "status" "unknown") "error");
        cbn [mbind result_bind mret result_ret];
        eexists; (split; [reflexivity|]); cbn [map row_msisdn fst]; congruence.
    + cbn [mbind result_bind mret result_ret]. rewrite Hrows.
      destruct (py_eq (dict_get vd "status" "unknown") "error");
        cbn [mbind result_bind mret result_ret];
        eexists; (split; [reflexivity|]); cbn [map row_msisdn fst]; congruence.
Qed.

Lemma details_readable (grouped_orders : list (string * order_item))
    (validation_results : list (string * pyval)) :
  (forall k r, In (k, r) validation_results ->
     is_dict r = true /\ summary_readable r) ->
  forall m d,
    In (m, d) (map (fun '(msisdn, order) =>
                      (msisdn, detail_of validation_results msisdn order))
                   grouped_orders) ->
    is_dict (validation_result d) = true /\
    summary_readable (validation_result d).
Proof.
  intros H m d Hin. apply List.in_map_iff in Hin as ([m' o] & [= <- <-] & _).
  cbn [detail_of validation_result].
  destruct (result_for_cases validation_results m') as [->|[k Hk]].
  - split; [reflexivity|]. intros vd [= <-]. discriminate.
  - exact (H k _ Hk).
Qed.

(** The rendering step of [_format_results]: it returns for every format
    when the results are dicts with readable summaries, and for every
    format but CSV whatever the results are. *)
Lemma rendering_total (summary : summary)
    (grouped_orders : list (string * order_item))
    (validation_results : list (string * pyval)) (output_format : string) :
  (lower output_format = "csv" ->
   forall k r, In (k, r) validation_results ->
     is_dict r = true /\ summary_readable r) ->
  exists rep,
    (if String.eqb (lower output_format) "csv"
     then _convert_to_csv summary
            (map (fun '(msisdn, order) =>
                    (msisdn, detail_of validation_results msisdn order))
                 grouped_orders)
     else mret (Structured summary
                  (map (fun '(msisdn, order) =>
                          (msisdn, detail_of validation_results msisdn order))
                       grouped_orders))) = Ok rep /\
    report_summary rep = summary.
Proof.
  intros H. destruct (String.eqb_spec (lower output_format) "csv") as [E|_].
  - destruct (csv_rows_total _ (details_readable grouped_orders _ (H E)))
      as (rows & Hrows & _).
    unfold _convert_to_csv. rewrite Hrows. eexists. split; reflexivity.
  - eexists. split; reflexivity.
Qed.

(** C9.  When there is one result per grouped identifier, at least one
    identifier, and every result is a success (with, for the CSV
    rendering, a summary that can be read), the reported success rate
    is 100; for an empty batch it is 0, computed without a division. *)
Theorem success_rate_of_batch
    (grouped_orders : list (string * order_item))
    (validation_results : list (string * pyval)) (output_format : string) :
  (length validation_results = length grouped_orders ->
   grouped_orders <> [] ->
   (forall k r, In (k, r) validation_results -> success r) ->
   (lower output_format = "csv" ->
    forall k r, In (k, r) validation_results -> summary_readable r) ->
   exists rep,
     _format_results grouped_orders validation_results output_format = Ok rep /\
     (success_rate (report_summary rep) == 100)%Q) /\
  (exists rep,
     _format_results [] [] output_format = Ok rep /\
     total_msisdns (report_summary rep) = 0%nat /\
     success_rate (report_summary rep) = 0%Q).
Proof.
  split.
  - intros Hlen Hne Hall Hcsv. unfold _format_results.
    rewrite (count_all_successful _ Hall). cbn [mbind result_bind mret result_ret].
    match goal with
    | |- exists rep, (if _ then _convert_to_csv ?s _ else _) = _ /\ _ =>
        destruct (rendering_total s grouped_orders validation_results
                    output_format) as (rep & Hrep & Hsum)
    end.
    { intros E k r Hin. split; [exact (proj1 (Hall k r Hin))|exact (Hcsv E k r Hin)]. }
    exists rep. split; [exact Hrep|]. rewrite Hsum. cbn [success_rate].
    rewrite Hlen.
    destruct grouped_orders as [|g gs]; [congruence|].
    cbn [length Nat.ltb Nat.leb]. apply full_rate. cbn. lia.
  - unfold _format_results. cbn [count_successful mbind result_bind length map].
    destruct (String.eqb (lower output_format) "csv");
      eexists; (split; [reflexivity|]); split; reflexivity.
Qed.

(** Witness of [success_rate_of_batch]: two identifiers, two verdicts,
    rendered as CSV. *)
Lemma success_rate_of_batch_witness :
  exists rep,
    _format_results two_grouped [("777", passed_verdict); ("555", passed_verdict)]
      "CSV" = Ok rep /\
    (success_rate (report_summary rep) == 100)%Q.
Proof.
  apply (proj1 (success_rate_of_batch two_grouped
                  [("777", passed_verdict); ("555", passed_verdict)] "CSV")).
  - reflexivity.
  - discriminate.
  - intros k r [H|[H|[]]]; injection H as _ <-; split; reflexivity.
  - intros _ k r [H|[H|[]]]; injection H as _ <-; intros d [= <-] _; reflexivity.
Defined.

(** A success whose [summary] is null cannot be rendered as CSV. *)
Example null_summary_breaks_csv :
  _format_results two_grouped
    [("555", VDict [(VStr "status", VStr "success"); (VStr "summary", VNone)]);
     ("777", passed_verdict)] "csv"
  = Raise AttributeError.
Proof. vm_compute. reflexivity. Qed.

(** ** Transport failures *)




(** ** The loop over the completed futures *)






Example failing_batch_report :
  (fun rep => (total_msisdns rep, successful_validations rep,
               failed_validations rep, Qred (success_rate rep)))
  <$> (report_summary <$>
       match validate_and_format failing_transport 5 two_grouped ["777"; "555"] "json"
       with Ok rep => Some rep | Raise _ => None end)
  = Some (2%nat, 2%nat, 0%Z, 100%Q).
Proof. vm_compute. reflexivity. Qed.


End BulkProperties.

(* ===================================================================== *)
(** * Further properties of the Rule Evaluation Engine                    *)
(* ===================================================================== *)

Section EngineRules.
Import Py ValidationEngine.
#[local] Arguments String.append : simpl nomatch.

(** ** Dotted paths *)

Lemma split_on_nonempty (sep : ascii) (s : string) : split_on sep s <> [].
Proof.
  destruct s as [|c s]; cbn; [discriminate|].
  destruct (Ascii.eqb c sep); [discriminate|].
  destruct (split_on sep s); discriminate.
Qed.

Lemma split_on_join (sep : ascii) (p q : string) :
  split_on sep (p ++ String sep q)%string = split_on sep p ++ split_on sep q.
Proof.
  induction p as [|c p IH]; cbn.
  - rewrite Ascii.eqb_refl. reflexivity.
  - rewrite IH. destruct (Ascii.eqb c sep); [reflexivity|].
    pose proof (split_on_nonempty sep p) as Hne.
    destruct (split_on sep p) as [|w ws]; [congruence|reflexivity].
Qed.

Lemma walk_none (keys : list string) : walk VNone keys = VNone.
Proof. destruct keys; reflexivity. Qed.

Lemma walk_app (data : pyval) (ks1 ks2 : list string) :
  walk data (ks1 ++ ks2) = walk (walk data ks1) ks2.
Proof.
  revert data. induction ks1 as [|k ks1 IH]; intros data; cbn; [reflexivity|].
  destruct data; try (rewrite walk_none; reflexivity). apply IH.
Qed.

(** X1.  Looking up the dotted path [p.q] is looking up [q] in what the
    path [p] gives; a bundle that is not a dict, and a path that is not a
    string, give [None]. *)
Theorem nested_value_composes (data : pyval) (p q : string) :
  _get_nested_value data (VStr (p ++ String "." q)%string) =
    _get_nested_value (_get_nested_value data (VStr p)) (VStr q) /\
  (is_dict data = false -> _get_nested_value data (VStr p) = VNone) /\
  (forall path, (forall s, path <> VStr s) -> _get_nested_value data path = VNone).
Proof.
  split; [|split].
  - cbn [_get_nested_value]. rewrite split_on_join. apply walk_app.
  - intros Hd. cbn [_get_nested_value].
    pose proof (split_on_nonempty "." p) as Hne.
    destruct (split_on "." p) as [|k ks]; [congruence|].
    destruct data; try reflexivity. discriminate Hd.
  - intros path Hp. destruct path; try reflexivity. exfalso. exact (Hp s eq_refl).
Qed.

Lemma nested_value_composes_witness :
  _get_nested_value (VNum 7) (VStr "line.status") = VNone /\
  _get_nested_value full_bundle (VList []) = VNone.
Proof.
  split.
  - apply (proj1 (proj2 (nested_value_composes (VNum 7) "line.status" ""))).
    reflexivity.
  - apply (proj2 (proj2 (nested_value_composes full_bundle "" ""))).
    intros s H. discriminate H.
Defined.

(** ** The charge strategies *)

Lemma charge_checks_relaxed (charges strict any : pyval) :
  truthy strict = false ->
  charge_checks charges strict = true -> charge_checks charges any = true.
Proof.
  intros Hs. unfold charge_checks. rewrite Hs. cbn [negb].
  destruct (is_none charges); [discriminate|].
  destruct charges; try discriminate.
  destruct (is_none (dict_get d "one_time" VNone) &&
            is_none (dict_get d "recurring" VNone)); [discriminate|].
  destruct ((is_none (dict_get d "one_time" VNone) ||
             py_eq (dict_get d "one_time" VNone) (VNum 0)) &&
            (is_none (dict_get d "recurring" VNone) ||
             py_eq (dict_get d "recurring" VNone) (VNum 0))); [discriminate|].
  intros _. destruct (negb (truthy any)); reflexivity.
Qed.

Lemma children_loop_relaxed (cs : list pyval) (strict any : pyval) :
  truthy strict = false ->
  children_loop cs strict = Ok true -> children_loop cs any = Ok true.
Proof.
  intros Hs. induction cs as [|c cs IH]; [reflexivity|].
  cbn [children_loop]. destruct (get c "charges" VNone) as [charges|]; [|discriminate].
  cbn [mbind result_bind].
  destruct (charge_checks charges strict) eqn:E; [|discriminate].
  rewrite (charge_checks_relaxed charges strict any Hs E). exact IH.
Qed.

(** X2.  Allowing zero only relaxes the four charge strategies: a bundle
    that passes one of them under a falsy [allow_zero] passes it under any
    other [allow_zero]. *)
Theorem allowing_zero_only_relaxes (assets strict any : pyval) :
  truthy strict = false ->
  (_validate_device_charges assets strict = Ok true ->
   _validate_device_charges assets any = Ok true) /\
  (_validate_line_children_charges assets strict = Ok true ->
   _validate_line_children_charges assets any = Ok true) /\
  (_validate_device_children_charges assets strict = Ok true ->
   _validate_device_children_charges assets any = Ok true) /\
  (_validate_sim_card_charges assets strict = Ok true ->
   _validate_sim_card_charges assets any = Ok true).
Proof.
  intros Hs. repeat split.
  - unfold _validate_device_charges.
    destruct (get assets "device" VNone) as [device|]; [|discriminate].
    cbn [mbind result_bind]. destruct (negb (truthy device)); [discriminate|].
    destruct (get device "charges" VNone) as [charges|]; [|discriminate].
    cbn. intros [= H]. f_equal. exact (charge_checks_relaxed _ _ _ Hs H).
  - unfold _validate_line_children_charges.
    destruct (get assets "line_children" (VList [])) as [cs|]; [|discriminate].
    cbn [mbind result_bind]. destruct (negb (truthy cs)); [reflexivity|].
    destruct (iter cs) as [l|]; [|discriminate].
    cbn [mbind result_bind]. apply children_loop_relaxed, Hs.
  - unfold _validate_device_children_charges.
    destruct (get assets "device_children" (VList [])) as [cs|]; [|discriminate].
    cbn [mbind result_bind]. destruct (negb (truthy cs)); [reflexivity|].
    destruct (iter cs) as [l|]; [|discriminate].
    cbn [mbind result_bind]. apply children_loop_relaxed, Hs.
  - unfold _validate_sim_card_charges.
    destruct (get assets "line_children" (VList [])) as [cs|]; [|discriminate].
    cbn [mbind result_bind]. destruct (iter cs) as [l|]; [|discriminate].
    cbn [mbind result_bind]. destruct (sim_cards_of l) as [[|sim sims]|]; try discriminate.
    cbn [mbind result_bind].
    destruct (get sim "charges" VNone) as [charges|]; [|discriminate].
    cbn. intros [= H]. f_equal. exact (charge_checks_relaxed _ _ _ Hs H).
Qed.

Lemma allowing_zero_only_relaxes_witness :
  _validate_device_charges full_bundle (VBool true) = Ok true /\
  _validate_line_children_charges full_bundle (VBool true) = Ok true /\
  _validate_device_children_charges full_bundle (VBool true) = Ok true /\
  _validate_sim_card_charges full_bundle (VBool true) = Ok true.
Proof.
  destruct (allowing_zero_only_relaxes full_bundle (VBool false) (VBool true) eq_refl)
    as (H1 & H2 & H3 & H4).
  split; [apply H1; reflexivity|]. split; [apply H2; reflexivity|].
  split; [apply H3; reflexivity|apply H4; reflexivity].
Defined.

(** X3.  The device-charges strategy as the code has it: it passes exactly
    when the bundle is a dict whose device is a non-empty dict, the
    [charges] of the device are a dict, one of the two amounts is not
    [None], and, under a falsy [allow_zero], one of them is neither [None]
    nor equal to zero (a negative amount counts). *)
Theorem device_charges_pass_exactly (assets allow_zero : pyval) :
  _validate_device_charges assets allow_zero = Ok true <->
  exists bundle device c,
    assets = VDict bundle /\
    dict_get bundle "device" VNone = VDict device /\ device <> [] /\
    dict_get device "charges" VNone = VDict c /\
    (is_none (dict_get c "one_time" VNone) = false \/
     is_none (dict_get c "recurring" VNone) = false) /\
    (truthy allow_zero = false ->
     counts_as_charge (dict_get c "one_time" VNone) \/
     counts_as_charge (dict_get c "recurring" VNone)).
Proof.
  unfold _validate_device_charges, counts_as_charge. split.
  - destruct assets as [ | | | | |bundle]; try discriminate.
    cbn [get mbind result_bind].
    destruct (dict_get bundle "device" VNone) as [ | | | | |device] eqn:Ed;
      cbn [truthy negb get mbind result_bind mret result_ret];
      try discriminate;
      try (destruct (negb _); discriminate).
    destruct device as [|kv device]; [discriminate|].
    cbn [negb]. intros [= H].
    apply charge_checks_true in H as (c & Hc & Hsome & Hpos).
    exists bundle, (kv :: device), c. repeat split; auto; discriminate.
  - intros (bundle & device & c & -> & Hd & Hne & Hc & Hsome & Hpos).
    cbn [get mbind result_bind]. rewrite Hd.
    destruct device as [|kv device]; [congruence|].
    cbn [truthy negb get mbind result_bind mret result_ret]. f_equal.
    apply charge_checks_true. exists c. auto.
Qed.

Lemma children_loop_true (cs : list pyval) (allow_zero : pyval) :
  children_loop cs allow_zero = Ok true <-> Forall (child_charged allow_zero) cs.
Proof.
  induction cs as [|c cs IH]; cbn [children_loop].
  - split; [constructor|reflexivity].
  - split.
    + destruct c; try discriminate. cbn [get mbind result_bind].
      destruct (charge_checks (dict_get d "charges" VNone) allow_zero) eqn:E;
        [|discriminate].
      intros H. constructor; [|apply IH, H]. exists d. auto.
    + intros H. inversion H as [|? ? (d & -> & Hd) Hrest]; subst.
      cbn [get mbind result_bind]. rewrite Hd. apply IH, Hrest.
Qed.

(** X4.  The two children strategies pass exactly when every child of the
    list is a dict that passes the charge block; no child at all is one
    such case. *)
Theorem children_charges_pass_exactly
    (bundle : list (pyval * pyval)) (cs : list pyval) (allow_zero : pyval) :
  (lookup_item bundle "line_children" = Some (VList cs) ->
   (_validate_line_children_charges (VDict bundle) allow_zero = Ok true <->
    Forall (child_charged allow_zero) cs)) /\
  (lookup_item bundle "device_children" = Some (VList cs) ->
   (_validate_device_children_charges (VDict bundle) allow_zero = Ok true <->
    Forall (child_charged allow_zero) cs)).
Proof.
  split; intros H.
  - unfold _validate_line_children_charges, get, dict_get. rewrite H.
    cbn [mbind result_bind]. destruct cs as [|c cs].
    + split; [constructor|reflexivity].
    + cbn [truthy negb iter mbind result_bind]. apply children_loop_true.
  - unfold _validate_device_children_charges, get, dict_get. rewrite H.
    cbn [mbind result_bind]. destruct cs as [|c cs].
    + split; [constructor|reflexivity].
    + cbn [truthy negb iter mbind result_bind]. apply children_loop_true.
Qed.

Lemma children_charges_pass_exactly_witness :
  _validate_line_children_charges full_bundle (VBool false) = Ok true /\
  _validate_device_children_charges full_bundle (VBool false) = Ok true.
Proof.
  split.
  - eapply (proj1 (children_charges_pass_exactly _ _ (VBool false)));
      [reflexivity|].
    repeat constructor; eexists; split; reflexivity.
  - eapply (proj2 (children_charges_pass_exactly _ _ (VBool false)));
      [reflexivity|].
    repeat constructor; eexists; split; reflexivity.
Defined.

Lemma sim_found (cs : list pyval) (sim : pyval) (sims : list pyval) :
  sim_cards_of cs = Ok (sim :: sims) ->
  any (fun c => code ← get c "product_code" VNone;
                mret (py_eq code "PR_B2C_SIM_Card")) cs = Ok true.
Proof.
  revert sim sims. induction cs as [|c cs IH]; intros sim sims; [discriminate|].
  cbn [sim_cards_of any].
  destruct (get c "product_code" VNone) as [code|]; [|discriminate].
  cbn [mbind result_bind mret result_ret].
  destruct (sim_cards_of cs) as [rest|]; [|discriminate].
  cbn [mbind result_bind mret result_ret].
  destruct (py_eq code "PR_B2C_SIM_Card"); [reflexivity|].
  intros [= ->]. exact (IH _ _ eq_refl).
Qed.

(** X5.  The SIM-card charge strategy needs a SIM: whenever it passes, the
    SIM presence check passes on the same bundle, and when the line
    children hold no SIM-coded entry it fails. *)
Theorem sim_charges_need_a_sim (assets allow_zero : pyval) :
  (_validate_sim_card_charges assets allow_zero = Ok true ->
   _execute_check sim_presence_check assets = Ok true) /\
  (forall line_children cs,
     get assets "line_children" (VList []) = Ok line_children ->
     iter line_children = Ok cs -> sim_cards_of cs = Ok [] ->
     _validate_sim_card_charges assets allow_zero = Ok false).
Proof.
  split.
  - unfold _validate_sim_card_charges, sim_presence_check.
    rewrite execute_check_unfold.
    cbn [dict_get lookup_item py_eq String.eqb Ascii.eqb Bool.eqb dispatch].
    unfold _check_presence.
    cbn [get dict_get lookup_item py_eq String.eqb Ascii.eqb Bool.eqb
         mbind result_bind].
    destruct (get assets "line_children" (VList [])) as [lc|]; [|discriminate].
    cbn [mbind result_bind]. destruct (iter lc) as [cs|]; [|discriminate].
    cbn [mbind result_bind].
    destruct (sim_cards_of cs) as [[|sim sims]|] eqn:E; try discriminate.
    intros _. rewrite (sim_found cs sim sims E). reflexivity.
  - intros lc cs Hlc Hcs Hnone. unfold _validate_sim_card_charges.
    rewrite Hlc. cbn [mbind result_bind]. rewrite Hcs.
    cbn [mbind result_bind]. rewrite Hnone. reflexivity.
Qed.

Lemma sim_charges_need_a_sim_witness :
  _execute_check sim_presence_check full_bundle = Ok true /\
  _validate_sim_card_charges bundle_with_credit (VBool true) = Ok false.
Proof.
  split.
  - apply (proj1 (sim_charges_need_a_sim full_bundle (VBool false))). reflexivity.
  - apply (proj2 (sim_charges_need_a_sim bundle_with_credit (VBool true))
             (VList []) []); reflexivity.
Defined.

(** ** Check result sets *)

Lemma count_true_le (results : list (pyval * pyval)) :
  (count_true results <= length results)%nat.
Proof.
  unfold count_true. induction results as [|kv results IH]; [cbn; lia|].
  rewrite filter_cons. destruct (decide (truthy (snd kv) = true)); cbn [length]; lia.
Qed.

Lemma count_true_all (results : list (pyval * pyval)) :
  count_true results = length results <->
  Forall (fun kv => truthy (snd kv) = true) results.
Proof.
  unfold count_true. induction results as [|kv results IH].
  - split; [constructor|reflexivity].
  - rewrite filter_cons. destruct (decide (truthy (snd kv) = true)) as [Ht|Hf];
      cbn [length]; split.
    + intros [= H]. constructor; [exact Ht|apply IH, H].
    + intros H. inversion H; subst. f_equal. apply IH. assumption.
    + intros H. pose proof (count_true_le results) as Hle.
      unfold count_true in Hle. lia.
    + intros H. inversion H; subst. contradiction.
Qed.

Lemma dict_set_length {V : Type} (d : list (pyval * V)) (k : pyval) (v : V) :
  (length (dict_set d k v) <= S (length d))%nat.
Proof.
  induction d as [|[k1 w] d IH]; cbn; [lia|].
  destruct (py_eq k1 k); cbn; lia.
Qed.

Lemma run_loop_length (cs : list pyval) (assets : pyval) :
  forall results results',
    run_loop cs assets results = Ok results' ->
    (length results' <= length results + length cs)%nat.
Proof.
  induction cs as [|c cs IH]; intros results results'; cbn [run_loop].
  - intros [= <-]. cbn. lia.
  - destruct (get c "id" VNone) as [check_id|]; [|discriminate].
    cbn [mbind result_bind].
    destruct (_execute_check c assets) as [r|]; [|discriminate].
    cbn [mbind result_bind]. unfold set_key.
    destruct (hashable check_id); [|discriminate].
    cbn [mbind result_bind]. intros H. apply IH in H.
    pose proof (dict_set_length results check_id (VBool r)). cbn. lia.
Qed.

Lemma summarize_consistent (results : list (pyval * pyval)) (declared : nat) :
  (length results <= declared)%nat -> consistent (summarize results) declared.
Proof.
  intros Hd. unfold summarize, consistent.
  pose proof (count_true_le results) as Hle.
  pose proof (count_true_all results) as Hall.
  split; [lia|]. split; [reflexivity|]. split; [exact Hd|].
  destruct (Nat.eqb_spec (length results - count_true results) 0) as [E|E].
  - split; [tauto|]. split; [split; [discriminate|tauto]|].
    rewrite <- Hall. split; lia.
  - split; [split; [discriminate|tauto]|]. split; [tauto|].
    rewrite <- Hall. split; lia.
Qed.

(** X6.  The figures of a check result set agree with one another: passed
    and failed add up to the total, the total is the number of recorded
    checks (at most the number of declared ones, since two checks with one
    id share an entry), the status is PASSED exactly when nothing failed
    and FAILED otherwise, and nothing failed exactly when every recorded
    outcome is true.  A set without checks is PASSED with a total of 0. *)
Theorem check_set_statistics (validations_config assets : pyval) :
  (forall basic_config cs set,
     get validations_config "basic" (VDict []) = Ok basic_config ->
     declared_checks basic_config = Ok cs ->
     _run_basic_checks validations_config assets = Ok set ->
     consistent set (length cs) /\
     (cs = [] -> set = Ran "PASSED" [] 0 0 0)) /\
  (forall reason reason_based reason_config cs set,
     get validations_config "reason_based" (VDict []) = Ok reason_based ->
     get_key reason_based reason = Ok reason_config ->
     truthy reason_config = true ->
     declared_checks reason_config = Ok cs ->
     _run_reason_checks validations_config reason assets = Ok set ->
     consistent set (length cs) /\
     (cs = [] -> set = Ran "PASSED" [] 0 0 0)).
Proof.
  split.
  - intros bc cs set Hbc Hcs. unfold _run_basic_checks.
    rewrite Hbc. cbn [mbind result_bind]. unfold declared_checks in Hcs.
    destruct (get bc "checks" (VList [])) as [checks|]; [|discriminate].
    cbn [mbind result_bind] in *. rewrite Hcs. cbn [mbind result_bind].
    destruct (run_loop cs assets []) as [results|] eqn:Hrun; [|discriminate].
    cbn [mbind result_bind mret result_ret]. intros [= <-]. split.
    + apply summarize_consistent. apply run_loop_length in Hrun. cbn in Hrun. lia.
    + intros ->. cbn in Hrun. injection Hrun as <-. reflexivity.
  - intros reason rb rc cs set Hrb Hrc Ht Hcs. unfold _run_reason_checks.
    rewrite Hrb. cbn [mbind result_bind]. rewrite Hrc.
    cbn [mbind result_bind]. rewrite Ht. cbn [negb].
    unfold declared_checks in Hcs.
    destruct (get rc "checks" (VList [])) as [checks|]; [|discriminate].
    cbn [mbind result_bind] in *. rewrite Hcs. cbn [mbind result_bind].
    destruct (run_loop cs assets []) as [results|] eqn:Hrun; [|discriminate].
    cbn [mbind result_bind mret result_ret]. intros [= <-]. split.
    + apply summarize_consistent. apply run_loop_length in Hrun. cbn in Hrun. lia.
    + intros ->. cbn in Hrun. injection Hrun as <-. reflexivity.
Qed.

Lemma check_set_statistics_witness :
  consistent (Ran "FAILED"
                [(VStr "sim_present", VBool false); (VStr "odd", VBool false);
                 (VStr "device_exists", VBool true)] 1 2 3) 3.
Proof.
  apply (proj1 (check_set_statistics sample_config broken_bundle)
           (VDict [(VStr "checks",
                    VList [VDict sim_check; VDict odd_check; VDict device_check])])
           [VDict sim_check; VDict odd_check; VDict device_check]);
    reflexivity.
Defined.

(** ** Reason sets *)





End EngineRules.

(* ===================================================================== *)
(** * Further properties of the Response Assembler                        *)
(* ===================================================================== *)

Section ResponseRendering.
Import Py ResponseBuilder.

(** X8.  The verdict is always one of FAILED, PASSED and
    PASSED_WITH_WARNINGS, and PASSED is never reported together with a
    warning. *)
Theorem verdict_is_one_of_three (validation_data : pyval) (verdict : string) :
  validation_status validation_data = Ok verdict ->
  is_verdict verdict /\
  (verdict = "PASSED" ->
   exists warnings,
     get validation_data "warnings" (VList []) = Ok warnings /\
     truthy warnings = false).
Proof.
  unfold validation_status, is_verdict.
  destruct (get validation_data "validations" (VDict [])) as [validations|];
    [|discriminate].
  cbn [mbind result_bind].
  destruct (get validation_data "warnings" (VList [])) as [warnings|] eqn:Ew;
    [|discriminate].
  cbn [mbind result_bind].
  destruct (get validations "basic" (VDict [])) as [basic_checks|]; [|discriminate].
  cbn [mbind result_bind].
  destruct (get validations "reason_based" (VDict [])) as [reason_checks|];
    [|discriminate].
  cbn [mbind result_bind].
  destruct (get basic_checks "status" "SKIPPED") as [basic_status|]; [|discriminate].
  cbn [mbind result_bind].
  destruct (items_of reason_checks) as [items|]; [|discriminate].
  cbn [mbind result_bind mret result_ret].
  destruct (py_eq basic_status "FAILED");
  destruct (py_eq (first_reason_status items) "FAILED");
  destruct (py_eq basic_status "PASSED");
  destruct (py_eq (first_reason_status items) "PASSED");
  destruct (py_eq (first_reason_status items) "SKIPPED");
  destruct (truthy warnings) eqn:Et;
  cbn [andb orb String.eqb Ascii.eqb Bool.eqb];
  intros [= <-]; (split; [tauto|]); intros H; try discriminate H;
  exists warnings; auto.
Qed.

Lemma verdict_is_one_of_three_witness :
  is_verdict "PASSED" /\
  exists warnings,
    get (validation_data_of (set_with "PASSED")
           [(VStr "Change Plan", set_with "SKIPPED")] (VList []))
        "warnings" (VList []) = Ok warnings /\
    truthy warnings = false.
Proof.
  destruct (verdict_is_one_of_three
              (validation_data_of (set_with "PASSED")
                 [(VStr "Change Plan", set_with "SKIPPED")] (VList []))
              "PASSED" eq_refl) as [Hv Hw].
  split; [exact Hv|]. apply Hw. reflexivity.
Defined.

(** ** Order history *)

Lemma distinct_snoc (l : list pyval) (r : pyval) :
  distinct l -> member r l = false -> distinct (l ++ [r]).
Proof.
  induction l as [|x l IH]; cbn [distinct member existsb app].
  - intros _ _. split; [intros ? []|exact I].
  - intros [Hx Hl] Hm. apply orb_false_iff in Hm as [Hxr Hm]. split.
    + intros y Hy. apply List.in_app_or in Hy as [Hy|[<-|[]]]; auto.
    + apply IH; assumption.
Qed.

Lemma in_firstn {A : Type} (n : nat) (l : list A) (x : A) :
  In x (firstn n l) -> In x l.
Proof.
  revert n. induction l as [|y l IH]; intros [|n]; cbn; try tauto.
  intros [H|H]; eauto.
Qed.

Lemma distinct_firstn (n : nat) (l : list pyval) : distinct l -> distinct (firstn n l).
Proof.
  revert n. induction l as [|x l IH]; intros [|n]; cbn [firstn distinct]; auto.
  intros [Hx Hl]. split; [|auto].
  intros y Hy. apply Hx. eapply in_firstn; eauto.
Qed.

Lemma order_info_loop_invariant (items : list pyval) :
  forall first acc st out st',
    order_info_loop items first acc st = Ok (out, st') ->
    distinct acc -> Forall (fun r => truthy r = true) acc ->
    distinct out /\ Forall (fun r => truthy r = true) out.
Proof.
  induction items as [|item items IH]; intros first acc st out st';
    cbn [order_info_loop].
  - intros [= <- <-]. auto.
  - destruct (get item "Order" (VDict [])) as [order|]; [|discriminate].
    cbn [mbind result_bind].
    destruct (get order "vlocity_cmt__Reason__c" VNone) as [reason|];
      [|discriminate].
    cbn [mbind result_bind]. intros H Hd Ht.
    assert (Hacc : distinct
                     (if truthy reason && negb (member reason acc)
                      then acc ++ [reason] else acc) /\
                   Forall (fun r => truthy r = true)
                     (if truthy reason && negb (member reason acc)
                      then acc ++ [reason] else acc)).
    { destruct (truthy reason) eqn:Er; cbn [andb]; [|auto].
      destruct (member reason acc) eqn:Em; cbn [negb]; [auto|]. split.
      - apply distinct_snoc; assumption.
      - apply List.Forall_app. split; [exact Ht|]. constructor; [exact Er|constructor]. }
    destruct Hacc as [Hd' Ht'].
    destruct first.
    + destruct (get order "vlocity_cmt__OrderStatus__c" VNone) as [status|];
        [|discriminate].
      cbn [mbind result_bind] in H. exact (IH _ _ _ _ _ H Hd' Ht').
    + exact (IH _ _ _ _ _ H Hd' Ht').
Qed.

(** X9.  The order reasons shown in a response are at most three, differ
    from one another and are never null or empty; an empty history gives
    no reason and no status. *)
Theorem order_reasons_are_few_and_distinct
    (order_history : pyval) (reasons : list pyval) (status : pyval) :
  _extract_order_info order_history = Ok (reasons, status) ->
  (length reasons <= 3)%nat /\ distinct reasons /\
  Forall (fun r => truthy r = true) reasons /\
  (order_history = VList [] -> reasons = [] /\ status = VNone).
Proof.
  unfold _extract_order_info.
  destruct (iter order_history) as [items|] eqn:Ei; [|discriminate].
  cbn [mbind result_bind].
  destruct (order_info_loop items true [] VNone) as [[rs st]|] eqn:El;
    [|discriminate].
  cbn [mbind result_bind mret result_ret]. intros [= <- <-].
  destruct (order_info_loop_invariant items true [] VNone rs st El I)
    as [Hd Ht]; [constructor|].
  split; [apply List.firstn_le_length|].
  split; [apply distinct_firstn, Hd|].
  split.
  - apply List.Forall_forall. intros r Hr.
    apply in_firstn in Hr. revert r Hr. apply List.Forall_forall, Ht.
  - intros ->. cbn in Ei. injection Ei as <-. cbn in El. injection El as <- <-.
    auto.
Qed.

Lemma order_reasons_are_few_and_distinct_witness :
  exists reasons status,
    _extract_order_info
      (VList [history_item (VStr "Change Plan") (VStr "Activated");
              history_item VNone (VStr "Activated");
              history_item (VStr "SIM Swap") (VStr "Activated");
              history_item (VStr "Change Plan") (VStr "Cancelled");
              history_item (VStr "Port In") (VStr "Activated");
              history_item (VStr "Upgrade") (VStr "Activated")])
    = Ok (reasons, status) /\
    (length reasons <= 3)%nat /\ distinct reasons.
Proof.
  eexists _, _. split; [reflexivity|].
  destruct (order_reasons_are_few_and_distinct
              (VList [history_item (VStr "Change Plan") (VStr "Activated");
                      history_item VNone (VStr "Activated");
                      history_item (VStr "SIM Swap") (VStr "Activated");
                      history_item (VStr "Change Plan") (VStr "Cancelled");
                      history_item (VStr "Port In") (VStr "Activated");
                      history_item (VStr "Upgrade") (VStr "Activated")])
              _ _ eq_refl) as (Hlen & Hd & _).
  split; [exact Hlen|exact Hd].
Defined.

(** ** Cleaned assets *)

Lemma member_device_class (product_class : pyval) :
  member product_class
    [VStr "PR_B2C_Mobile_Device_Class"; VStr "PR_B2C_Mobile_BYOD_Device_Class"]
  = true <-> device_class product_class.
Proof.
  unfold member, device_class. cbn [existsb]. rewrite orb_false_r, orb_true_iff.
  split.
  - intros [H|H]; destruct product_class; cbn [py_eq] in H; try discriminate H;
      apply String.eqb_eq in H; subst; auto.
  - intros [->| ->]; [left|right]; reflexivity.
Qed.

(** X10.  A cleaned asset shows the two charges of the raw record as they
    are (a null charge stays null), and carries the three device fields
    exactly when the product class of the record is one of the two device
    classes; an empty or null asset is cleaned to [None]. *)
Theorem cleaned_asset_shape (asset cleaned : pyval) :
  _clean_asset asset = Ok cleaned ->
  (truthy asset = false /\ cleaned = VNone) \/
  (exists a c,
     asset = VDict a /\ cleaned = VDict c /\
     dict_get c "charges" VNone =
       VDict [(VStr "one_time", dict_get a "vlocity_cmt__OneTimeCharge__c" VNone);
              (VStr "recurring",
               dict_get a "vlocity_cmt__RecurringCharge__c" VNone)] /\
     (device_class (product_class_of a) <->
      is_Some (lookup_item c "reporting_string") /\
      is_Some (lookup_item c "contract_term") /\
      is_Some (lookup_item c "installment_id"))).
Proof.
  unfold _clean_asset. destruct (truthy asset) eqn:Et; cbn [negb].
  2: { intros [= <-]. left. auto. }
  destruct asset as [ | | | | |a]; try discriminate.
  cbn [get mbind result_bind].
  destruct (dict_get a "Product2" (VDict [])) as [ | | | | |product] eqn:Ep;
    try discriminate.
  cbn [get mbind result_bind mret result_ret].
  destruct (member (dict_get product "vlocity_cmt__ParentClassCode__c" VNone) _)
    eqn:Em;
    intros [= <-]; right; eexists _, _; (split; [reflexivity|]);
    (split; [reflexivity|]); (split; [reflexivity|]);
    unfold product_class_of; rewrite Ep.
  - split; [intros _|intros _; apply member_device_class; exact Em].
    repeat split; eexists; reflexivity.
  - split; [intros H; apply member_device_class in H; congruence|].
    intros [[x Hx] _]. discriminate Hx.
Qed.

Lemma cleaned_asset_shape_witness :
  exists c,
    _clean_asset (VDict raw_device) = Ok (VDict c) /\
    dict_get c "charges" VNone =
      VDict [(VStr "one_time", VNum 599); (VStr "recurring", VNone)] /\
    is_Some (lookup_item c "reporting_string").
Proof.
  destruct (cleaned_asset_shape (VDict raw_device) _ eq_refl)
    as [[H _]|(a & c & Ha & Hc & Hcharges & Hdev)]; [discriminate H|].
  injection Ha as <-. eexists. split; [reflexivity|].
  injection Hc as <-. split; [exact Hcharges|].
  apply Hdev. left. reflexivity.
Defined.

End ResponseRendering.

(* ===================================================================== *)
(** * Further properties of the Order Classifier                          *)
(* ===================================================================== *)

Section ClassifierProperties.
Import Py OrderFilter.

(** ** The ignore lists *)

Lemma listed_In (x : string) (l : list string) : listed x l = true <-> In x l.
Proof.
  unfold listed. rewrite List.existsb_exists. split.
  - intros (y & Hy & E). apply String.eqb_eq in E. congruence.
  - intros H. exists x. split; [exact H|apply String.eqb_refl].
Qed.

Lemma drop_listed_filter (field : order_item -> option string)
    (orders : list order_item) (ignore_list : list string) :
  drop_listed field orders ignore_list = List.filter (kept field ignore_list) orders.
Proof.
  induction orders as [|o orders IH]; [reflexivity|].
  cbn [drop_listed List.filter]. unfold kept at 1.
  destruct (field o) as [x|]; [destruct (listed x ignore_list)|]; cbn [negb];
    congruence.
Qed.

Lemma filter_all {A : Type} (l : list A) : List.filter (fun _ => true) l = l.
Proof. induction l; cbn; congruence. Qed.

Lemma kept_spec (field : order_item -> option string) (ignore_list : list string)
    (order : order_item) :
  kept field ignore_list order = true <->
  ~ exists x, field order = Some x /\ In x ignore_list.
Proof.
  unfold kept. destruct (field order) as [x|].
  - rewrite negb_true_iff, <- not_true_iff_false, listed_In. split.
    + intros H (y & [= <-] & Hy). auto.
    + intros H Hx. apply H. eauto.
  - split; [|reflexivity]. intros _ (y & Hy & _). discriminate Hy.
Qed.

(** X11.  Reason exclusion keeps, in their order, exactly the orders whose
    reason is null or not on the ignore list (compared as it is written);
    type exclusion does the same with the order type.  An empty ignore
    list keeps every order. *)
Theorem ignore_lists_drop_exactly (orders : list order_item)
    (ignore_list : list string) :
  (forall o, In o (_filter_ignored_reasons orders ignore_list) <->
             In o orders /\ ~ reason_ignored ignore_list o) /\
  (forall o, In o (_filter_ignored_types orders ignore_list) <->
             In o orders /\ ~ type_ignored ignore_list o) /\
  (exists keep, _filter_ignored_reasons orders ignore_list = List.filter keep orders) /\
  (exists keep, _filter_ignored_types orders ignore_list = List.filter keep orders) /\
  _filter_ignored_reasons orders [] = orders /\
  _filter_ignored_types orders [] = orders.
Proof.
  assert (Hr : _filter_ignored_reasons orders ignore_list =
               List.filter (kept order_reason ignore_list) orders).
  { unfold _filter_ignored_reasons. destruct ignore_list as [|x l].
    - rewrite (List.filter_ext (kept order_reason []) (fun _ => true)).
      + symmetry. apply filter_all.
      + intros o. unfold kept. destruct (order_reason o); reflexivity.
    - apply drop_listed_filter. }
  assert (Ht : _filter_ignored_types orders ignore_list =
               List.filter (kept order_type ignore_list) orders).
  { unfold _filter_ignored_types. destruct ignore_list as [|x l].
    - rewrite (List.filter_ext (kept order_type []) (fun _ => true)).
      + symmetry. apply filter_all.
      + intros o. unfold kept. destruct (order_type o); reflexivity.
    - apply drop_listed_filter. }
  split; [|split; [|split; [|split; [|split]]]]; eauto.
  - intros o. rewrite Hr, List.filter_In, kept_spec. reflexivity.
  - intros o. rewrite Ht, List.filter_In, kept_spec. reflexivity.
Qed.

(** ** The exclusion steps together *)

Lemma filter_orders_filter (orders : list order_item) :
  filter_orders orders =
  List.filter (fun o => negb (contains "disconnect" (reason_text o))) orders.
Proof.
  induction orders as [|o orders IH]; [reflexivity|].
  cbn [filter_orders List.filter].
  destruct (contains "disconnect" (reason_text o)); cbn [negb]; congruence.
Qed.

Lemma filter_commute {A : Type} (f g : A -> bool) (l : list A) :
  List.filter f (List.filter g l) = List.filter g (List.filter f l).
Proof.
  induction l as [|x l IH]; [reflexivity|]. cbn [List.filter].
  destruct (f x) eqn:Ef, (g x) eqn:Eg; cbn [List.filter];
    rewrite ?Ef, ?Eg, IH; reflexivity.
Qed.

Lemma filter_twice {A : Type} (f : A -> bool) (l : list A) :
  List.filter f (List.filter f l) = List.filter f l.
Proof.
  induction l as [|x l IH]; [reflexivity|]. cbn [List.filter].
  destruct (f x) eqn:Ef; cbn [List.filter]; rewrite ?Ef, IH; reflexivity.
Qed.

Lemma ignored_reasons_filter (orders : list order_item) (l : list string) :
  _filter_ignored_reasons orders l = List.filter (kept order_reason l) orders.
Proof.
  unfold _filter_ignored_reasons. destruct l as [|x l].
  - rewrite (List.filter_ext (kept order_reason []) (fun _ => true)).
    + symmetry. apply filter_all.
    + intros o. unfold kept. destruct (order_reason o); reflexivity.
  - apply drop_listed_filter.
Qed.

Lemma ignored_types_filter (orders : list order_item) (l : list string) :
  _filter_ignored_types orders l = List.filter (kept order_type l) orders.
Proof.
  unfold _filter_ignored_types. destruct l as [|x l].
  - rewrite (List.filter_ext (kept order_type []) (fun _ => true)).
    + symmetry. apply filter_all.
    + intros o. unfold kept. destruct (order_type o); reflexivity.
  - apply drop_listed_filter.
Qed.

(** X12.  The three exclusion steps can be taken in any order and taking
    one of them twice changes nothing; disconnect exclusion treats a batch
    order by order, so the result for two batches in a row is the two
    results in a row. *)
Theorem exclusion_steps_commute (orders more : list order_item)
    (reasons types : list string) :
  filter_orders (_filter_ignored_reasons orders reasons) =
    _filter_ignored_reasons (filter_orders orders) reasons /\
  filter_orders (_filter_ignored_types orders types) =
    _filter_ignored_types (filter_orders orders) types /\
  _filter_ignored_types (_filter_ignored_reasons orders reasons) types =
    _filter_ignored_reasons (_filter_ignored_types orders types) reasons /\
  filter_orders (filter_orders orders) = filter_orders orders /\
  _filter_ignored_reasons (_filter_ignored_reasons orders reasons) reasons =
    _filter_ignored_reasons orders reasons /\
  _filter_ignored_types (_filter_ignored_types orders types) types =
    _filter_ignored_types orders types /\
  filter_orders (orders ++ more) = filter_orders orders ++ filter_orders more.
Proof.
  repeat (rewrite ?ignored_reasons_filter, ?ignored_types_filter,
            ?filter_orders_filter).
  repeat split; try apply filter_commute; try apply filter_twice.
  apply List.filter_app.
Qed.

(** ** Grouping and multiplicity *)

Lemma group_step_entries (seen : list order_item)
    (grouped grouped' : gmap string order_item) (order : order_item) :
  (forall m o, grouped !! m = Some o -> In o seen /\ msisdn_of o = Some m) ->
  group_step grouped order = Ok grouped' ->
  forall m o, grouped' !! m = Some o ->
              In o (seen ++ [order]) /\ msisdn_of o = Some m.
Proof.
  intros Hinv Hstep m o.
  assert (Hold : grouped !! m = Some o ->
                 In o (seen ++ [order]) /\ msisdn_of o = Some m).
  { intros H. destruct (Hinv m o H). split; [apply List.in_or_app|]; auto. }
  assert (Hnew : forall mx, msisdn_of order = Some mx ->
                 <[mx := order]> grouped !! m = Some o ->
                 In o (seen ++ [order]) /\ msisdn_of o = Some m).
  { intros mx Hmx. destruct (decide (mx = m)) as [->|Hne].
    - rewrite lookup_insert_eq. intros [= <-].
      split; [apply List.in_or_app; right; left; reflexivity|exact Hmx].
    - rewrite lookup_insert_ne by exact Hne. exact Hold. }
  unfold group_step in Hstep.
  destruct (msisdn_of order) as [mx|] eqn:Emx;
    [|injection Hstep as <-; exact Hold].
  destruct (grouped !! mx) as [e|];
    [|injection Hstep as <-; exact (Hnew mx eq_refl)].
  cbn zeta in Hstep.
  destruct (gt (created order) (created e)) as [newer|]; [|discriminate Hstep].
  cbn [mbind result_bind mret result_ret] in Hstep.
  destruct newer; injection Hstep as <-; [exact (Hnew mx eq_refl)|exact Hold].
Qed.

Lemma group_from_entries (rest seen : list order_item)
    (grouped grouped' : gmap string order_item) :
  (forall m o, grouped !! m = Some o -> In o seen /\ msisdn_of o = Some m) ->
  group_from grouped rest = Ok grouped' ->
  forall m o, grouped' !! m = Some o ->
              In o (seen ++ rest) /\ msisdn_of o = Some m.
Proof.
  revert seen grouped. induction rest as [|x rest IH]; intros seen grouped H;
    cbn [group_from].
  - intros [= <-]. rewrite List.app_nil_r. exact H.
  - destruct (group_step grouped x) as [g|] eqn:Ex; [|discriminate].
    cbn [mbind result_bind]. intros Hrest.
    replace (seen ++ x :: rest) with ((seen ++ [x]) ++ rest)
      by (rewrite <- List.app_assoc; reflexivity).
    exact (IH (seen ++ [x]) g (group_step_entries seen grouped g x H Ex) Hrest).
Qed.

Lemma group_entries (orders : list order_item)
    (grouped : gmap string order_item) (m : string) (o : order_item) :
  group_by_msisdn orders = Ok grouped ->
  grouped !! m = Some o ->
  In o orders /\ PR_MSISDN__c o = Some m /\ m <> "".
Proof.
  intros Hg H.
  destruct (group_from_entries orders [] ∅ grouped
              ltac:(intros ? ?; rewrite lookup_empty; discriminate) Hg m o H)
    as [Hin Hm].
  apply msisdn_of_some in Hm. tauto.
Qed.

Lemma surviving_filter (orders : list order_item) (config : filter_config) :
  surviving orders config =
  List.filter (fun o => negb (contains "disconnect" (reason_text o)))
    (List.filter (kept order_type (ignore_order_types config))
       (List.filter (kept order_reason (ignore_order_reasons config)) orders)).
Proof.
  unfold surviving.
  rewrite filter_orders_filter, ignored_types_filter, ignored_reasons_filter.
  reflexivity.
Qed.

Lemma surviving_dated (orders : list order_item) (config : filter_config) :
  Forall dated orders -> Forall dated (surviving orders config).
Proof.
  rewrite surviving_filter, !List.Forall_forall. intros H o Hin.
  apply List.filter_In in Hin as [Hin _].
  apply List.filter_In in Hin as [Hin _].
  apply List.filter_In in Hin as [Hin _]. exact (H o Hin).
Qed.

Lemma orders_of_length (filtered : list order_item) (m : string) :
  length (orders_of filtered m) = carrying m filtered.
Proof.
  unfold orders_of. induction filtered as [|o l IH]; [reflexivity|].
  cbn [List.filter carrying].
  destruct (PR_MSISDN__c o) as [x|]; [destruct (String.eqb x m)|]; cbn [length];
    congruence.
Qed.

Lemma carrying_positive (m : string) (orders : list order_item) (o : order_item) :
  In o orders -> PR_MSISDN__c o = Some m -> (1 <= carrying m orders)%nat.
Proof.
  induction orders as [|x l IH]; [intros []|]. cbn [carrying].
  intros [->|Hin] Hm.
  - rewrite Hm, String.eqb_refl. lia.
  - specialize (IH Hin Hm).
    destruct (PR_MSISDN__c x) as [y|]; [destruct (String.eqb y m)|]; lia.
Qed.

(** X13.  Every record that [filter_and_group] returns under an identifier
    [m] is a surviving order of [m] with two entries added: [order_count]
    is the number of surviving orders of [m], which is at least 1, and
    [has_multiple_orders] tells whether that number exceeds 1.  It returns
    whenever no order has a null timestamp.  Flagging an already flagged
    map again changes nothing. *)
Theorem multiplicity_flags (orders : list order_item) (config : filter_config) :
  (forall grouped m o,
     filter_and_group orders config = Ok grouped ->
     grouped !! m = Some o ->
     let n := carrying m (surviving orders config) in
     PR_MSISDN__c o = Some m /\ m <> "" /\
     order_count o = Some n /\ (1 <= n)%nat /\
     has_multiple_orders o = Some (1 <? n)%nat /\
     exists o0, In o0 (surviving orders config) /\
                Id o0 = Id o /\ CreatedDate o0 = CreatedDate o /\
                Order o0 = Order o) /\
  (Forall dated orders ->
   exists grouped, filter_and_group orders config = Ok grouped) /\
  (forall filtered grouped,
     flag_all filtered (flag_all filtered grouped) = flag_all filtered grouped).
Proof.
  split; [|split].
  - intros grouped m o. unfold filter_and_group.
    fold (surviving orders config).
    destruct (group_by_msisdn (surviving orders config)) as [g|] eqn:Eg;
      [|discriminate].
    cbn [mbind result_bind mret result_ret]. intros [= <-].
    unfold flag_all. rewrite map_lookup_imap.
    destruct (g !! m) as [o0|] eqn:Em; [|discriminate].
    cbn [mbind option_bind]. intros [= <-].
    apply (group_entries _ g m o0 Eg) in Em as (Hin & Hm & Hne).
    unfold flag.
    cbn [PR_MSISDN__c order_count has_multiple_orders Id CreatedDate Order].
    rewrite orders_of_length. repeat split; auto.
    + exact (carrying_positive m _ o0 Hin Hm).
    + exists o0. auto.
  - intros Hd. unfold filter_and_group. fold (surviving orders config).
    rewrite (group_by_msisdn_dated _ (surviving_dated orders config Hd)).
    cbn [mbind result_bind mret result_ret]. eauto.
  - intros filtered grouped. apply map_eq. intros m. unfold flag_all.
    rewrite !map_lookup_imap. destruct (grouped !! m); reflexivity.
Qed.

Example mixed_orders_grouped :
  (fun grouped =>
     (fun o => (Id o, order_count o, has_multiple_orders o))
     <$> grouped !! "555")
  <$> match filter_and_group mixed_orders sample_filter with
      | Ok grouped => Some grouped
      | Raise _ => None
      end
  = Some (Some ("d", Some 2%nat, Some true)).
Proof. vm_compute. reflexivity. Qed.

Lemma multiplicity_flags_witness :
  exists grouped o,
    filter_and_group mixed_orders sample_filter = Ok grouped /\
    grouped !! "777" = Some o /\
    order_count o = Some 1%nat /\ has_multiple_orders o = Some false.
Proof.
  destruct (proj1 (proj2 (multiplicity_flags mixed_orders sample_filter)))
    as [grouped Hg].
  { repeat constructor; discriminate. }
  destruct (grouped !! "777") as [o|] eqn:E.
  - exists grouped, o. split; [exact Hg|]. split; [exact E|].
    destruct (proj1 (multiplicity_flags mixed_orders sample_filter)
                grouped "777" o Hg E) as (_ & _ & Hc & _ & Hm & _).
    split; [exact Hc|exact Hm].
  - exfalso. vm_compute in Hg. injection Hg as <-. vm_compute in E. discriminate E.
Defined.

End ClassifierProperties.

(* ===================================================================== *)
(** * Further properties of the Order Retriever                           *)
(* ===================================================================== *)

Section RetrieverFeed.
Import Py OrderFilter OrderFetcher.

(** ** First occurrence wins *)

Lemma msisdn_of_carries (o : order_item) (m : string) :
  m <> "" -> (msisdn_of o = Some m <-> carries m o = true).
Proof.
  intros Hm. rewrite msisdn_of_some. unfold carries.
  destruct (PR_MSISDN__c o) as [x|].
  - rewrite String.eqb_eq. split; [intros [[= ->] _]; reflexivity|].
    intros ->. auto.
  - split; [intros [H _]; discriminate H|discriminate].
Qed.

Lemma first_step_lookup (grouped : gmap string order_item) (order : order_item)
    (m : string) :
  m <> "" ->
  first_step grouped order !! m =
  match grouped !! m with
  | Some o => Some o
  | None => if carries m order then Some order else None
  end.
Proof.
  intros Hm. unfold first_step.
  pose proof (msisdn_of_carries order m Hm) as Hc.
  destruct (msisdn_of order) as [mx|] eqn:Emx.
  - destruct (decide (mx = m)) as [->|Hne].
    + rewrite (proj1 Hc eq_refl).
      destruct (grouped !! m) eqn:Eg; [exact Eg|apply lookup_insert_eq].
    + assert (Hf : carries m order = false).
      { destruct (carries m order); [|reflexivity].
        destruct Hc as [_ Hc]. specialize (Hc eq_refl). congruence. }
      rewrite Hf. destruct (grouped !! mx);
        rewrite ?lookup_insert_ne by exact Hne; destruct (grouped !! m); reflexivity.
  - assert (Hf : carries m order = false).
    { destruct (carries m order); [|reflexivity].
      destruct Hc as [_ Hc]. specialize (Hc eq_refl). discriminate Hc. }
    rewrite Hf. destruct (grouped !! m); reflexivity.
Qed.

Lemma first_fold_lookup (records : list order_item) (m : string) :
  m <> "" ->
  forall grouped,
    fold_left first_step records grouped !! m =
    match grouped !! m with
    | Some o => Some o
    | None => List.find (carries m) records
    end.
Proof.
  intros Hm. induction records as [|x records IH]; intros grouped; cbn.
  - destruct (grouped !! m); reflexivity.
  - rewrite IH, (first_step_lookup grouped x m Hm).
    destruct (grouped !! m); [reflexivity|]. destruct (carries m x); reflexivity.
Qed.

(** X14.  Both retrieval modes keep, for every identifier, the first record
    of the feed that carries it, and nothing under the empty
    identifier. *)
Theorem first_occurrence_wins (records : list order_item) (m : string) :
  m <> "" ->
  group_first records !! m = List.find (carries m) records /\
  group_first records !! "" = None.
Proof.
  intros Hm. split.
  - unfold group_first. rewrite (first_fold_lookup records m Hm), lookup_empty.
    reflexivity.
  - unfold group_first.
    assert (H : forall g, g !! "" = None ->
                fold_left first_step records g !! "" = None).
    { induction records as [|x records IH]; intros g Hg; cbn; [exact Hg|].
      apply IH. unfold first_step.
      destruct (msisdn_of x) as [mx|] eqn:Emx; [|exact Hg].
      apply msisdn_of_some in Emx as [_ Hne].
      destruct (g !! mx); [exact Hg|].
      rewrite lookup_insert_ne by exact Hne. exact Hg. }
    apply H, lookup_empty.
Qed.

Lemma first_occurrence_wins_witness :
  group_first unordered_feed !! "555" = List.find (carries "555") unordered_feed.
Proof.
  apply (first_occurrence_wins unordered_feed "555").
  intros H. discriminate H.
Defined.

(** ** The ordering contract of the feed *)

Lemma descending_same_step (rest : list order_item) :
  descending rest ->
  forall grouped,
    (forall m e, grouped !! m = Some e ->
       forall y, In y rest -> msisdn_of y = Some m ->
                 String.leb (created_date y) (created_date e) = true) ->
    fold_left keep_later rest grouped = fold_left first_step rest grouped.
Proof.
  induction rest as [|x rest IH]; intros Hd grouped Hinv; [reflexivity|].
  destruct Hd as [Hx Hd]. cbn [fold_left].
  assert (Hsame : keep_later grouped x = first_step grouped x).
  { unfold keep_later, first_step.
    destruct (msisdn_of x) as [mx|] eqn:Emx; [|reflexivity].
    destruct (grouped !! mx) as [e|] eqn:Ee; [|reflexivity].
    pose proof (Hinv mx e Ee x (or_introl eq_refl) Emx) as Hle.
    unfold String.leb in Hle. unfold str_gt.
    destruct (String.compare (created_date x) (created_date e)); [reflexivity..|discriminate]. }
  rewrite Hsame. apply IH; [exact Hd|].
  intros m e He y Hy Hm.
  unfold first_step in He.
  destruct (msisdn_of x) as [mx|] eqn:Emx.
  - destruct (grouped !! mx) as [e0|] eqn:Ee.
    + apply (Hinv m e He y); [right; exact Hy|exact Hm].
    + destruct (decide (mx = m)) as [->|Hne].
      * rewrite lookup_insert_eq in He. injection He as <-.
        apply Hx; [exact Hy|].
        apply msisdn_of_some in Emx as [-> _].
        apply msisdn_of_some in Hm as [-> _]. reflexivity.
      * rewrite lookup_insert_ne in He by exact Hne.
        apply (Hinv m e He y); [right; exact Hy|exact Hm].
  - apply (Hinv m e He y); [right; exact Hy|exact Hm].
Qed.

(** X15.  On a feed in descending order of creation within each
    identifier, and without null timestamps, keeping the first record is
    keeping the latest one: the grouping of the Classifier returns the
    map that the grouping of the Retriever gives. *)
Theorem first_is_latest_on_descending_feed (records : list order_item) :
  descending records -> Forall dated records ->
  group_by_msisdn records = Ok (group_first records).
Proof.
  intros Hd Hdated. rewrite (group_by_msisdn_dated records Hdated).
  f_equal. unfold group_first.
  apply descending_same_step; [exact Hd|].
  intros m e He. rewrite lookup_empty in He. discriminate He.
Qed.

Lemma first_is_latest_on_descending_feed_witness :
  group_by_msisdn descending_feed = Ok (group_first descending_feed).
Proof.
  apply (first_is_latest_on_descending_feed descending_feed).
  - cbn [descending descending_feed]. repeat split; intros z Hz Hm;
      repeat (destruct Hz as [<-|Hz]); try contradiction;
      try discriminate Hm; reflexivity.
  - repeat constructor; discriminate.
Defined.

(** Without that order the Retriever keeps a stale record. *)
Example stale_record_on_unordered_feed :
  Id <$> group_first unordered_feed !! "555" = Some "a" /\
  (fun grouped => Id <$> grouped !! "555") <$>
    match group_by_msisdn unordered_feed with
    | Ok grouped => Some grouped
    | Raise _ => None
    end = Some (Some "b").
Proof. vm_compute. split; reflexivity. Qed.

(** ** Batches of identifiers *)

Lemma chunks_concat_upto (l : list string) (m : nat) :
  concat (map (fun k => firstn 100 (skipn (100 * k) l)) (seq 0 m))
  = firstn (100 * m) l.
Proof.
  induction m as [|m IH].
  - rewrite Nat.mul_0_r. reflexivity.
  - rewrite List.seq_S, List.map_app, List.concat_app, IH. cbn [map concat Nat.add].
    rewrite List.app_nil_r, take_take_drop. f_equal. lia.
Qed.

Lemma hundreds_cover (n : nat) : (n <= 100 * ((n + 99) / 100))%nat.
Proof.
  pose proof (Nat.div_mod_eq (n + 99) 100) as H.
  pose proof (Nat.mod_upper_bound (n + 99) 100 ltac:(lia)). lia.
Qed.

Lemma hundreds_tight (n k : nat) : (k < (n + 99) / 100)%nat -> (100 * k < n)%nat.
Proof.
  intros Hk. pose proof (Nat.div_mod_eq (n + 99) 100) as H.
  pose proof (Nat.mod_upper_bound (n + 99) 100 ltac:(lia)). nia.
Qed.

Lemma batch_loop_total (answer : string -> list order_item)
    (chunk_list : list (list string)) :
  forall acc,
    batch_loop (fun q => Ok (answer q)) chunk_list acc =
    (map batch_soql chunk_list,
     Ok (acc ++ concat (map (fun c => answer (batch_soql c)) chunk_list))).
Proof.
  induction chunk_list as [|c cs IH]; intros acc; cbn [batch_loop map concat].
  - rewrite List.app_nil_r. reflexivity.
  - rewrite IH, <- List.app_assoc. reflexivity.
Qed.

(** X16.  The batch lookup cuts the identifiers into chunks of at most 100,
    none of them empty, that put together give the identifiers back in
    their order; against a source that answers every query it sends one
    query per chunk and returns the answers one after the other.  No
    identifier, no query. *)
Theorem batch_lookup_chunks (msisdns : list string) :
  concat (chunks msisdns) = msisdns /\
  Forall (fun c => (1 <= length c <= 100)%nat) (chunks msisdns) /\
  length (chunks msisdns) = ((length msisdns + 99) / 100)%nat /\
  (forall answer : string -> list order_item,
     get_orders_batch_by_msisdns (fun q => Ok (answer q)) msisdns =
     (map batch_soql (chunks msisdns),
      Ok (concat (map (fun c => answer (batch_soql c)) (chunks msisdns))))) /\
  (forall sf, get_orders_batch_by_msisdns sf [] = ([], Ok [])).
Proof.
  split; [|split; [|split; [|split]]].
  - unfold chunks. rewrite chunks_concat_upto.
    apply List.firstn_all2, hundreds_cover.
  - unfold chunks. apply List.Forall_forall. intros c Hc.
    apply List.in_map_iff in Hc as (k & <- & Hk).
    apply List.in_seq in Hk as [_ Hk]. cbn [Nat.add] in Hk.
    apply hundreds_tight in Hk.
    rewrite List.length_firstn, List.length_skipn. lia.
  - unfold chunks. rewrite List.length_map, List.length_seq. reflexivity.
  - intros answer. unfold get_orders_batch_by_msisdns.
    destruct msisdns as [|m ms]; [reflexivity|].
    rewrite batch_loop_total. reflexivity.
  - reflexivity.
Qed.

Example three_chunks_for_250 :
  map (@length string) (chunks (repeat "555" 250)) = [100; 100; 50]%nat.
Proof. vm_compute. reflexivity. Qed.

End RetrieverFeed.

(* ===================================================================== *)
(** * Further properties of the Asset Assembler                           *)
(* ===================================================================== *)

Section AssemblerMore.
Import Py AssetFetcher.

(** ** Children by kind *)

Lemma organize_loop_spec (children : list pyval) :
  forall ds aos gs r,
    organize_loop children ds aos gs = Ok r ->
    devices r =
      ds ++ List.filter (fun c => negb (gone c) && device_coded c) children /\
    add_ons r =
      aos ++ List.filter (fun c => negb (gone c) && negb (device_coded c)) children /\
    disconnected r = gs ++ List.filter gone children.
Proof.
  induction children as [|c children IH]; intros ds aos gs r; cbn [organize_loop].
  - intros [= <-]. cbn. rewrite !List.app_nil_r. auto.
  - destruct c as [ | | | | |d]; try discriminate. cbn [get mbind result_bind].
    destruct (dict_get d "Product2" (VDict [])) as [ | | | | |product] eqn:Ep;
      try discriminate.
    cbn [get mbind result_bind List.filter gone device_coded]. rewrite Ep.
    destruct (ResponseBuilder.member
                (dict_get d "vlocity_cmt__ProvisioningStatus__c" VNone) _);
      cbn [negb andb].
    + intros H. apply IH in H as (H1 & H2 & H3).
      rewrite H1, H2, H3, <- List.app_assoc. auto.
    + destruct (ResponseBuilder.member
                  (dict_get product "vlocity_cmt__ParentClassCode__c" "") _);
        cbn [negb]; intros H; apply IH in H as (H1 & H2 & H3);
        rewrite H1, H2, H3, <- ?List.app_assoc; auto.
Qed.

Lemma three_way_length {A : Type} (f g : A -> bool) (l : list A) :
  (length (List.filter (fun c => negb (f c) && g c) l) +
   length (List.filter (fun c => negb (f c) && negb (g c)) l) +
   length (List.filter f l) = length l)%nat.
Proof.
  induction l as [|x l IH]; [reflexivity|]. cbn [List.filter].
  destruct (f x), (g x); cbn [negb andb length]; lia.
Qed.

Lemma organize_loop_total (children : list pyval) :
  Forall readable_child children ->
  forall ds aos gs, exists r, organize_loop children ds aos gs = Ok r.
Proof.
  induction 1 as [|c children (d & -> & Hd) _ IH]; intros ds aos gs;
    cbn [organize_loop]; [eauto|].
  unfold product_readable in Hd. cbn [get mbind result_bind].
  destruct (dict_get d "Product2" (VDict [])); try discriminate Hd.
  cbn [get mbind result_bind].
  destruct (ResponseBuilder.member _ _); [apply IH|].
  destruct (ResponseBuilder.member _ _); apply IH.
Qed.

(** X17.  [_organize_children] sorts every child into exactly one of the
    three lists, keeping the order of the children within each: the
    children whose status is Deleted or Disconnected are the disconnected
    ones whatever their product, the device-class ones among the others
    are the devices, and all the rest are add-ons.  It returns whenever
    every child is a dict whose [Product2], if present, is a dict. *)
Theorem children_are_partitioned (children : list pyval) :
  Forall readable_child children ->
  exists r,
    _organize_children (VList children) = Ok r /\
    disconnected r = List.filter gone children /\
    devices r = List.filter (fun c => negb (gone c) && device_coded c) children /\
    add_ons r =
      List.filter (fun c => negb (gone c) && negb (device_coded c)) children /\
    (length (devices r) + length (add_ons r) + length (disconnected r)
     = length children)%nat.
Proof.
  intros Hread. unfold _organize_children. cbn [iter mbind result_bind].
  destruct (organize_loop_total children Hread [] [] []) as [r Hr].
  exists r. split; [exact Hr|].
  apply organize_loop_spec in Hr as (H1 & H2 & H3). cbn [app] in *.
  rewrite H1, H2, H3. repeat split. apply three_way_length.
Qed.

Lemma children_are_partitioned_witness :
  exists r,
    _organize_children (VList sample_children) = Ok r /\
    disconnected r = List.filter gone sample_children /\
    devices r =
      List.filter (fun c => negb (gone c) && device_coded c) sample_children /\
    add_ons r =
      List.filter (fun c => negb (gone c) && negb (device_coded c))
        sample_children /\
    (length (devices r) + length (add_ons r) + length (disconnected r)
     = length sample_children)%nat.
Proof.
  apply (children_are_partitioned sample_children).
  repeat constructor; eexists; split; reflexivity.
Defined.

(** The disconnected phone is not counted as a device. *)
Example sample_children_organized :
  _organize_children (VList sample_children) =
  Ok {| devices := [child_of "phone" "PR_B2C_Mobile_Device_Class" "Active"];
        add_ons := [child_of "roaming" "PR_B2C_Mobile_Add_On" "Active"];
        disconnected :=
          [child_of "old phone" "PR_B2C_Mobile_Device_Class" "Disconnected"] |}.
Proof. reflexivity. Qed.

(** ** The bundle *)

(** X18.  Whatever [get_assets_for_msisdn_v2] returns, the error is one of
    the two lookup failures or absent; it is absent exactly when a device
    is returned, a device is returned only together with a line, and a
    result with an error carries no device and no children. *)
Theorem bundle_invariant (sf : client) (msisdn : string)
    (config : gmap string query_config) (a : assets) :
  get_assets_for_msisdn_v2 sf msisdn config = Ok a ->
  (error a = None <-> truthy (device a) = true) /\
  (truthy (device a) = true -> truthy (latest_line a) = true) /\
  (error a <> None ->
   device a = VNone /\ line_children a = [] /\ device_children a = []) /\
  (error a = None \/ error a = Some "No active line found" \/
   error a = Some "No device found (mandatory)").
Proof.
  unfold get_assets_for_msisdn_v2.
  destruct (_get_latest_line sf msisdn config) as [line|]; [|discriminate].
  cbn [mbind result_bind]. destruct (truthy line) eqn:Hl; cbn [negb].
  2: { intros [= <-]. cbn. repeat split; auto; discriminate. }
  destruct (product_name line) as [n|]; [|discriminate]. cbn [mbind result_bind].
  destruct (get line "vlocity_cmt__AssetReferenceId__c" VNone) as [ref|];
    [|discriminate].
  cbn [mbind result_bind].
  destruct (_get_device_for_line sf msisdn ref config) as [dev|]; [|discriminate].
  cbn [mbind result_bind]. destruct (truthy dev) eqn:Hd; cbn [negb].
  2: { intros [= <-]. cbn. repeat split; auto; discriminate. }
  destruct (product_name dev) as [n'|]; [|discriminate]. cbn [mbind result_bind].
  destruct (get dev "vlocity_cmt__RootItemId__c" VNone) as [droot|]; [|discriminate].
  cbn [mbind result_bind].
  destruct (get line "vlocity_cmt__RootItemId__c" VNone) as [lroot|]; [|discriminate].
  cbn [mbind result_bind].
  destruct (_get_line_children sf msisdn lroot config) as [lc|]; [|discriminate].
  cbn [mbind result_bind].
  destruct (_get_device_children sf droot config) as [dc|]; [|discriminate].
  cbn [mbind result_bind mret result_ret]. intros [= <-]. cbn.
  repeat split; auto; congruence.
Qed.

Lemma bundle_invariant_witness :
  exists a,
    get_assets_for_msisdn_v2 line_only_source "555" sample_queries = Ok a /\
    device a = VNone /\ line_children a = [] /\ device_children a = [].
Proof.
  eexists. split; [exact line_only_run|].
  destruct (bundle_invariant line_only_source "555" sample_queries _ line_only_run)
    as (_ & _ & H & _).
  apply H. discriminate.
Defined.

Lemma replace_all_nonempty (old new : string) (wc : list string) :
  wc <> [] ->
  exists w ws, replace_all old (VStr new) wc = Ok (w :: ws).
Proof.
  destruct wc as [|w ws]; [congruence|]. intros _. cbn. eauto.
Qed.

(** X19.  A line without a textual asset reference does not lead to the
    answer "No device found": when the device query has a condition, the
    placeholder cannot be filled in and the whole lookup raises a
    [TypeError], before the record source is asked for the device. *)
Theorem line_without_reference_raises (sf : client) (msisdn : string)
    (config : gmap string query_config) (line : list (pyval * pyval)) :
  _get_latest_line sf msisdn config = Ok (VDict line) ->
  line <> [] ->
  product_readable line ->
  (forall s, dict_get line "vlocity_cmt__AssetReferenceId__c" VNone <> VStr s) ->
  where_conditions (query_named config "device_for_line") <> [] ->
  get_assets_for_msisdn_v2 sf msisdn config = Raise TypeError.
Proof.
  intros Hline Hne Hprod Href Hwc. unfold get_assets_for_msisdn_v2.
  rewrite Hline. cbn [mbind result_bind truthy].
  destruct line as [|kv line']; [congruence|]. cbn [negb].
  unfold product_name, product_readable in *. cbn [get mbind result_bind].
  destruct (dict_get (kv :: line') "Product2" (VDict [])); try discriminate Hprod.
  cbn [get mbind result_bind]. unfold _get_device_for_line.
  destruct (replace_all_nonempty "{msisdn}" msisdn _ Hwc) as (w & ws & ->).
  cbn [mbind result_bind replace_all].
  destruct (dict_get (kv :: line') "vlocity_cmt__AssetReferenceId__c" VNone)
    as [ | | |s| | ]; try reflexivity.
  exfalso. exact (Href s eq_refl).
Qed.

Lemma line_without_reference_raises_witness :
  get_assets_for_msisdn_v2 bare_line_source "555" sample_queries = Raise TypeError.
Proof.
  apply (line_without_reference_raises bare_line_source "555" sample_queries
           bare_line).
  - reflexivity.
  - discriminate.
  - reflexivity.
  - intros s H. discriminate H.
  - discriminate.
Defined.

(** ** The order history *)

Lemma log_history_ok (records : list pyval) :
  Forall history_record records -> log_history records = Ok tt.
Proof.
  induction 1 as [|order records (d & -> & Hd) _ IH]; [reflexivity|].
  cbn [log_history get mbind result_bind].
  destruct (dict_get d "Order" (VDict [])); try discriminate Hd.
  cbn [get mbind result_bind]. exact IH.
Qed.

Lemma log_history_unreadable (records : list pyval) :
  ~ Forall history_record records -> log_history records = Raise AttributeError.
Proof.
  induction records as [|order records IH]; intros Hn.
  - exfalso. apply Hn. constructor.
  - cbn [log_history]. destruct order as [ | | | | |d]; try reflexivity.
    cbn [get mbind result_bind].
    destruct (dict_get d "Order" (VDict [])) as [ | | | | |o] eqn:Eo;
      try reflexivity.
    cbn [get mbind result_bind]. apply IH. intros Hrest. apply Hn.
    constructor; [|exact Hrest]. exists d. split; [reflexivity|].
    rewrite Eo. reflexivity.
Qed.

(** X20.  [get_order_history] answers with what the source returned when
    every record can be read, and with the empty list when the source
    raises or a record cannot be read; in every case the answer is empty
    or the answer of the source to the one query sent. *)
Theorem order_history_or_nothing (sf : client) (msisdn : string)
    (query : option history_query) :
  let q := match query with Some q => q | None => no_history_query end in
  (forall records,
     sf (history_soql msisdn q) = Ok records -> Forall history_record records ->
     get_order_history sf msisdn query = records) /\
  (forall e, sf (history_soql msisdn q) = Raise e ->
             get_order_history sf msisdn query = []) /\
  (forall records,
     sf (history_soql msisdn q) = Ok records -> ~ Forall history_record records ->
     get_order_history sf msisdn query = []) /\
  (get_order_history sf msisdn query = [] \/
   sf (history_soql msisdn q) = Ok (get_order_history sf msisdn query)).
Proof.
  intros q. unfold get_order_history. fold q. split; [|split; [|split]].
  - intros records Hsf Hrec. rewrite Hsf. cbn [mbind result_bind].
    rewrite (log_history_ok records Hrec). reflexivity.
  - intros e Hsf. rewrite Hsf. reflexivity.
  - intros records Hsf Hrec. rewrite Hsf. cbn [mbind result_bind].
    rewrite (log_history_unreadable records Hrec). reflexivity.
  - destruct (sf (history_soql msisdn q)) as [records|e]; [|left; reflexivity].
    cbn [mbind result_bind].
    destruct (log_history records) as [[]|e]; [right|left]; reflexivity.
Qed.

Lemma order_history_or_nothing_witness :
  get_order_history
    (fun _ => Ok [history_item (VStr "Change Plan") (VStr "Activated")])
    "555" None
  = [history_item (VStr "Change Plan") (VStr "Activated")] /\
  get_order_history (fun _ => Raise (ClientError "timeout")) "555" None = [].
Proof.
  split.
  - apply (proj1 (order_history_or_nothing
                    (fun _ => Ok [history_item (VStr "Change Plan") (VStr "Activated")])
                    "555" None)); [reflexivity|].
    repeat constructor. eexists. split; reflexivity.
  - apply (proj1 (proj2 (order_history_or_nothing
                           (fun _ => Raise (ClientError "timeout")) "555" None))
             (ClientError "timeout")).
    reflexivity.
Defined.

(** A record whose [Order] is null empties the whole history. *)
Example null_order_empties_history :
  get_order_history
    (fun _ => Ok [history_item (VStr "Change Plan") (VStr "Activated");
                  VDict [(VStr "Id", VStr "OI2"); (VStr "Order", VNone)]])
    "555" None = [].
Proof. reflexivity. Qed.

(** ** Placeholders *)

Lemma replace_from_absent (old new s : string) :
  OrderFilter.contains old s = false -> replace_from old new 0 s = s.
Proof.
  induction s as [|c s IH]; [reflexivity|].
  cbn [OrderFilter.contains replace_from]. intros H.
  apply orb_false_iff in H as [Hp Hc]. rewrite Hp, (IH Hc). reflexivity.
Qed.

Lemma replace_all_absent (old new : string) (where_conditions : list string) :
  Forall (fun w => OrderFilter.contains old w = false) where_conditions ->
  replace_all old (VStr new) where_conditions = Ok where_conditions.
Proof.
  intros H.
  assert (Hmap : map (replace old new) where_conditions = where_conditions).
  { induction H as [|w ws Hw _ IH]; [reflexivity|]. cbn [map].
    unfold replace at 1. rewrite (replace_from_absent old new w Hw), IH.
    reflexivity. }
  unfold replace_all. destruct where_conditions; [reflexivity|].
  rewrite Hmap. reflexivity.
Qed.

(** X21.  A condition in which the placeholder does not occur goes into
    the query as it is written.  When no condition of the line query
    mentions the identifier, the same query is sent, and the same line is
    answered, for every identifier. *)
Theorem absent_placeholder_passes_through (sf : client)
    (config : gmap string query_config) (msisdn other : string) :
  let q := query_named config "latest_line_for_msisdn" in
  Forall (fun w => OrderFilter.contains "{msisdn}" w = false)
         (where_conditions q) ->
  replace_all "{msisdn}" (VStr msisdn) (where_conditions q)
    = Ok (where_conditions q) /\
  _get_latest_line sf msisdn config =
    (records ← sf (select q (where_conditions q)
                   ++ " ORDER BY CreatedDate DESC LIMIT 1")%string;
     mret (first_or_none records)) /\
  _get_latest_line sf msisdn config = _get_latest_line sf other config.
Proof.
  intros q H. unfold _get_latest_line. fold q.
  rewrite !(replace_all_absent "{msisdn}" _ _ H). repeat split.
Qed.

Lemma absent_placeholder_passes_through_witness :
  _get_latest_line line_only_source "555"
    (<["latest_line_for_msisdn" :=
         {| fields := ["Id"]; from_table := None;
            where_conditions := ["Status = 'Active'"] |}]> ∅)
  = _get_latest_line line_only_source "777"
    (<["latest_line_for_msisdn" :=
         {| fields := ["Id"]; from_table := None;
            where_conditions := ["Status = 'Active'"] |}]> ∅).
Proof.
  refine (proj2 (proj2 (absent_placeholder_passes_through line_only_source
                          (<["latest_line_for_msisdn" :=
                               {| fields := ["Id"]; from_table := None;
                                  where_conditions := ["Status = 'Active'"] |}]> ∅)
                          "555" "777" _))).
  repeat constructor.
Defined.

End AssemblerMore.

(* ===================================================================== *)
(** * Further properties of the Batch Validator                           *)
(* ===================================================================== *)

Section BulkMore.
Import Py OrderFilter BulkValidator.

(** ** The results of a batch *)

Lemma single_key (post : transport) (m : string) :
  validate_single_msisdn post m = (m, snd (validate_single_msisdn post m)).
Proof.
  unfold validate_single_msisdn.
  destruct (post m) as [code text [e|v]|e]; [destruct (Z.eqb code 200)..|];
    reflexivity.
Qed.

Lemma assign_fresh {V : Type} (d : list (string * V)) (k : string) (v : V) :
  ~ In k (map fst d) -> assign d k v = d ++ [(k, v)].
Proof.
  induction d as [|[k1 w] d IH]; cbn; [reflexivity|].
  intros Hnin. destruct (String.eqb_spec k1 k) as [->|Hne].
  - exfalso. auto.
  - f_equal. auto.
Qed.

Lemma collect_from_map (post : transport) (completion : list string) :
  forall acc : list (string * pyval),
    List.NoDup (map fst acc ++ completion) ->
    fold_left (fun results msisdn =>
                 let '(m, r) := validate_single_msisdn post msisdn in
                 assign results m r) completion acc
    = acc ++ map (validate_single_msisdn post) completion.
Proof.
  induction completion as [|m rest IH]; intros acc Hnd; cbn [fold_left map].
  - rewrite List.app_nil_r. reflexivity.
  - rewrite (single_key post m) at 1.
    assert (Hfresh : ~ In m (map fst acc)).
    { apply List.NoDup_remove_2 in Hnd. intros Hin. apply Hnd.
      apply List.in_or_app. auto. }
    rewrite (assign_fresh acc m _ Hfresh), IH.
    + rewrite <- List.app_assoc. cbn [app]. rewrite <- single_key. reflexivity.
    + rewrite List.map_app, <- List.app_assoc. exact Hnd.
Qed.

Lemma collect_map (post : transport) (completion : list string) :
  List.NoDup completion ->
  collect post completion = map (validate_single_msisdn post) completion.
Proof. intros Hnd. exact (collect_from_map post completion [] Hnd). Qed.

Lemma result_for_map (post : transport) (completion : list string) (m : string) :
  result_for (map (validate_single_msisdn post) completion) m =
  if existsb (String.eqb m) completion
  then snd (validate_single_msisdn post m)
  else VDict [].
Proof.
  induction completion as [|k rest IH]; [reflexivity|].
  cbn [map existsb]. rewrite (single_key post k). cbn [result_for].
  rewrite (String.eqb_sym m k).
  destruct (String.eqb_spec k m) as [->|Hne]; [reflexivity|exact IH].
Qed.

Lemma existsb_permutation {A : Type} (f : A -> bool) (l1 l2 : list A) :
  Permutation l1 l2 -> existsb f l1 = existsb f l2.
Proof.
  induction 1 as [|x l1 l2 _ IH|x y l|l1 l2 l3 _ IH1 _ IH2]; cbn.
  - reflexivity.
  - rewrite IH. reflexivity.
  - destruct (f x), (f y); reflexivity.
  - congruence.
Qed.

Lemma forallb_permutation {A : Type} (f : A -> bool) (l1 l2 : list A) :
  Permutation l1 l2 -> forallb f l1 = forallb f l2.
Proof.
  induction 1 as [|x l1 l2 _ IH|x y l|l1 l2 l3 _ IH1 _ IH2]; cbn.
  - reflexivity.
  - rewrite IH. reflexivity.
  - destruct (f x), (f y); reflexivity.
  - congruence.
Qed.

Lemma filter_length_permutation {A : Type} (f : A -> bool) (l1 l2 : list A) :
  Permutation l1 l2 ->
  length (List.filter f l1) = length (List.filter f l2).
Proof.
  induction 1 as [|x l1 l2 _ IH|x y l|l1 l2 l3 _ IH1 _ IH2]; cbn [List.filter].
  - reflexivity.
  - destruct (f x); cbn [length]; rewrite IH; reflexivity.
  - destruct (f x), (f y); reflexivity.
  - congruence.
Qed.

(** ** Counting, whatever the results are *)

Lemma count_successful_cases (results : list (string * pyval)) :
  count_successful results =
  if forallb (fun kr => is_dict (snd kr)) results
  then Ok (length (List.filter (fun kr => negb (reports_error (snd kr))) results))
  else Raise AttributeError.
Proof.
  induction results as [|[k r] rest IH]; [reflexivity|].
  cbn [count_successful forallb snd List.filter].
  destruct r; try reflexivity.
  cbn [get is_dict andb mbind result_bind]. rewrite IH, status_test.
  destruct (forallb _ rest); [|reflexivity].
  cbn [mbind result_bind mret result_ret].
  destruct (reports_error (VDict d)); reflexivity.
Qed.

Lemma count_successful_permutation (r1 r2 : list (string * pyval)) :
  Permutation r1 r2 -> count_successful r1 = count_successful r2.
Proof.
  intros Hp. rewrite !count_successful_cases.
  rewrite (forallb_permutation _ r1 r2 Hp).
  rewrite (filter_length_permutation _ r1 r2 Hp). reflexivity.
Qed.

Lemma format_results_ext (grouped_orders : list (string * order_item))
    (r1 r2 : list (string * pyval)) (output_format : string) :
  count_successful r1 = count_successful r2 ->
  (forall m, result_for r1 m = result_for r2 m) ->
  _format_results grouped_orders r1 output_format =
  _format_results grouped_orders r2 output_format.
Proof.
  intros Hc Hr. unfold _format_results. rewrite Hc.
  destruct (count_successful r2) as [n|e]; [|reflexivity].
  cbn [mbind result_bind mret result_ret].
  assert (Hd : map (fun '(msisdn, order) => (msisdn, detail_of r1 msisdn order))
                 grouped_orders =
               map (fun '(msisdn, order) => (msisdn, detail_of r2 msisdn order))
                 grouped_orders).
  { apply List.map_ext. intros [m o]. unfold detail_of. rewrite Hr. reflexivity. }
  rewrite Hd. reflexivity.
Qed.

(** X22.  The report of a batch does not depend on the order in which the
    requests complete: any two completion orders of the same distinct
    identifiers give the same outcome, report or exception. *)
Theorem report_ignores_completion_order (post : transport) (max_workers : Z)
    (grouped_orders : list (string * order_item))
    (completion completion' : list string) (output_format : string) :
  List.NoDup completion ->
  Permutation completion completion' ->
  validate_and_format post max_workers grouped_orders completion output_format =
  validate_and_format post max_workers grouped_orders completion' output_format.
Proof.
  intros Hnd Hp.
  assert (Hnd' : List.NoDup completion')
    by exact (Permutation_NoDup Hp Hnd).
  unfold validate_and_format, _validate_msisdns_batch.
  destruct (max_workers <=? 0)%Z; [reflexivity|]. cbn [mbind result_bind].
  rewrite (collect_map post completion Hnd), (collect_map post completion' Hnd').
  apply format_results_ext.
  - apply count_successful_permutation, Permutation_map, Hp.
  - intros m. rewrite !result_for_map.
    rewrite (existsb_permutation _ completion completion' Hp). reflexivity.
Qed.

Lemma report_ignores_completion_order_witness :
  validate_and_format mixed_transport 5 two_grouped ["555"; "777"] "json" =
  validate_and_format mixed_transport 5 two_grouped ["777"; "555"] "json".
Proof.
  apply report_ignores_completion_order.
  - constructor; [intros [H|[]]; discriminate H|].
    constructor; [intros []|constructor].
  - apply perm_swap.
Defined.

(** ** The figures of the summary *)

Lemma round_half_even_bounds (q : Q) (lo hi : Z) :
  (inject_Z lo <= q)%Q -> (q <= inject_Z hi)%Q ->
  (lo <= round_half_even q <= hi)%Z.
Proof.
  intros Hlo Hhi.
  assert (Hf1 : (lo <= Qfloor q)%Z).
  { rewrite <- (Qfloor_Z lo). apply Qfloor_resp_le, Hlo. }
  assert (Hf2 : (Qfloor q <= hi)%Z).
  { rewrite <- (Qfloor_Z hi). apply Qfloor_resp_le, Hhi. }
  assert (Hup : (Qcompare (q - inject_Z (Qfloor q)) (1 # 2) <> Lt ->
                 Qfloor q + 1 <= hi)%Z).
  { intros Hc. destruct (Z.eq_dec (Qfloor q) hi) as [Heq|Hne]; [|lia].
    exfalso. apply Hc. apply -> Qlt_alt. rewrite Heq.
    apply Qle_lt_trans with (y := 0%Q); [|reflexivity].
    apply (Qplus_le_l _ _ (inject_Z hi)). ring_simplify. exact Hhi. }
  unfold round_half_even.
  destruct (Qcompare (q - inject_Z (Qfloor q)) (1 # 2)) eqn:Ec.
  - destruct (Z.even (Qfloor q)); [lia|].
    assert ((Qfloor q + 1 <= hi)%Z) by (apply Hup; discriminate). lia.
  - lia.
  - assert ((Qfloor q + 1 <= hi)%Z) by (apply Hup; discriminate). lia.
Qed.

(** ** Floats between integers *)

Lemma scale2_up (q : Q) (k : Z) :
  (0 <= k)%Z -> scale2 q k = (q * inject_Z (2 ^ k))%Q.
Proof. intros Hk. unfold scale2. apply Z.leb_le in Hk. rewrite Hk. reflexivity. Qed.

Lemma scale2_down (z : Z) (e : Z) :
  (e <= 0)%Z -> (scale2 (inject_Z z) e == inject_Z z / inject_Z (2 ^ (- e)))%Q.
Proof.
  intros He. unfold scale2. destruct (Z.leb_spec 0 e) as [H0|_]; [|reflexivity].
  assert (e = 0%Z) as -> by lia.
  change (inject_Z z * 1 == inject_Z z / 1)%Q. field.
Qed.

Lemma binary_exponent_small (n d : positive) (B : Z) :
  (Zpos n # d <= inject_Z B)%Q -> (B <= 2 ^ 52)%Z ->
  (binary_exponent n d <= 0)%Z.
Proof.
  intros Hq HB.
  assert (Hn : (Zpos n <= 2 ^ 52 * Zpos d)%Z).
  { unfold Qle in Hq. cbn in Hq. nia. }
  pose proof (Z.log2_spec (Zpos d) ltac:(lia)) as [_ Hd].
  assert (Hlt : (Zpos n < 2 ^ (Z.log2 (Zpos d) + 53))%Z).
  { replace (Z.log2 (Zpos d) + 53)%Z with (52 + Z.succ (Z.log2 (Zpos d)))%Z by lia.
    rewrite Z.pow_add_r by (pose proof (Z.log2_nonneg (Zpos d)); lia). nia. }
  apply Z.log2_lt_pow2 in Hlt; [|lia].
  unfold binary_exponent. cbv zeta.
  destruct (Qlt_le_dec _ _); lia.
Qed.

Lemma nearest_between (n d : positive) (B : Z) :
  (Zpos n # d <= inject_Z B)%Q -> (B <= 2 ^ 52)%Z ->
  (0 <= nearest n d)%Q /\ (nearest n d <= inject_Z B)%Q.
Proof.
  intros Hq HB. pose proof (binary_exponent_small n d B Hq HB) as He.
  unfold nearest. set (e := binary_exponent n d) in *.
  assert (Hpow : (0 < 2 ^ (- e))%Z) by (apply Z.pow_pos_nonneg; lia).
  assert (Hpq : (0 < inject_Z (2 ^ (- e)))%Q).
  { unfold Qlt. cbn. lia. }
  rewrite (scale2_up _ (- e)) by lia.
  assert (Hm : (0 <= round_half_even ((Zpos n # d) * inject_Z (2 ^ (- e)))
                <= B * 2 ^ (- e))%Z).
  { apply round_half_even_bounds.
    - apply Qmult_le_0_compat; [|apply Qlt_le_weak, Hpq]. unfold Qle. cbn. lia.
    - rewrite inject_Z_mult. apply Qmult_le_compat_r; [exact Hq|].
      apply Qlt_le_weak, Hpq. }
  rewrite scale2_down by exact He. split.
  - apply Qle_shift_div_l; [exact Hpq|]. rewrite Qmult_0_l.
    unfold Qle. cbn. lia.
  - apply Qle_shift_div_r; [exact Hpq|]. rewrite <- inject_Z_mult.
    unfold Qle. cbn. lia.
Qed.

Lemma float_between (x : Q) (B : Z) :
  (0 <= x)%Q -> (x <= inject_Z B)%Q -> (0 <= B <= 2 ^ 52)%Z ->
  (0 <= float x)%Q /\ (float x <= inject_Z B)%Q.
Proof.
  intros H0 HB Hr. unfold float.
  pose proof (Qred_correct x) as Hred.
  destruct (Qred x) as [[|n|n] d].
  - split; [discriminate|]. unfold Qle. cbn. lia.
  - apply nearest_between; [|lia]. rewrite Hred. exact HB.
  - exfalso. rewrite <- Hred in H0. unfold Qle in H0. cbn in H0. lia.
Qed.

Lemma rate_bounds (s n : nat) :
  (s <= n)%nat -> (0 < n)%nat ->
  (0 <= percent (inject_Z (Z.of_nat s)) (inject_Z (Z.of_nat n)))%Q /\
  (percent (inject_Z (Z.of_nat s)) (inject_Z (Z.of_nat n)) <= 100)%Q.
Proof.
  intros Hs Hn.
  assert (Hpos : (0 < inject_Z (Z.of_nat n))%Q).
  { unfold Qlt. cbn. lia. }
  assert (H0 : (0 <= inject_Z (Z.of_nat s) / inject_Z (Z.of_nat n))%Q).
  { apply Qle_shift_div_l; [exact Hpos|]. unfold Qle. cbn. lia. }
  assert (H1 : (inject_Z (Z.of_nat s) / inject_Z (Z.of_nat n) <= inject_Z 1)%Q).
  { apply Qle_shift_div_r; [exact Hpos|]. unfold Qle. cbn. lia. }
  destruct (float_between _ 1 H0 H1 ltac:(split; [lia|discriminate]))
    as [Hq0 Hq1].
  set (q := float (inject_Z (Z.of_nat s) / inject_Z (Z.of_nat n))) in *.
  assert (Hx0 : (0 <= q * 100)%Q).
  { apply Qmult_le_0_compat; [exact Hq0|discriminate]. }
  assert (Hx1 : (q * 100 <= inject_Z 100)%Q).
  { apply Qle_trans with (y := (inject_Z 1 * 100)%Q); [|discriminate].
    apply Qmult_le_compat_r; [exact Hq1|discriminate]. }
  destruct (float_between _ 100 Hx0 Hx1 ltac:(split; [lia|discriminate]))
    as [Hy0 Hy1].
  assert (Hb : (0 <= round_half_even (float (q * 100) * 100) <= 10000)%Z).
  { apply round_half_even_bounds.
    - apply Qle_trans with (y := (0 * 100)%Q); [discriminate|].
      apply Qmult_le_compat_r; [exact Hy0|discriminate].
    - apply Qle_trans with (y := (inject_Z 100 * 100)%Q); [|discriminate].
      apply Qmult_le_compat_r; [exact Hy1|discriminate]. }
  unfold percent, round2. fold q.
  set (m := round_half_even (float (q * 100) * 100)) in *.
  unfold Qle. cbn [Qnum Qden]. lia.
Qed.

Lemma filter_split_length {A : Type} (f : A -> bool) (l : list A) :
  (length (List.filter (fun x => negb (f x)) l) + length (List.filter f l)
   = length l)%nat.
Proof.
  induction l as [|x l IH]; [reflexivity|]. cbn [List.filter].
  destruct (f x); cbn [negb length]; lia.
Qed.

Lemma filter_map_length {A B : Type} (f : B -> bool) (g : A -> B) (l : list A) :
  length (List.filter f (map g l)) = length (List.filter (fun x => f (g x)) l).
Proof.
  induction l as [|x l IH]; [reflexivity|]. cbn [map List.filter].
  destruct (f (g x)); cbn [length]; rewrite IH; reflexivity.
Qed.

(** X23.  When every identifier of the batch is answered with an object
    (and, for the CSV rendering, every answer with the status "success"
    has a summary that can be read), a report is produced: the successes
    and the failures add up to the number of identifiers, the failures are
    the identifiers whose answer has the status "error", the success rate
    lies between 0 and 100, and every identifier is reported, in the order
    of the grouping, in a structured report with the answer to its own
    request. *)
Theorem batch_accounting (post : transport) (max_workers : Z)
    (grouped_orders : list (string * order_item))
    (completion : list string) (output_format : string) :
  (0 < max_workers)%Z ->
  List.NoDup (map fst grouped_orders) ->
  Permutation completion (map fst grouped_orders) ->
  (forall m, In m completion ->
             is_dict (snd (validate_single_msisdn post m)) = true) ->
  (lower output_format = "csv" ->
   forall m, In m completion ->
             summary_readable (snd (validate_single_msisdn post m))) ->
  exists rep,
    validate_and_format post max_workers grouped_orders completion output_format
      = Ok rep /\
    total_msisdns (report_summary rep) = length grouped_orders /\
    failed_validations (report_summary rep) =
      Z.of_nat (error_count post (map fst grouped_orders)) /\
    (successful_validations (report_summary rep) +
     error_count post (map fst grouped_orders) = length grouped_orders)%nat /\
    (0 <= success_rate (report_summary rep))%Q /\
    (success_rate (report_summary rep) <= 100)%Q /\
    reported rep = map fst grouped_orders /\
    (lower output_format <> "csv" ->
     map fst (detailed rep) = map fst grouped_orders) /\
    (forall m d, In (m, d) (detailed rep) ->
                 validation_result d = snd (validate_single_msisdn post m)).
Proof.
  intros Hw Hnd Hperm Hdict Hcsv.
  assert (Hndc : List.NoDup completion).
  { apply (Permutation_NoDup (l := map fst grouped_orders)); [|exact Hnd].
    symmetry. exact Hperm. }
  set (ok := fun m => negb (reports_error (snd (validate_single_msisdn post m)))).
  assert (Hcount : count_successful (collect post completion) =
                   Ok (length (List.filter ok (map fst grouped_orders)))).
  { rewrite (collect_map post completion Hndc), count_successful_cases.
    assert (Hall : forallb (fun kr : string * pyval => is_dict (snd kr))
                     (map (validate_single_msisdn post) completion) = true).
    { apply List.forallb_forall. intros kr Hin.
      apply List.in_map_iff in Hin as (m & <- & Hm). exact (Hdict m Hm). }
    rewrite Hall. f_equal.
    rewrite (filter_map_length
               (fun kr : string * pyval => negb (reports_error (snd kr)))
               (validate_single_msisdn post) completion).
    apply (filter_length_permutation ok), Hperm. }
  assert (Hsplit : (length (List.filter ok (map fst grouped_orders)) +
                    error_count post (map fst grouped_orders)
                    = length grouped_orders)%nat).
  { unfold error_count, ok.
    rewrite (filter_split_length
               (fun m => reports_error (snd (validate_single_msisdn post m)))).
    apply List.length_map. }
  assert (Hrate :
    (0 <= (if (0 <? length grouped_orders)%nat
           then percent
                  (inject_Z (Z.of_nat (length (List.filter ok (map fst grouped_orders)))))
                  (inject_Z (Z.of_nat (length grouped_orders)))
           else 0))%Q /\
    ((if (0 <? length grouped_orders)%nat
      then percent
             (inject_Z (Z.of_nat (length (List.filter ok (map fst grouped_orders)))))
             (inject_Z (Z.of_nat (length grouped_orders)))
      else 0) <= 100)%Q).
  { destruct (Nat.ltb_spec 0 (length grouped_orders)) as [Hpos|_].
    - apply rate_bounds; lia.
    - split; discriminate. }
  assert (Hkeys : map fst (map (fun '(msisdn, order) =>
                                  (msisdn, detail_of (collect post completion)
                                                     msisdn order))
                               grouped_orders) = map fst grouped_orders).
  { rewrite List.map_map. apply List.map_ext. intros [m o]. reflexivity. }
  assert (Hanswers : forall m d,
            In (m, d) (map (fun '(msisdn, order) =>
                              (msisdn, detail_of (collect post completion)
                                                 msisdn order))
                           grouped_orders) ->
            validation_result d = snd (validate_single_msisdn post m)).
  { intros m d Hin. apply List.in_map_iff in Hin as ([m' o] & [= <- <-] & Hin).
    cbn [detail_of validation_result].
    rewrite (collect_map post completion Hndc), result_for_map.
    assert (Hm : In m' completion).
    { apply (Permutation_in (l := map fst grouped_orders)).
      - symmetry. exact Hperm.
      - apply List.in_map_iff. exists (m', o). auto. }
    assert (He : existsb (String.eqb m') completion = true).
    { apply List.existsb_exists. exists m'. split; [exact Hm|].
      apply String.eqb_refl. }
    rewrite He. reflexivity. }
  unfold validate_and_format, _validate_msisdns_batch.
  apply Z.leb_gt in Hw. rewrite Hw. cbn [mbind result_bind].
  unfold _format_results. rewrite Hcount. cbn [mbind result_bind mret result_ret].
  destruct (String.eqb_spec (lower output_format) "csv") as [E|E].
  - destruct (csv_rows_total
                (map (fun '(msisdn, order) =>
                        (msisdn, detail_of (collect post completion) msisdn order))
                     grouped_orders)) as (rows & Hrows & Hrk).
    { intros m d Hin. rewrite (Hanswers m d Hin).
      apply List.in_map_iff in Hin as ([m' o] & [= <- _] & Hin).
      assert (Hm : In m' completion).
      { apply (Permutation_in (l := map fst grouped_orders)).
        - symmetry. exact Hperm.
        - apply List.in_map_iff. exists (m', o). auto. }
      split; [exact (Hdict m' Hm)|exact (Hcsv E m' Hm)]. }
    unfold _convert_to_csv. rewrite Hrows. cbn [mbind result_bind mret result_ret].
    eexists. split; [reflexivity|].
    cbn [report_summary reported detailed total_msisdns successful_validations
         failed_validations success_rate].
    split; [reflexivity|]. split; [lia|]. split; [exact Hsplit|].
    split; [exact (proj1 Hrate)|]. split; [exact (proj2 Hrate)|].
    split; [rewrite Hrk; exact Hkeys|]. split; [congruence|intros m d []].
  - eexists. split; [reflexivity|].
    cbn [report_summary reported detailed total_msisdns successful_validations
         failed_validations success_rate].
    split; [reflexivity|]. split; [lia|]. split; [exact Hsplit|].
    split; [exact (proj1 Hrate)|]. split; [exact (proj2 Hrate)|].
    split; [exact Hkeys|]. split; [intros _; exact Hkeys|exact Hanswers].
Qed.

Lemma batch_accounting_witness :
  exists rep,
    validate_and_format mixed_transport 5 two_grouped ["777"; "555"] "csv"
      = Ok rep /\
    total_msisdns (report_summary rep) = 2%nat /\
    failed_validations (report_summary rep) = 1%Z /\
    reported rep = ["555"; "777"].
Proof.
  destruct (batch_accounting mixed_transport 5 two_grouped ["777"; "555"] "csv")
    as (rep & Hrep & Htotal & Hfailed & _ & _ & _ & Hkeys & _).
  - reflexivity.
  - constructor; [intros [H|[]]; discriminate H|].
    constructor; [intros []|constructor].
  - apply perm_swap.
  - intros m [<-|[<-|[]]]; reflexivity.
  - intros _ m [<-|[<-|[]]]; intros d [= <-]; try discriminate; reflexivity.
  - exists rep. split; [exact Hrep|]. split; [exact Htotal|].
    split; [exact Hfailed|exact Hkeys].
Defined.

(** One of two validations failed: a rate of 50. *)
Example mixed_batch_report :
  (fun rep => (total_msisdns rep, successful_validations rep,
               failed_validations rep, Qred (success_rate rep)))
  <$> (report_summary <$>
       match validate_and_format mixed_transport 5 two_grouped ["777"; "555"] "json"
       with Ok rep => Some rep | Raise _ => None end)
  = Some (2%nat, 1%nat, 1%Z, 50%Q).
Proof. vm_compute. reflexivity. Qed.

(** X24.  An answer with status code 200 whose body is not an object is
    taken as the result of its identifier, and the summary cannot be
    computed from it: the batch ends in an [AttributeError] instead of a
    report.  A pool of no workers is refused with a [ValueError]. *)
Theorem non_object_answer_breaks_report (post : transport) (max_workers : Z)
    (grouped_orders : list (string * order_item))
    (completion : list string) (output_format : string) :
  ((max_workers <= 0)%Z ->
   validate_and_format post max_workers grouped_orders completion output_format
   = Raise ValueError) /\
  (forall m text v,
     (0 < max_workers)%Z ->
     List.NoDup completion ->
     In m completion ->
     post m = Responded 200 text (inr v) ->
     is_dict v = false ->
     validate_and_format post max_workers grouped_orders completion output_format
     = Raise AttributeError).
Proof.
  unfold validate_and_format, _validate_msisdns_batch. split.
  - intros Hw. apply Z.leb_le in Hw. rewrite Hw. reflexivity.
  - intros m text v Hw Hnd Hm Hpost Hv.
    apply Z.leb_gt in Hw. rewrite Hw. cbn [mbind result_bind].
    unfold _format_results.
    rewrite (collect_map post completion Hnd), count_successful_cases.
    assert (Hall : forallb (fun kr : string * pyval => is_dict (snd kr))
                     (map (validate_single_msisdn post) completion) = false).
    { apply not_true_is_false. intros Hall.
      rewrite List.forallb_forall in Hall.
      specialize (Hall (validate_single_msisdn post m)
                       (List.in_map _ _ _ Hm)).
      unfold validate_single_msisdn in Hall. rewrite Hpost in Hall.
      cbn in Hall. congruence. }
    rewrite Hall. reflexivity.
Qed.

Lemma non_object_answer_breaks_report_witness :
  validate_and_format listing_transport 5 two_grouped ["777"; "555"] "json"
  = Raise AttributeError /\
  validate_and_format listing_transport 0 two_grouped ["777"; "555"] "json"
  = Raise ValueError.
Proof.
  destruct (non_object_answer_breaks_report listing_transport 5 two_grouped
              ["777"; "555"] "json") as [_ H5].
  destruct (non_object_answer_breaks_report listing_transport 0 two_grouped
              ["777"; "555"] "json") as [H0 _].
  split.
  - apply (H5 "777" "[]" (VList [])); try reflexivity.
    + constructor; [intros [H|[]]; discriminate H|].
      constructor; [intros []|constructor].
    + left. reflexivity.
  - apply H0. discriminate.
Defined.

End BulkMore.

(* ===================================================================== *)
(** * Properties of the Validator Service                                 *)
(* ===================================================================== *)

Section ServiceProperties.
Import Py ValidationEngine ValidatorService.

(** ** Normalised amounts *)

Lemma truthy_not_zero (v : pyval) :
  truthy v = true -> is_none v = false /\ py_eq v (VNum 0) = false.
Proof.
  destruct v as [ |b|q|s|l|d]; cbn [truthy is_none py_eq]; try discriminate;
    try (split; reflexivity).
  - intros ->. split; reflexivity.
  - intros H. split; [reflexivity|]. apply negb_true_iff, H.
Qed.

Lemma or_zero_amount (v : pyval) :
  is_none (or_ v (VNum 0)) = false /\
  (is_none (or_ v (VNum 0)) || py_eq (or_ v (VNum 0)) (VNum 0)) = negb (truthy v).
Proof.
  unfold or_. destruct (truthy v) eqn:Ht.
  - destruct (truthy_not_zero v Ht) as [-> ->]. split; reflexivity.
  - split; reflexivity.
Qed.

Lemma normalised_charge_checks (one_time recurring allow_zero : pyval) :
  charge_checks
    (VDict [(VStr "one_time", or_ one_time (VNum 0));
            (VStr "recurring", or_ recurring (VNum 0))]) allow_zero
  = truthy allow_zero || (truthy one_time || truthy recurring).
Proof.
  unfold charge_checks. cbn [is_none].
  change (dict_get [(VStr "one_time", or_ one_time (VNum 0));
                    (VStr "recurring", or_ recurring (VNum 0))] "one_time" VNone)
    with (or_ one_time (VNum 0)).
  change (dict_get [(VStr "one_time", or_ one_time (VNum 0));
                    (VStr "recurring", or_ recurring (VNum 0))] "recurring" VNone)
    with (or_ recurring (VNum 0)).
  destruct (or_zero_amount one_time) as [Hn1 Hz1].
  destruct (or_zero_amount recurring) as [Hn2 Hz2].
  rewrite Hz1, Hz2, Hn1. cbn [andb].
  destruct (truthy allow_zero), (truthy one_time), (truthy recurring); reflexivity.
Qed.

Lemma inner_or_dict (d : list (pyval * pyval)) (outer inner : string)
    (otherwise : result pyval) :
  (exists o, otherwise = Ok o) ->
  exists v, inner_or (VDict d) outer inner otherwise = Ok v.
Proof.
  intros [o ->]. unfold inner_or, get, dict_get.
  destruct (lookup_item d outer) as [[]|]; cbn; eauto.
Qed.

Lemma normalize_record (d : list (pyval * pyval)) :
  d <> [] ->
  exists id product_name product_code status disconnect_info asset_reference
         original_oli_id billing_number,
    _normalize_asset (VDict d) =
    Ok (VDict
          [(VStr "id", id);
           (VStr "product_name", product_name);
           (VStr "product_code", product_code);
           (VStr "status", status);
           (VStr "charges",
            VDict [(VStr "one_time",
                    or_ (dict_get d "vlocity_cmt__OneTimeCharge__c" VNone) (VNum 0));
                   (VStr "recurring",
                    or_ (dict_get d "vlocity_cmt__RecurringCharge__c" VNone) (VNum 0))]);
           (VStr "disconnect_info", disconnect_info);
           (VStr "asset_reference", asset_reference);
           (VStr "original_oli_id", original_oli_id);
           (VStr "billing_number", billing_number)]) /\
    id = dict_get d "Id" VNone.
Proof.
  intros Hne. unfold _normalize_asset.
  destruct d as [|kv d']; [congruence|]. cbn [truthy negb].
  set (d := kv :: d').
  destruct (inner_or_dict d "Product2" "Name"
              (get (VDict d) "Product2.Name" VNone)) as [n Hn];
    [eexists; reflexivity|].
  destruct (inner_or_dict d "Product2" "ProductCode"
              (get (VDict d) "Product2.ProductCode" VNone)) as [c Hc];
    [eexists; reflexivity|].
  destruct (inner_or_dict d "vlocity_cmt__BillingAccountId__r"
              "PR_Mobile_Billing_Number__c" (mret VNone)) as [b Hb];
    [eexists; reflexivity|].
  rewrite Hn, Hc, Hb. cbn [get mbind result_bind mret result_ret].
  do 8 eexists. split; reflexivity.
Qed.

(** X25.  [_normalize_asset] answers [None] for a missing record (an
    empty one included), raises an [AttributeError] for any other value
    that is not a dict, and turns a record into a dict with the same nine
    keys whatever the record holds; the two amounts of its [charges] are
    never [None]: a missing, null or zero amount becomes the number 0, any
    other amount is kept. *)
Theorem normalised_asset_shape (asset : pyval) :
  (truthy asset = false -> _normalize_asset asset = Ok VNone) /\
  (truthy asset = true -> is_dict asset = false ->
   _normalize_asset asset = Raise AttributeError) /\
  (forall d, asset = VDict d -> d <> [] ->
   exists n c,
     _normalize_asset asset = Ok (VDict n) /\
     map fst n = normalised_keys /\
     dict_get n "id" VNone = dict_get d "Id" VNone /\
     dict_get n "charges" VNone = VDict c /\
     map fst c = [VStr "one_time"; VStr "recurring"] /\
     dict_get c "one_time" VNone =
       or_ (dict_get d "vlocity_cmt__OneTimeCharge__c" VNone) (VNum 0) /\
     dict_get c "recurring" VNone =
       or_ (dict_get d "vlocity_cmt__RecurringCharge__c" VNone) (VNum 0) /\
     is_none (dict_get c "one_time" VNone) = false /\
     is_none (dict_get c "recurring" VNone) = false).
Proof.
  split; [|split].
  - intros Ht. unfold _normalize_asset. rewrite Ht. reflexivity.
  - intros Ht Hd. unfold _normalize_asset. rewrite Ht. cbn [negb].
    destruct asset; try reflexivity. discriminate Hd.
  - intros d -> Hne.
    destruct (normalize_record d Hne)
      as (id & pn & pc & st & di & ar & oo & bn & Hn & ->).
    eexists. eexists. split; [exact Hn|]. split; [reflexivity|].
    split; [reflexivity|]. split; [reflexivity|]. split; [reflexivity|].
    change (dict_get _ "one_time" VNone)
      with (or_ (dict_get d "vlocity_cmt__OneTimeCharge__c" VNone) (VNum 0)).
    change (dict_get _ "recurring" VNone)
      with (or_ (dict_get d "vlocity_cmt__RecurringCharge__c" VNone) (VNum 0)).
    split; [reflexivity|]. split; [reflexivity|].
    split; apply or_zero_amount.
Qed.

Lemma normalised_asset_shape_witness :
  _normalize_asset (VDict []) = Ok VNone /\
  _normalize_asset (VStr "02i1") = Raise AttributeError /\
  exists n c,
    _normalize_asset (VDict raw_device) = Ok (VDict n) /\
    dict_get n "charges" VNone = VDict c /\
    is_none (dict_get c "recurring" VNone) = false.
Proof.
  split; [|split].
  - apply (proj1 (normalised_asset_shape (VDict []))). reflexivity.
  - apply (proj1 (proj2 (normalised_asset_shape (VStr "02i1")))); reflexivity.
  - destruct (proj2 (proj2 (normalised_asset_shape (VDict raw_device)))
                raw_device eq_refl)
      as (n & c & Hn & _ & _ & Hc & _ & _ & _ & _ & Hr); [discriminate|].
    exists n, c. auto.
Defined.

(** The recurring amount of the sample device is null in the record and 0
    after normalisation. *)
Example raw_device_normalised :
  (n ← _normalize_asset (VDict raw_device);
   charges ← get n "charges" VNone;
   get charges "recurring" VNone) = Ok (VNum 0).
Proof. reflexivity. Qed.

(** ** Normalised bundles and the charge strategies *)

Lemma normalize_or_nothing (asset : pyval) :
  record_or_nothing asset ->
  exists n,
    _normalize_asset asset = Ok n /\
    truthy n = truthy asset /\
    (truthy asset = true ->
     exists d, n = VDict d /\
       forall allow_zero,
         charge_checks (dict_get d "charges" VNone) allow_zero
         = truthy allow_zero || carries_charge asset).
Proof.
  intros [Hf|Hd].
  - exists VNone. split; [|split].
    + unfold _normalize_asset. rewrite Hf. reflexivity.
    + rewrite Hf. reflexivity.
    + rewrite Hf. discriminate.
  - destruct asset as [ | | | | |d]; try discriminate Hd.
    destruct d as [|kv d'].
    + exists VNone. split; [reflexivity|]. split; [reflexivity|discriminate].
    + destruct (normalize_record (kv :: d'))
        as (id & pn & pc & st & di & ar & oo & bn & Hn & _); [discriminate|].
      eexists. split; [exact Hn|]. split; [reflexivity|]. intros _.
      eexists. split; [reflexivity|]. intros allow_zero.
      change (dict_get _ "charges" VNone)
        with (VDict [(VStr "one_time",
                      or_ (dict_get (kv :: d') "vlocity_cmt__OneTimeCharge__c" VNone)
                          (VNum 0));
                     (VStr "recurring",
                      or_ (dict_get (kv :: d') "vlocity_cmt__RecurringCharge__c" VNone)
                          (VNum 0))]).
      apply normalised_charge_checks.
Qed.

Lemma normalize_list_charges (assets : list pyval) (allow_zero : pyval) :
  Forall record_or_nothing assets ->
  exists ns,
    _normalize_assets_list assets = Ok ns /\
    length ns = length (List.filter truthy assets) /\
    children_loop ns allow_zero =
      Ok (forallb (fun a => truthy allow_zero || carries_charge a)
                  (List.filter truthy assets)).
Proof.
  induction 1 as [|a rest Ha _ (ns & Hns & Hlen & Hloop)]; cbn [_normalize_assets_list].
  - exists []. repeat split.
  - destruct (normalize_or_nothing a Ha) as (n & Hn & _ & Hcharges).
    cbn [List.filter]. destruct (truthy a) eqn:Ht.
    + destruct (Hcharges eq_refl) as (d & -> & Hd).
      rewrite Hn, Hns. cbn [mbind result_bind mret result_ret].
      exists (VDict d :: ns). split; [reflexivity|].
      split; [cbn [length]; rewrite Hlen; reflexivity|].
      cbn [children_loop get mbind result_bind forallb]. rewrite Hd.
      destruct (truthy allow_zero || carries_charge a); [exact Hloop|reflexivity].
    + exists ns. auto.
Qed.

Lemma children_strategy_on (label : string) (ns : list pyval)
    (children : pyval) (allow_zero : pyval) (b : bool) :
  children = VList ns ->
  children_loop ns allow_zero = Ok b ->
  (if negb (truthy children) then mret true
   else cs ← iter children; children_loop cs allow_zero) = Ok b.
Proof.
  intros -> Hloop. destruct ns as [|n ns'].
  - cbn in Hloop. injection Hloop as <-. reflexivity.
  - cbn [truthy negb iter mbind result_bind]. exact Hloop.
Qed.

(** X26.  On the bundle that [validate_msisdn] hands to the engine, no
    charge check is decided by a missing amount: the device check passes
    exactly when there is a device and either [allow_zero] is truthy or one
    of its raw amounts is neither null nor zero, and a children check
    passes exactly when this holds for every child that is not empty.  With
    a truthy [allow_zero], a device whose amounts are both null passes. *)
Theorem normalised_bundle_charges (assets_data : AssetFetcher.assets)
    (allow_zero : pyval) :
  record_or_nothing (AssetFetcher.latest_line assets_data) ->
  record_or_nothing (AssetFetcher.device assets_data) ->
  Forall record_or_nothing (AssetFetcher.line_children assets_data) ->
  Forall record_or_nothing (AssetFetcher.device_children assets_data) ->
  exists bundle,
    assets_for_validation assets_data = Ok bundle /\
    _validate_device_charges bundle allow_zero =
      Ok (truthy (AssetFetcher.device assets_data) &&
          (truthy allow_zero || carries_charge (AssetFetcher.device assets_data))) /\
    _validate_line_children_charges bundle allow_zero =
      Ok (forallb (fun a => truthy allow_zero || carries_charge a)
            (List.filter truthy (AssetFetcher.line_children assets_data))) /\
    _validate_device_children_charges bundle allow_zero =
      Ok (forallb (fun a => truthy allow_zero || carries_charge a)
            (List.filter truthy (AssetFetcher.device_children assets_data))).
Proof.
  intros Hline Hdev Hlc Hdc. unfold assets_for_validation.
  destruct (normalize_or_nothing _ Hline) as (line & -> & _ & _).
  destruct (normalize_or_nothing _ Hdev) as (dev & -> & Htd & Hcd).
  destruct (normalize_list_charges _ allow_zero Hlc) as (lc & -> & _ & Hlcl).
  destruct (normalize_list_charges _ allow_zero Hdc) as (dc & -> & _ & Hdcl).
  cbn [mbind result_bind mret result_ret].
  eexists. split; [reflexivity|]. split; [|split].
  - unfold _validate_device_charges. cbn [get mbind result_bind].
    change (dict_get _ "device" VNone) with dev. rewrite Htd.
    destruct (truthy (AssetFetcher.device assets_data)) eqn:Ht; [|reflexivity].
    destruct (Hcd eq_refl) as (d & -> & Hd).
    cbn [negb get mbind result_bind mret result_ret andb]. rewrite Hd. reflexivity.
  - unfold _validate_line_children_charges. cbn [get mbind result_bind].
    apply (children_strategy_on "line_children" lc); [reflexivity|exact Hlcl].
  - unfold _validate_device_children_charges. cbn [get mbind result_bind].
    apply (children_strategy_on "device_children" dc); [reflexivity|exact Hdcl].
Qed.

Lemma normalised_bundle_charges_witness :
  exists bundle,
    assets_for_validation unpriced_assets = Ok bundle /\
    _validate_device_charges bundle (VBool true) = Ok true /\
    _validate_device_children_charges bundle (VBool true) = Ok true.
Proof.
  destruct (normalised_bundle_charges unpriced_assets (VBool true))
    as (bundle & Hb & Hd & _ & Hc).
  - right. reflexivity.
  - right. reflexivity.
  - constructor.
  - constructor; [right; reflexivity|]. constructor; [left; reflexivity|constructor].
  - exists bundle. split; [exact Hb|]. split; [exact Hd|exact Hc].
Defined.

(** The same device fails as soon as zero is not allowed. *)
Example unpriced_device_strict :
  (bundle ← assets_for_validation unpriced_assets;
   _validate_device_charges bundle (VBool false)) = Ok false.
Proof. reflexivity. Qed.

End ServiceProperties.
